(** * StudyBuddy: form validation, form submission and persisted preferences

    A shallow embedding of the validation, submission and persistence code of
    the StudyFlow page scripts:
      - [signin-script.js]: ThemeManager, FormValidator,
        AuthenticationManager, [formatPhoneNumber];
      - [help-script.js]: TicketManager, FAQManager;
      - the support page script: DonationManager, SocialSharingManager;
      - the site script: ThemeCustomizer, TypingEffect, [debounce] and
        [throttle].

    Conventions of the embedding.
      - A JavaScript string is the list of its UTF-16 code units ([list N]).
      - A JavaScript number that the code only ever uses as an integer is a
        [Z]; NaN and null are written out where the code can produce them.
        Integers up to 2^53 in magnitude are exact doubles, and the only
        arithmetic that could leave that range ([shareCount++]) is written
        with its rounding.
      - The page markup is not part of the scripts.  An element that a
        method dereferences unconditionally is part of the state record; an
        element reached through [?.] or a null test is optional.
      - A method that can throw returns an [outcome] carrying the state at
        the point of the throw.
      - localStorage is a finite map from strings to strings. *)

From Stdlib Require Import ZArith NArith List String Ascii Bool Lia ZifyBool QArith Qminmax.
From stdpp Require Import base option list gmap.

Local Open Scope N_scope.

(** ** JavaScript strings *)

Module JS.

(** An ASCII string literal of the source, as code units. *)
Definition str (s : string) : list N :=
  map N_of_ascii (list_ascii_of_string s).

(** WhiteSpace and LineTerminator code units: what [String.prototype.trim]
    strips and what the regular expression class [\s] matches. *)
Definition is_space (c : N) : bool :=
  ((9 <=? c) && (c <=? 13)) || (c =? 32) || (c =? 160) || (c =? 0x1680)
  || ((0x2000 <=? c) && (c <=? 0x200A)) || (c =? 0x2028) || (c =? 0x2029)
  || (c =? 0x202F) || (c =? 0x205F) || (c =? 0x3000) || (c =? 0xFEFF).

(** The class [\d]. *)
Definition is_digit (c : N) : bool := (48 <=? c) && (c <=? 57).

Fixpoint trimStart (s : list N) : list N :=
  match s with
  | [] => []
  | c :: t => if is_space c then trimStart t else s
  end.

Definition trimEnd (s : list N) : list N := rev (trimStart (rev s)).

Definition trim (s : list N) : list N := trimEnd (trimStart s).

(** [s === ""] *)
Definition is_empty (s : list N) : bool :=
  match s with [] => true | _ => false end.

(** ToBoolean on a string: only the empty string is falsy. *)
Definition truthy (s : list N) : bool := negb (is_empty s).

(** [a === b] on strings *)
Fixpoint str_eqb (a b : list N) : bool :=
  match a, b with
  | [], [] => true
  | x :: a', y :: b' => (x =? y) && str_eqb a' b'
  | _, _ => false
  end.

(** Decimal digits of a natural number, most significant first. *)
Fixpoint digits_fuel (fuel : nat) (n : N) (acc : list N) : list N :=
  match fuel with
  | O => acc
  | S f =>
      let acc' := (48 + n mod 10) :: acc in
      if n <? 10 then acc' else digits_fuel f (n / 10) acc'
  end.

Definition N_to_string (n : N) : list N :=
  digits_fuel (S (N.to_nat (N.log2 n))) n [].

(** Number::toString(10) on an integer-valued number below 10^21 in
    magnitude. *)
Definition Z_to_string (z : Z) : list N :=
  match z with
  | Z0 => [48]
  | Zpos p => N_to_string (Npos p)
  | Zneg p => 45 :: N_to_string (Npos p)
  end.

(** Value of a run of decimal digits. *)
Definition digits_val (ds : list N) : N :=
  fold_left (fun acc d => 10 * acc + (d - 48)) ds 0.

(** Longest prefix whose code units satisfy [p], and the rest. *)
Fixpoint span (p : N -> bool) (s : list N) : list N * list N :=
  match s with
  | [] => ([], [])
  | c :: t => if p c then let '(a, b) := span p t in (c :: a, b) else ([], s)
  end.

(** The rest of [s] after a leading [c], if [s] starts with [c]. *)
Definition strip_char (c : N) (s : list N) : option (list N) :=
  match s with
  | x :: t => if x =? c then Some t else None
  | [] => None
  end.

(** [toLowerCase] on a code unit below 128. *)
Definition lower (c : N) : N :=
  if (65 <=? c) && (c <=? 90) then c + 32 else c.

(** A hexadecimal digit of either case: [[a-f\d]] under the [i] flag. *)
Definition is_hex (c : N) : bool :=
  is_digit c || ((97 <=? c) && (c <=? 102)) || ((65 <=? c) && (c <=? 70)).

Definition hex_val (c : N) : Z :=
  if is_digit c then Z.of_N c - 48
  else if (97 <=? c) && (c <=? 102) then Z.of_N c - 87
  else Z.of_N c - 55.

(** The lower-case digit of a value below 16. *)
Definition hex_digit (d : Z) : N :=
  if (d <? 10)%Z then Z.to_N (48 + d) else Z.to_N (87 + d).

(** What a method call can do besides returning. *)
Inductive jserror : Type := SyntaxError | TypeError.

(** The result of a method that can throw: the state it returns with, or
    the error and the state at the throw.  [OutOfModel] marks the inputs on
    which the method goes on computing with a value this embedding has no
    arithmetic for (a fractional or out-of-range number, or a value that
    JavaScript would coerce). *)
Inductive outcome (A : Type) : Type :=
| Returned (a : A)
| Threw (e : jserror) (a : A)
| OutOfModel.
Arguments Returned {A} a.
Arguments Threw {A} e a.
Arguments OutOfModel {A}.

End JS.

(** ** Regular expressions

    The patterns of the source are all anchored ([^...$], no [m] flag), so
    [RegExp.prototype.test] is a full match; it is decided by derivatives. *)

Module Regex.

Inductive regex : Type :=
| Void
| Eps
| Class (p : N -> bool)
| Cat (r1 r2 : regex)
| Alt (r1 r2 : regex)
| Star (r : regex).

Definition Chr (c : N) : regex := Class (N.eqb c).
(** [r+] *)
Definition Plus (r : regex) : regex := Cat r (Star r).
(** [r?] *)
Definition Opt (r : regex) : regex := Alt r Eps.

Fixpoint nullable (r : regex) : bool :=
  match r with
  | Void => false
  | Eps => true
  | Class _ => false
  | Cat r1 r2 => nullable r1 && nullable r2
  | Alt r1 r2 => nullable r1 || nullable r2
  | Star _ => true
  end.

Fixpoint deriv (c : N) (r : regex) : regex :=
  match r with
  | Void => Void
  | Eps => Void
  | Class p => if p c then Eps else Void
  | Cat r1 r2 =>
      if nullable r1 then Alt (Cat (deriv c r1) r2) (deriv c r2)
      else Cat (deriv c r1) r2
  | Alt r1 r2 => Alt (deriv c r1) (deriv c r2)
  | Star r1 => Cat (deriv c r1) (Star r1)
  end.

(** [/^r$/.test(s)] *)
Fixpoint test (r : regex) (s : list N) : bool :=
  match s with
  | [] => nullable r
  | c :: t => test (deriv c r) t
  end.

(** The language of a pattern, to reason about [test]. *)
Inductive lang : regex -> list N -> Prop :=
| lang_eps : lang Eps []
| lang_class p c : p c = true -> lang (Class p) [c]
| lang_cat r1 r2 s1 s2 : lang r1 s1 -> lang r2 s2 -> lang (Cat r1 r2) (s1 ++ s2)
| lang_alt_l r1 r2 s : lang r1 s -> lang (Alt r1 r2) s
| lang_alt_r r1 r2 s : lang r2 s -> lang (Alt r1 r2) s
| lang_star_nil r : lang (Star r) []
| lang_star_app r s1 s2 :
    lang r s1 -> lang (Star r) s2 -> lang (Star r) (s1 ++ s2).

End Regex.

(** ** FormValidator (signin-script.js) *)

Module FormValidator.
Import JS Regex.

(** [{ isValid, message }] *)
Record result : Type := { isValid : bool; message : list N }.

(** [[^\s@]] *)
Definition not_space_at (c : N) : bool := negb (is_space c || (c =? 64)).

(** [[\d\s\-\(\)]] *)
Definition phone_char (c : N) : bool :=
  is_digit c || is_space c || (c =? 45) || (c =? 40) || (c =? 41).

(** [static rules] *)
Module rules.
(** [/^[^\s@]+@[^\s@]+\.[^\s@]+$/] *)
Definition email_pattern : regex :=
  Cat (Plus (Class not_space_at))
    (Cat (Chr 64)
       (Cat (Plus (Class not_space_at))
          (Cat (Chr 46) (Plus (Class not_space_at))))).
Definition email_message : list N := str "Please enter a valid email address".
Definition password_minLength : nat := 8.
Definition password_message : list N :=
  str "Password must be at least 8 characters long".
(** [/^[\d\s\-\(\)]+$/] *)
Definition phone_pattern : regex := Plus (Class phone_char).
Definition phone_minLength : nat := 10.
Definition phone_message : list N := str "Please enter a valid phone number".
End rules.

Definition validateEmail (email : list N) : result :=
  if negb (truthy email) || is_empty (trim email) then
    {| isValid := false; message := str "Email is required" |}
  else if negb (test rules.email_pattern email) then
    {| isValid := false; message := rules.email_message |}
  else {| isValid := true; message := [] |}.

Definition validatePassword (password : list N) : result :=
  if negb (truthy password) || is_empty (trim password) then
    {| isValid := false; message := str "Password is required" |}
  else if (length password <? rules.password_minLength)%nat then
    {| isValid := false; message := rules.password_message |}
  else {| isValid := true; message := [] |}.

Definition validatePhone (phone : list N) : result :=
  if negb (truthy phone) || is_empty (trim phone) then
    {| isValid := false; message := str "Phone number is required" |}
  else
    (* phone.replace(/\D/g, "") *)
    let digitsOnly := List.filter is_digit phone in
    if (length digitsOnly <? rules.phone_minLength)%nat then
      {| isValid := false; message := rules.phone_message |}
    else if negb (test rules.phone_pattern phone) then
      {| isValid := false; message := rules.phone_message |}
    else {| isValid := true; message := [] |}.

(** The strings the e-mail pattern accepts: a local part, [@], a domain
    label, a dot and a last part, each non-empty and free of white space
    and of [@]. *)
Definition email_shape (s : list N) : Prop :=
  exists l d t,
    s = l ++ 64 :: d ++ 46 :: t
    /\ l <> [] /\ d <> [] /\ t <> []
    /\ forallb not_space_at l = true
    /\ forallb not_space_at d = true
    /\ forallb not_space_at t = true.

(** As the specification words the accepted e-mails: no white space, one
    [@] after a non-empty local part, and at least one dot after the [@]. *)
Definition spec_email_shape (s : list N) : Prop :=
  forallb (fun c => negb (is_space c)) s = true
  /\ exists l d,
       s = l ++ 64 :: d /\ l <> [] /\ (64 ∉ l) /\ (64 ∉ d) /\ (46 ∈ d).

(** As the specification words the phone characters: digits, the space,
    parentheses and the hyphen. *)
Definition spec_phone_char (c : N) : bool :=
  is_digit c || (c =? 32) || (c =? 40) || (c =? 41) || (c =? 45).

End FormValidator.

(** ** JSON.stringify and JSON.parse *)

Module Json.
Import JS.

(** A JSON value.  [JNum m e] is the number written [m]e[e], that is
    m * 10^e; an object keeps its members in source order. *)
#[warnings="-register-all"]
Inductive json : Type :=
| JNull
| JBool (b : bool)
| JNum (m e : Z)
| JStr (s : list N)
| JArr (l : list json)
| JObj (l : list (list N * json)).

(** *** Serialization *)

Definition is_high (c : N) : bool := (0xD800 <=? c) && (c <=? 0xDBFF).
Definition is_low (c : N) : bool := (0xDC00 <=? c) && (c <=? 0xDFFF).

(** [\uXXXX], lower-case digits. *)
Definition uescape (c : N) : list N :=
  [92; 117;
   hex_digit (Z.of_N (c / 4096 mod 16)); hex_digit (Z.of_N (c / 256 mod 16));
   hex_digit (Z.of_N (c / 16 mod 16)); hex_digit (Z.of_N (c mod 16))].

(** One code unit that is no surrogate. *)
Definition escape1 (c : N) : list N :=
  if c =? 8 then [92; 98]
  else if c =? 9 then [92; 116]
  else if c =? 10 then [92; 110]
  else if c =? 12 then [92; 102]
  else if c =? 13 then [92; 114]
  else if c =? 34 then [92; 34]
  else if c =? 92 then [92; 92]
  else if c <? 32 then uescape c
  else [c].

(** QuoteJSONString without the enclosing quotes: a surrogate pair is kept,
    a lone surrogate is escaped. *)
Fixpoint quote_body (s : list N) : list N :=
  match s with
  | [] => []
  | c :: t =>
      if is_high c then
        match t with
        | d :: t' =>
            if is_low d then c :: d :: quote_body t'
            else uescape c ++ quote_body t
        | [] => uescape c
        end
      else if is_low c then uescape c ++ quote_body t
      else escape1 c ++ quote_body t
  end.

Definition quote (s : list N) : list N := 34 :: quote_body s ++ [34].

Fixpoint join_comma (l : list (list N)) : list N :=
  match l with
  | [] => []
  | [x] => x
  | x :: t => x ++ 44 :: join_comma t
  end.

(** [JSON.stringify(v)].  A number is printed as Number::toString prints an
    integer below 10^21 in magnitude; every number the scripts serialize is
    [JNum m 0] with such an [m]. *)
Fixpoint stringify (v : json) : list N :=
  match v with
  | JNull => str "null"
  | JBool true => str "true"
  | JBool false => str "false"
  | JNum m e =>
      Z_to_string m ++ (if (e =? 0)%Z then [] else 101 :: Z_to_string e)
  | JStr s => quote s
  | JArr l => 91 :: join_comma (List.map stringify l) ++ [93]
  | JObj l =>
      123 :: join_comma
               (List.map (fun kv => match kv with
                                    | (k, x) => quote k ++ 58 :: stringify x
                                    end) l) ++ [125]
  end.

(** *** Parsing *)

Definition is_ws (c : N) : bool :=
  (c =? 32) || (c =? 9) || (c =? 10) || (c =? 13).

Fixpoint skip_ws (s : list N) : list N :=
  match s with
  | [] => []
  | c :: t => if is_ws c then skip_ws t else s
  end.

Definition hex4 (a b c d : N) : option N :=
  if is_hex a && is_hex b && is_hex c && is_hex d then
    Some (Z.to_N (4096 * hex_val a + 256 * hex_val b + 16 * hex_val c + hex_val d))
  else None.

Definition unescape (e : N) : option N :=
  if (e =? 34) || (e =? 92) || (e =? 47) then Some e
  else if e =? 98 then Some 8
  else if e =? 102 then Some 12
  else if e =? 110 then Some 10
  else if e =? 114 then Some 13
  else if e =? 116 then Some 9
  else None.

Definition cons_res (u : N) (res : option (list N * list N))
  : option (list N * list N) :=
  match res with
  | Some (a, rest) => Some (u :: a, rest)
  | None => None
  end.

(** The characters of a string up to its closing quote, and what follows. *)
Fixpoint parse_string_body (s : list N) : option (list N * list N) :=
  match s with
  | [] => None
  | c :: t =>
      if c =? 34 then Some ([], t)
      else if c =? 92 then
        match t with
        | e :: t' =>
            if e =? 117 then
              match t' with
              | h1 :: h2 :: h3 :: h4 :: t'' =>
                  match hex4 h1 h2 h3 h4 with
                  | Some u => cons_res u (parse_string_body t'')
                  | None => None
                  end
              | _ => None
              end
            else
              match unescape e with
              | Some u => cons_res u (parse_string_body t')
              | None => None
              end
        | [] => None
        end
      else if c <? 32 then None
      else cons_res c (parse_string_body t)
  end.

Fixpoint strip_prefix (lit s : list N) : option (list N) :=
  match lit, s with
  | [], _ => Some s
  | a :: lit', c :: t => if a =? c then strip_prefix lit' t else None
  | _ :: _, [] => None
  end.

(** [.digits], optional: the digits and the rest. *)
Definition parse_frac (s : list N) : option (list N * list N) :=
  match strip_char 46 s with
  | Some t =>
      match span is_digit t with
      | ([], _) => None
      | (fs, rest) => Some (fs, rest)
      end
  | None => Some ([], s)
  end.

(** [e], a sign and digits, optional: the exponent and the rest. *)
Definition parse_exp (s : list N) : option (Z * list N) :=
  match s with
  | x :: t =>
      if (x =? 101) || (x =? 69) then
        let '(eneg, t1) :=
          match strip_char 45 t, strip_char 43 t with
          | Some u, _ => (true, u)
          | None, Some u => (false, u)
          | None, None => (false, t)
          end in
        match span is_digit t1 with
        | ([], _) => None
        | (es, rest) =>
            let v := Z.of_N (digits_val es) in
            Some (if eneg then (- v)%Z else v, rest)
        end
      else Some (0%Z, s)
  | [] => Some (0%Z, s)
  end.

(** A number: an optional minus sign, an integer part without a leading
    zero (or a single zero), an optional fraction, an optional exponent. *)
Definition parse_number (s : list N) : option (json * list N) :=
  let '(neg, s1) :=
    match strip_char 45 s with Some t => (true, t) | None => (false, s) end in
  match s1 with
  | [] => None
  | d :: t =>
      if is_digit d then
        let '(ip, s2) := if d =? 48 then ([48], t) else span is_digit s1 in
        match parse_frac s2 with
        | Some (fs, s3) =>
            match parse_exp s3 with
            | Some (ex, s4) =>
                let m := Z.of_N (digits_val (ip ++ fs)) in
                Some (JNum (if neg then (- m)%Z else m)
                        (ex - Z.of_nat (length fs))%Z, s4)
            | None => None
            end
        | None => None
        end
      else None
  end.

(** The elements of an array after the first [[]: values separated by
    commas, up to the closing bracket.  [pv] parses one value. *)
Fixpoint parse_elems (pv : list N -> option (json * list N)) (n : nat)
    (s : list N) : option (list json * list N) :=
  match n with
  | O => None
  | S n' =>
      match pv s with
      | Some (x, rest) =>
          match skip_ws rest with
          | 44 :: rest' =>
              match parse_elems pv n' rest' with
              | Some (xs, rest'') => Some (x :: xs, rest'')
              | None => None
              end
          | 93 :: rest' => Some ([x], rest')
          | _ => None
          end
      | None => None
      end
  end.

(** The members of an object after the first [{]. *)
Fixpoint parse_members (pv : list N -> option (json * list N)) (n : nat)
    (s : list N) : option (list (list N * json) * list N) :=
  match n with
  | O => None
  | S n' =>
      match skip_ws s with
      | 34 :: t =>
          match parse_string_body t with
          | Some (k, rest) =>
              match skip_ws rest with
              | 58 :: rest1 =>
                  match pv rest1 with
                  | Some (x, rest2) =>
                      match skip_ws rest2 with
                      | 44 :: rest3 =>
                          match parse_members pv n' rest3 with
                          | Some (ms, rest4) => Some ((k, x) :: ms, rest4)
                          | None => None
                          end
                      | 125 :: rest3 => Some ([(k, x)], rest3)
                      | _ => None
                      end
                  | None => None
                  end
              | _ => None
              end
          | None => None
          end
      | _ => None
      end
  end.

(** One value, after optional white space, and the rest of the input. *)
Fixpoint parse_value (fuel : nat) (s : list N) : option (json * list N) :=
  match fuel with
  | O => None
  | S f =>
      match skip_ws s with
      | [] => None
      | c :: t =>
          if c =? 110 then
            match strip_prefix (str "ull") t with
            | Some rest => Some (JNull, rest)
            | None => None
            end
          else if c =? 116 then
            match strip_prefix (str "rue") t with
            | Some rest => Some (JBool true, rest)
            | None => None
            end
          else if c =? 102 then
            match strip_prefix (str "alse") t with
            | Some rest => Some (JBool false, rest)
            | None => None
            end
          else if c =? 34 then
            match parse_string_body t with
            | Some (x, rest) => Some (JStr x, rest)
            | None => None
            end
          else if c =? 91 then
            match skip_ws t with
            | 93 :: rest => Some (JArr [], rest)
            | _ =>
                match parse_elems (parse_value f) f t with
                | Some (xs, rest) => Some (JArr xs, rest)
                | None => None
                end
            end
          else if c =? 123 then
            match skip_ws t with
            | 125 :: rest => Some (JObj [], rest)
            | _ =>
                match parse_members (parse_value f) f t with
                | Some (ms, rest) => Some (JObj ms, rest)
                | None => None
                end
            end
          else parse_number (c :: t)
      end
  end.

(** [JSON.parse(s)]; [None] is the SyntaxError.  Every nesting level and
    every element consumes a code unit, so the length of the input bounds
    both recursions. *)
Definition parse (s : list N) : option json :=
  match parse_value (S (length s)) s with
  | Some (v, rest) => if is_empty (skip_ws rest) then Some v else None
  | None => None
  end.

(** What follows a value inside an array or an object. *)
Definition ends_number (c : N) : Prop := c = 44 \/ c = 93 \/ c = 125.

(** A JSON text of an example, written with ['] for the double quote. *)
Definition text (s : string) : list N :=
  List.map (fun c => if c =? 39 then 34 else c) (str s).

(** *** Reading a parsed value *)

(** [v[k]] for a key that no prototype defines; [None] is [undefined].
    A repeated key keeps its last value. *)
Definition get (v : json) (k : list N) : option json :=
  match v with
  | JObj l => snd <$> List.find (fun kv => str_eqb (fst kv) k) (rev l)
  | _ => None
  end.

(** The integer that [JNum m e] denotes when it is one of magnitude at most
    2^53: those are doubles, so the parsed number is that integer. *)
Definition as_safe_int (m e : Z) : option Z :=
  let check v := if (Z.abs v <=? 2 ^ 53)%Z then Some v else None in
  if (m =? 0)%Z then Some 0%Z
  else if (0 <=? e)%Z then
    if (e <=? 16)%Z then check (m * 10 ^ e)%Z else None
  else
    let d := (10 ^ (- e))%Z in
    if (m mod d =? 0)%Z then check (m / d)%Z else None.

End Json.

(** ** Colour helpers (ThemeManager and ThemeCustomizer share them) *)

Module Color.
Import JS Regex.

(** A number that may be NaN. *)
Abbreviation number := (option Z) (only parsing).
Abbreviation NaN := (@None Z) (only parsing).

(** [{ r, g, b }] *)
Record rgb : Type := { r : number; g : number; b : number }.

(** [/^#?([a-f\d]{2})([a-f\d]{2})([a-f\d]{2})$/i] *)
Definition hex_pattern : regex :=
  let h2 := Cat (Class is_hex) (Class is_hex) in
  Cat (Opt (Chr 35)) (Cat h2 (Cat h2 h2)).

(** [hex_pattern.exec(hex)]: the three captured groups.  The groups have a
    fixed width and [#] is no hex digit, so on a match they are the three
    pairs that follow the optional [#]. *)
Definition exec_hex (hex : list N) : option (list N * list N * list N) :=
  if test hex_pattern hex then
    let body := default hex (strip_char 35 hex) in
    Some (take 2 body, take 2 (drop 2 body), take 2 (drop 4 body))
  else None.

(** [parseInt(s, 16)]: leading white space, a sign, an optional [0x], then
    the longest run of hex digits; NaN when that run is empty. *)
Definition parseInt16 (s : list N) : number :=
  let s1 := trimStart s in
  let '(neg, s2) :=
    match strip_char 45 s1, strip_char 43 s1 with
    | Some t, _ => (true, t)
    | None, Some t => (false, t)
    | None, None => (false, s1)
    end in
  let s3 :=
    match s2 with
    | z :: x :: t =>
        if (z =? 48) && ((x =? 120) || (x =? 88)) then t else s2
    | _ => s2
    end in
  match fst (span is_hex s3) with
  | [] => NaN
  | ds =>
      let v := fold_left (fun acc d => 16 * acc + hex_val d)%Z ds 0%Z in
      Some (if neg then - v else v)%Z
  end.

Definition hexToRgb (hex : list N) : option rgb :=
  match exec_hex hex with
  | Some (g1, g2, g3) =>
      Some {| r := parseInt16 g1; g := parseInt16 g2; b := parseInt16 g3 |}
  | None => None
  end.

(** ToInt32 *)
Definition wrap32 (z : Z) : Z := ((z + 2 ^ 31) mod 2 ^ 32 - 2 ^ 31)%Z.

(** [a << k]: ToInt32 of the left operand (NaN becomes 0), the shift count
    taken modulo 32, the result wrapped to 32 bits. *)
Definition shl (a : number) (k : Z) : Z :=
  wrap32 (Z.shiftl (wrap32 (default 0%Z a)) (k mod 32)).

Fixpoint hex_fuel (fuel : nat) (n : Z) (acc : list N) : list N :=
  match fuel with
  | O => acc
  | S f =>
      let acc' := hex_digit (n mod 16) :: acc in
      if (n <? 16)%Z then acc' else hex_fuel f (n / 16) acc'
  end.

(** [Number.prototype.toString(16)] on an integer or NaN. *)
Definition toString16 (x : number) : list N :=
  match x with
  | None => str "NaN"
  | Some z =>
      if (z <? 0)%Z then 45 :: hex_fuel (S (Z.to_nat (Z.log2 (- z)))) (- z) []
      else hex_fuel (S (Z.to_nat (Z.log2 z))) z []
  end.

Definition rgbToHex (c : rgb) : list N :=
  let sum := match b c with
             | Some bz => Some (shl (Some 1%Z) 24 + shl (r c) 16 + shl (g c) 8 + bz)%Z
             | None => NaN
             end in
  35 :: drop 1 (toString16 sum).

(** [Math.max(0, Math.min(255, Math.floor(x + (x * percent) / 100)))] for
    an integer channel [x] and an integer [percent]: the floor of the exact
    quotient (the two roundings of the double division and addition do not
    cross an integer for channels and percentages of this size). *)
Definition adjust (x : number) (percent : Z) : number :=
  match x with
  | Some z => Some (Z.max 0 (Z.min 255 ((100 * z + z * percent) / 100)))
  | None => NaN
  end.

(** ThemeManager.adjustBrightness; the argument may be [null], and reading
    [rgb.r] then throws. *)
Definition adjustBrightness (c : option rgb) (percent : Z) : option rgb :=
  match c with
  | Some c =>
      Some {| r := adjust (r c) percent;
              g := adjust (g c) percent;
              b := adjust (b c) percent |}
  | None => None
  end.

(** An optional [#] and exactly six hexadecimal digits [ds]. *)
Definition hex_shape (s ds : list N) : Prop :=
  length ds = 6%nat /\ forallb is_hex ds = true /\ (s = ds \/ s = 35 :: ds).

End Color.

(** ** ToastManager (the three scripts carry the same class) *)

Module ToastManager.

(** The [type] argument; the scripts pass one of three literals. *)
Inductive severity : Type := info | success | error.

Record toast : Type :=
  { text : list N; type : severity; duration : Z }.

(** [ToastManager.show(message, type, duration)] appends a toast to the
    container.  [text] is the message as [show] receives it: the script
    writes it into the toast with [innerHTML], so the browser reads it as
    markup, and it is what the user sees only when it holds no markup.
    The timer that removes the toast after [duration] milliseconds is not
    run here: the list is the toasts made so far. *)
Definition show (message : list N) (ty : severity) (dur : Z)
    (container : list toast) : list toast :=
  container ++ [{| text := message; type := ty; duration := dur |}].

(** [duration = 4000] *)
Definition default_duration : Z := 4000.

End ToastManager.

(** ** SocialSharingManager (support page script) *)

Module SocialSharingManager.
Import JS Json ToastManager.

(** The element with id [<platform>Status]: its text and, when it sits in
    a [.social-share-btn], whether that button has the class [shared]. *)
Record status_el : Type :=
  { status_text : list N; btn_shared : option bool }.

Record state : Type :=
  { shareCount : Z;
    (** a [Set]: insertion order, no duplicates *)
    sharedPlatforms : list (list N);
    (** [progressFill.style.width], as the exact percentage; the script
        prints the double nearest to it *)
    progressFill_width : Q;
    progressMessage_text : list N;
    progressMessage_color : list N;
    shareCountElement_text : list N;
    (** [championSection.classList.contains("hidden")] *)
    championSection_hidden : bool;
    statusElements : gmap (list N) status_el;
    localStorage : gmap (list N) (list N);
    toastContainer : list toast }.

Definition set_count (c : Z) (st : state) : state :=
  {| shareCount := c; sharedPlatforms := sharedPlatforms st;
     progressFill_width := progressFill_width st;
     progressMessage_text := progressMessage_text st;
     progressMessage_color := progressMessage_color st;
     shareCountElement_text := shareCountElement_text st;
     championSection_hidden := championSection_hidden st;
     statusElements := statusElements st;
     localStorage := localStorage st;
     toastContainer := toastContainer st |}.

Definition set_platforms (ps : list (list N)) (st : state) : state :=
  {| shareCount := shareCount st; sharedPlatforms := ps;
     progressFill_width := progressFill_width st;
     progressMessage_text := progressMessage_text st;
     progressMessage_color := progressMessage_color st;
     shareCountElement_text := shareCountElement_text st;
     championSection_hidden := championSection_hidden st;
     statusElements := statusElements st;
     localStorage := localStorage st;
     toastContainer := toastContainer st |}.

Definition set_hidden (h : bool) (st : state) : state :=
  {| shareCount := shareCount st; sharedPlatforms := sharedPlatforms st;
     progressFill_width := progressFill_width st;
     progressMessage_text := progressMessage_text st;
     progressMessage_color := progressMessage_color st;
     shareCountElement_text := shareCountElement_text st;
     championSection_hidden := h;
     statusElements := statusElements st;
     localStorage := localStorage st;
     toastContainer := toastContainer st |}.

Definition set_status (m : gmap (list N) status_el) (st : state) : state :=
  {| shareCount := shareCount st; sharedPlatforms := sharedPlatforms st;
     progressFill_width := progressFill_width st;
     progressMessage_text := progressMessage_text st;
     progressMessage_color := progressMessage_color st;
     shareCountElement_text := shareCountElement_text st;
     championSection_hidden := championSection_hidden st;
     statusElements := m;
     localStorage := localStorage st;
     toastContainer := toastContainer st |}.

Definition set_storage (ls : gmap (list N) (list N)) (st : state) : state :=
  {| shareCount := shareCount st; sharedPlatforms := sharedPlatforms st;
     progressFill_width := progressFill_width st;
     progressMessage_text := progressMessage_text st;
     progressMessage_color := progressMessage_color st;
     shareCountElement_text := shareCountElement_text st;
     championSection_hidden := championSection_hidden st;
     statusElements := statusElements st;
     localStorage := ls;
     toastContainer := toastContainer st |}.

Definition toast (message : list N) (ty : severity) (st : state) : state :=
  {| shareCount := shareCount st; sharedPlatforms := sharedPlatforms st;
     progressFill_width := progressFill_width st;
     progressMessage_text := progressMessage_text st;
     progressMessage_color := progressMessage_color st;
     shareCountElement_text := shareCountElement_text st;
     championSection_hidden := championSection_hidden st;
     statusElements := statusElements st;
     localStorage := localStorage st;
     toastContainer := show message ty default_duration (toastContainer st) |}.

Definition storage_key : list N := str "studyflow-share-progress".

(** [this.shareCount++] on an integer of magnitude at most 2^53: the sum
    2^53 + 1 is no double and rounds back to 2^53. *)
Definition incr (c : Z) : Z := if (c <? 2 ^ 53)%Z then (c + 1)%Z else c.

(** [Set.prototype.has] *)
Definition has (p : list N) (ps : list (list N)) : bool :=
  existsb (str_eqb p) ps.

(** [new Set(array)] on an array of strings: first occurrences, in order. *)
Fixpoint new_Set (l : list (list N)) (acc : list (list N)) : list (list N) :=
  match l with
  | [] => acc
  | p :: t => new_Set t (if has p acc then acc else acc ++ [p])
  end.

Definition party : list N := [0xD83C; 0xDF89].

(** [updateProgress()].  A negative percentage is no valid [width]: the
    assignment to [style.width] is then dropped and the bar keeps the
    width it had. *)
Definition updateProgress (st : state) : state :=
  let c := shareCount st in
  let percentage := Qmin (inject_Z c / 3 * 100)%Q 100%Q in
  {| shareCount := c; sharedPlatforms := sharedPlatforms st;
     progressFill_width :=
       if (c <? 0)%Z then progressFill_width st else percentage;
     progressMessage_text :=
       if (3 <=? c)%Z then party ++ str " You're a Community Champion!"
       else
         let remaining := (3 - c)%Z in
         str "Share on " ++ Z_to_string remaining ++ str " more "
           ++ (if (remaining =? 1)%Z then str "platform" else str "platforms")
           ++ str " to become a Community Champion!";
     progressMessage_color :=
       if (3 <=? c)%Z then str "var(--success-color)"
       else progressMessage_color st;
     shareCountElement_text := Z_to_string c;
     championSection_hidden := championSection_hidden st;
     statusElements := statusElements st;
     localStorage := localStorage st;
     toastContainer := toastContainer st |}.

Definition markPlatformShared (platform : list N) (st : state) : state :=
  let statusId := platform ++ str "Status" in
  match statusElements st !! statusId with
  | Some el =>
      set_status
        (<[statusId := {| status_text := [0x2713];
                          btn_shared := (fun _ => true) <$> btn_shared el |}]>
           (statusElements st)) st
  | None => st
  end.

(** The smooth scroll that follows after 500 ms moves no state of this
    record. *)
Definition unlockChampionStatus (st : state) : state :=
  if championSection_hidden st then set_hidden false st else st.

Definition saveProgress (st : state) : state :=
  set_storage
    (<[storage_key :=
         stringify (JObj [(str "count", JNum (shareCount st) 0);
                          (str "platforms",
                           JArr (List.map JStr (sharedPlatforms st)))])]>
       (localStorage st)) st.

Definition registerShare (platform : list N) (st : state) : state :=
  if has platform (sharedPlatforms st) then
    toast (str "You already shared on this platform!") info st
  else
    let st := set_count (incr (shareCount st))
                (set_platforms (sharedPlatforms st ++ [platform]) st) in
    (* Update UI *)
    let st := updateProgress st in
    let st := markPlatformShared platform st in
    (* Save progress *)
    let st := saveProgress st in
    (* Check for champion status *)
    let st :=
      if (3 <=? shareCount st)%Z && negb (championSection_hidden st)
      then unlockChampionStatus st else st in
    toast (str "Shared on " ++ platform ++ [33; 32] ++ party) success st.

(** [data.count || 0] as an integer count: [None] when the value kept
    would not be an integer of magnitude at most 2^53. *)
Definition count_or_zero (v : option json) : option Z :=
  match v with
  | None | Some JNull | Some (JBool false) | Some (JStr []) => Some 0%Z
  | Some (JNum m e) => as_safe_int m e
  | Some _ => None
  end.

Inductive set_result : Type :=
| SetOf (ps : list (list N))
| SetThrows
| SetOutOfModel.

(** The strings of an array of strings. *)
Fixpoint strings_of (l : list json) : option (list (list N)) :=
  match l with
  | [] => Some []
  | JStr s :: t => cons s <$> strings_of t
  | _ :: _ => None
  end.

(** The code points of a string, each as a string: what iterating a
    string yields. *)
Fixpoint code_points (s : list N) : list (list N) :=
  match s with
  | [] => []
  | c :: t =>
      if is_high c then
        match t with
        | d :: t' => if is_low d then [c; d] :: code_points t'
                     else [c] :: code_points t
        | [] => [[c]]
        end
      else [c] :: code_points t
  end.

(** [new Set(data.platforms || [])] *)
Definition platform_set (v : option json) : set_result :=
  match v with
  | None | Some JNull | Some (JBool false) | Some (JStr []) => SetOf []
  | Some (JArr l) =>
      match strings_of l with
      | Some ps => SetOf (new_Set ps [])
      | None => SetOutOfModel
      end
  | Some (JStr s) => SetOf (new_Set (code_points s) [])
  | Some (JNum m e) =>
      match as_safe_int m e with
      | Some 0%Z => SetOf []
      | Some _ => SetThrows
      | None => SetOutOfModel
      end
  | Some (JBool true) | Some (JObj _) => SetThrows
  end.

Definition loadProgress (st : state) : outcome state :=
  match localStorage st !! storage_key with
  | None => Returned st
  | Some saved =>
      if truthy saved then
        match parse saved with
        | None => Threw SyntaxError st
        | Some JNull => Threw TypeError st
        | Some data =>
            match count_or_zero (get data (str "count")) with
            | None => OutOfModel
            | Some c =>
                let st := set_count c st in
                match platform_set (get data (str "platforms")) with
                | SetOutOfModel => OutOfModel
                | SetThrows => Threw TypeError st
                | SetOf ps =>
                    let st := set_platforms ps st in
                    (* Update UI *)
                    let st := updateProgress st in
                    match get data (str "platforms") with
                    | Some (JArr l) =>
                        let st :=
                          fold_left (fun s p => markPlatformShared p s)
                            (default [] (strings_of l)) st in
                        (* Unlock champion if qualified *)
                        Returned (if (3 <=? shareCount st)%Z
                                  then unlockChampionStatus st else st)
                    | _ => Threw TypeError st
                    end
                end
            end
        end
      else Returned st
  end.

(** [new SocialSharingManager()] on a page and a store: the fields as the
    constructor sets them, then [init], which loads the saved progress. *)
Definition construct (page : state) (store : gmap (list N) (list N))
  : outcome state :=
  loadProgress (set_storage store (set_platforms [] (set_count 0 page))).

(** The managers that exist: constructed without a throw, then driven by
    [registerShare]. *)
Inductive reachable : state -> Prop :=
| reach_construct page store st :
    construct page store = Returned st -> reachable st
| reach_registerShare p st :
    reachable st -> reachable (registerShare p st).

(** The range in which a count is an exact double. *)
Definition safe_count (c : Z) : Prop := (Z.abs c <= 2 ^ 53)%Z.

(** A support page before any script has run, for the examples: the
    champion section hidden, a status element in a share button for three
    platforms. *)
Definition example_page : state :=
  let el := {| status_text := []; btn_shared := Some false |} in
  {| shareCount := 0; sharedPlatforms := [];
     progressFill_width := 0%Q;
     progressMessage_text := [];
     progressMessage_color := [];
     shareCountElement_text := str "0";
     championSection_hidden := true;
     statusElements :=
       <[str "twitterStatus" := el]>
         (<[str "facebookStatus" := el]>
            (<[str "linkedinStatus" := el]> ∅));
     localStorage := ∅;
     toastContainer := [] |}.

(** What a stored record makes of a manager: the record is not empty, it
    parses to a value other than [null], its count is an exact integer and
    its platforms are an array of strings. *)
Definition loads (saved : list N) (c : Z) (ps : list (list N)) : Prop :=
  truthy saved = true
  /\ exists data l,
       parse saved = Some data /\ data <> JNull
       /\ count_or_zero (get data (str "count")) = Some c
       /\ platform_set (get data (str "platforms")) = SetOf ps
       /\ get data (str "platforms") = Some (JArr l).

End SocialSharingManager.

(** ** ThemeManager (signin-script.js) *)

Module ThemeManager.
Import JS Json Color.

(** A [.color-preset] element: [dataset.color] and the class [active]. *)
Record preset : Type :=
  { preset_color : option (list N); preset_active : bool }.

(** A [.mode-btn] element: [dataset.mode] and the class [active]. *)
Record mode_btn : Type :=
  { btn_mode : option (list N); btn_active : bool }.

Record state : Type :=
  { (** custom properties the stylesheet gives the root element *)
    sheet_vars : gmap (list N) (list N);
    (** [document.documentElement.style] *)
    inline_vars : gmap (list N) (list N);
    (** the [data-theme] attribute of the root element *)
    data_theme : option (list N);
    customColorInput_value : list N;
    colorPresets : list preset;
    modeButtons : list mode_btn;
    localStorage : gmap (list N) (list N) }.

Definition storage_key : list N := str "studyflow-theme".
Definition primary_color : list N := str "--primary-color".

(** [getComputedStyle(root).getPropertyValue(name)] for a custom property:
    the inline declaration wins over the stylesheet; the empty string when
    neither declares it. *)
Definition getPropertyValue (name : list N) (st : state) : list N :=
  match inline_vars st !! name with
  | Some v => v
  | None => default [] (sheet_vars st !! name)
  end.

(** Values that are certainly one well-formed declaration value and are
    stored as written: letters, digits, [#], [%], [,], [.], [-]. *)
Definition css_plain_char (c : N) : bool :=
  is_digit c || ((97 <=? c) && (c <=? 122)) || ((65 <=? c) && (c <=? 90))
  || (c =? 35) || (c =? 37) || (c =? 44) || (c =? 45) || (c =? 46).

Definition css_plain (v : list N) : bool :=
  truthy v && forallb css_plain_char v.

Definition set_inline (m : gmap (list N) (list N)) (st : state) : state :=
  {| sheet_vars := sheet_vars st; inline_vars := m;
     data_theme := data_theme st;
     customColorInput_value := customColorInput_value st;
     colorPresets := colorPresets st; modeButtons := modeButtons st;
     localStorage := localStorage st |}.

(** [root.style.setProperty(name, value)]: the empty string removes the
    declaration, a plain value is stored; [None] for any other value, whose
    fate is the CSS parser's. *)
Definition setProperty (name value : list N) (st : state) : option state :=
  if is_empty value then Some (set_inline (delete name (inline_vars st)) st)
  else if css_plain value then
    Some (set_inline (<[name := value]> (inline_vars st)) st)
  else None.

(** ToString of a value read from parsed JSON ([None] is [undefined]);
    [None] as a result for the values whose conversion is not modelled. *)
Definition to_String (v : option json) : option (list N) :=
  match v with
  | None => Some (str "undefined")
  | Some JNull => Some (str "null")
  | Some (JBool true) => Some (str "true")
  | Some (JBool false) => Some (str "false")
  | Some (JStr s) => Some s
  | Some (JNum m e) => Z_to_string <$> as_safe_int m e
  | Some (JArr _) | Some (JObj _) => None
  end.

(** The conversion of a DOM string argument that maps [null] to the empty
    string ([setProperty]'s value, an input's [value]). *)
Definition to_DOMString (v : option json) : option (list N) :=
  match v with
  | Some JNull => Some []
  | _ => to_String v
  end.

Definition saveTheme (st : state) : state :=
  let color := trim (getPropertyValue primary_color st) in
  let mode :=
    match data_theme st with
    | Some m => if truthy m then m else str "light"
    | None => str "light"
    end in
  {| sheet_vars := sheet_vars st; inline_vars := inline_vars st;
     data_theme := data_theme st;
     customColorInput_value := customColorInput_value st;
     colorPresets := colorPresets st; modeButtons := modeButtons st;
     localStorage :=
       <[storage_key :=
           stringify (JObj [(str "color", JStr color);
                            (str "mode", JStr mode)])]> (localStorage st) |}.

(** [applyColor(color)].  [hexToRgb] gives [null] on anything but six hex
    digits, and [adjustBrightness] then throws on [rgb.r], after the
    primary colour is set and before the theme is saved. *)
Definition applyColor (color : option json) (st : state) : outcome state :=
  match to_String color, to_DOMString color with
  | Some cs, Some cv =>
      match setProperty primary_color cv st with
      | Some st =>
          let rgb := hexToRgb cs in
          match adjustBrightness rgb (-20), adjustBrightness rgb 20,
                adjustBrightness rgb (-10) with
          | Some darker, Some lighter, Some hover =>
              match setProperty (str "--primary-dark") (rgbToHex darker) st with
              | Some st =>
                  match setProperty (str "--primary-light")
                          (rgbToHex lighter) st with
                  | Some st =>
                      match setProperty (str "--primary-hover")
                              (rgbToHex hover) st with
                      | Some st => Returned (saveTheme st)
                      | None => OutOfModel
                      end
                  | None => OutOfModel
                  end
              | None => OutOfModel
              end
          | _, _, _ => Threw TypeError st
          end
      | None => OutOfModel
      end
  | _, _ => OutOfModel
  end.

(** [preset.dataset.color === color] *)
Definition same_color (d : option (list N)) (color : option json) : bool :=
  match d, color with
  | Some a, Some (JStr b) => str_eqb a b
  | None, None => true
  | _, _ => false
  end.

Definition loadSavedTheme (st : state) : outcome state :=
  match localStorage st !! storage_key with
  | None => Returned st
  | Some savedTheme =>
      if truthy savedTheme then
        match parse savedTheme with
        | None => Threw SyntaxError st
        | Some JNull => Threw TypeError st
        | Some theme =>
            let color := get theme (str "color") in
            (* Apply saved color *)
            match applyColor color st with
            | Returned st =>
                let dark :=
                  match get theme (str "mode") with
                  | Some (JStr m) => str_eqb m (str "dark")
                  | _ => false
                  end in
                Returned
                  {| sheet_vars := sheet_vars st;
                     inline_vars := inline_vars st;
                     (* Apply saved mode *)
                     data_theme :=
                       if dark then Some (str "dark") else data_theme st;
                     customColorInput_value :=
                       default [] (to_DOMString color);
                     (* Update preset selection *)
                     colorPresets :=
                       List.map
                         (fun p => {| preset_color := preset_color p;
                                      preset_active :=
                                        same_color (preset_color p) color |})
                         (colorPresets st);
                     modeButtons :=
                       if dark then
                         List.map
                           (fun b => {| btn_mode := btn_mode b;
                                        btn_active :=
                                          match btn_mode b with
                                          | Some m => str_eqb m (str "dark")
                                          | None => false
                                          end |})
                           (modeButtons st)
                       else modeButtons st;
                     localStorage := localStorage st |}
            | Threw e st => Threw e st
            | OutOfModel => OutOfModel
            end
        end
      else Returned st
  end.

(** What [saveTheme] would write: the snapshot that the page shows. *)
Definition shown_color (st : state) : list N :=
  trim (getPropertyValue primary_color st).

Definition shown_mode (st : state) : list N :=
  match data_theme st with
  | Some m => if truthy m then m else str "light"
  | None => str "light"
  end.

(** A sign-in page before any script has run, for the examples: the
    stylesheet gives the default primary colour, no [data-theme]. *)
Definition example_page : state :=
  {| sheet_vars := {[ primary_color := str "#0066cc" ]};
     inline_vars := ∅;
     data_theme := None;
     customColorInput_value := str "#0066cc";
     colorPresets :=
       [ {| preset_color := Some (str "#0066cc"); preset_active := true |};
         {| preset_color := Some (str "#e63946"); preset_active := false |} ];
     modeButtons :=
       [ {| btn_mode := Some (str "light"); btn_active := true |};
         {| btn_mode := Some (str "dark"); btn_active := false |} ];
     localStorage := ∅ |}.

(** The example page in dark mode. *)
Definition dark_page : state :=
  {| sheet_vars := {[ primary_color := str "#0066cc" ]};
     inline_vars := ∅;
     data_theme := Some (str "dark");
     customColorInput_value := str "#0066cc";
     colorPresets := [];
     modeButtons :=
       [ {| btn_mode := Some (str "light"); btn_active := false |};
         {| btn_mode := Some (str "dark"); btn_active := true |} ];
     localStorage := ∅ |}.

(** A page whose stylesheet names its primary colour [blue], in dark
    mode. *)
Definition named_colour_page : state :=
  {| sheet_vars := {[ primary_color := str "blue" ]};
     inline_vars := ∅;
     data_theme := Some (str "dark");
     customColorInput_value := str "#0066cc";
     colorPresets := [];
     modeButtons :=
       [ {| btn_mode := Some (str "light"); btn_active := false |};
         {| btn_mode := Some (str "dark"); btn_active := true |} ];
     localStorage := ∅ |}.

(** The same page as a new page load finds it: no [data-theme]. *)
Definition named_colour_fresh : state :=
  {| sheet_vars := {[ primary_color := str "blue" ]};
     inline_vars := ∅;
     data_theme := None;
     customColorInput_value := str "#0066cc";
     colorPresets := [];
     modeButtons :=
       [ {| btn_mode := Some (str "light"); btn_active := true |};
         {| btn_mode := Some (str "dark"); btn_active := false |} ];
     localStorage := ∅ |}.

Definition with_storage (ls : gmap (list N) (list N)) (st : state) : state :=
  {| sheet_vars := sheet_vars st; inline_vars := inline_vars st;
     data_theme := data_theme st;
     customColorInput_value := customColorInput_value st;
     colorPresets := colorPresets st; modeButtons := modeButtons st;
     localStorage := ls |}.

(** [toggleMode(button)] for the [i]-th of the mode buttons (a click on no
    button is no event). *)
Definition toggleMode (i : nat) (st : state) : state :=
  match modeButtons st !! i with
  | None => st
  | Some button =>
      let mode := btn_mode button in
      let dark :=
        match mode with Some m => str_eqb m (str "dark") | None => false end in
      saveTheme
        {| sheet_vars := sheet_vars st; inline_vars := inline_vars st;
           (* Apply theme *)
           data_theme := if dark then Some (str "dark") else None;
           customColorInput_value := customColorInput_value st;
           colorPresets := colorPresets st;
           (* Update button states *)
           modeButtons :=
             imap (fun j b => {| btn_mode := btn_mode b;
                                 btn_active := Nat.eqb j i |})
               (modeButtons st);
           localStorage := localStorage st |}
  end.

(** [applyPreset(presetElement)] for the [i]-th of the colour presets. *)
Definition applyPreset (i : nat) (st : state) : outcome state :=
  match colorPresets st !! i with
  | None => Returned st
  | Some presetElement =>
      let color := JStr <$> preset_color presetElement in
      (* Update active state *)
      let st :=
        {| sheet_vars := sheet_vars st; inline_vars := inline_vars st;
           data_theme := data_theme st;
           customColorInput_value := customColorInput_value st;
           colorPresets :=
             imap (fun j p => {| preset_color := preset_color p;
                                 preset_active := Nat.eqb j i |})
               (colorPresets st);
           modeButtons := modeButtons st;
           localStorage := localStorage st |} in
      (* Apply color *)
      match applyColor color st with
      | Returned st =>
          (* Update custom color input *)
          Returned
            {| sheet_vars := sheet_vars st; inline_vars := inline_vars st;
               data_theme := data_theme st;
               customColorInput_value := default [] (to_DOMString color);
               colorPresets := colorPresets st;
               modeButtons := modeButtons st;
               localStorage := localStorage st |}
      | Threw e st => Threw e st
      | OutOfModel => OutOfModel
      end
  end.

(** The theme record in the store, as [saveTheme] writes it. *)
Definition stored (color mode : list N) : list N :=
  stringify (JObj [(str "color", JStr color); (str "mode", JStr mode)]).

End ThemeManager.

(** ** Form elements shared by the ticket and donation forms *)

Module Form.

(** A text input, select or textarea: its value, the value [form.reset()]
    gives it back, the class [error] and the [aria-invalid] attribute. *)
Record field : Type :=
  { value : list N;
    default_value : list N;
    has_error : bool;
    aria_invalid : option (list N) }.

(** A submit button with its [.btn-text] and [.btn-loader] children. *)
Record button : Type :=
  { disabled : bool; btnText_hidden : bool; btnLoader_hidden : bool }.

(** [setLoadingState(button, loading)], the same in both managers. *)
Definition setLoadingState (loading : bool) : button :=
  if loading then
    {| disabled := true; btnText_hidden := true; btnLoader_hidden := false |}
  else
    {| disabled := false; btnText_hidden := false; btnLoader_hidden := true |}.

(** How the promise of the external operation settles. *)
Inductive settled : Type := Resolved | Rejected.

Definition reset_field (f : field) : field :=
  {| value := default_value f; default_value := default_value f;
     has_error := has_error f; aria_invalid := aria_invalid f |}.

End Form.

(** ** TicketManager (help-script.js) *)

Module TicketManager.
Import JS ToastManager Form.

Record file : Type := { file_name : list N; file_size : Z }.

(** The argument of [submitTicket]. *)
Record ticketData : Type :=
  { td_name : list N; td_email : list N; td_category : list N;
    td_priority : list N; td_subject : list N; td_description : list N;
    td_file : option file; td_timestamp : list N }.

(** What a run reads from the clock and the random source:
    [new Date().toISOString()], [Date.now()] and
    [Math.floor(Math.random() * 1000)]. *)
Record env : Type :=
  { iso_now : list N; now_ms : Z; random_1000 : Z }.

(** Callbacks waiting in [setTimeout]. *)
Inductive callback : Type := CloseAndRestore.

Inductive input : Type :=
| nameInput | emailInput | categorySelect | prioritySelect
| subjectInput | descriptionTextarea.

Record state : Type :=
  { f_name : field; f_email : field; f_category : field;
    f_priority : field; f_subject : field; f_description : field;
    (** [fileInput.files[0]] *)
    fileInput : option file;
    (** the error message elements present in the page, by id *)
    errorElements : gmap (list N) (list N);
    charCount_text : list N;
    charCount_color : list N;
    fileInfo_text : list N;
    modal_active : bool;
    body_overflow : list N;
    submitBtn : button;
    toastContainer : list toast;
    (** the calls of [submitTicket] so far *)
    submitted : list ticketData;
    timers : list (Z * callback) }.

Definition get_field (i : input) (st : state) : field :=
  match i with
  | nameInput => f_name st
  | emailInput => f_email st
  | categorySelect => f_category st
  | prioritySelect => f_priority st
  | subjectInput => f_subject st
  | descriptionTextarea => f_description st
  end.

Definition set_field (i : input) (f : field) (st : state) : state :=
  {| f_name := match i with nameInput => f | _ => f_name st end;
     f_email := match i with emailInput => f | _ => f_email st end;
     f_category := match i with categorySelect => f | _ => f_category st end;
     f_priority := match i with prioritySelect => f | _ => f_priority st end;
     f_subject := match i with subjectInput => f | _ => f_subject st end;
     f_description :=
       match i with descriptionTextarea => f | _ => f_description st end;
     fileInput := fileInput st; errorElements := errorElements st;
     charCount_text := charCount_text st;
     charCount_color := charCount_color st;
     fileInfo_text := fileInfo_text st; modal_active := modal_active st;
     body_overflow := body_overflow st; submitBtn := submitBtn st;
     toastContainer := toastContainer st; submitted := submitted st;
     timers := timers st |}.

Definition set_errors (m : gmap (list N) (list N)) (st : state) : state :=
  {| f_name := f_name st; f_email := f_email st; f_category := f_category st;
     f_priority := f_priority st; f_subject := f_subject st;
     f_description := f_description st;
     fileInput := fileInput st; errorElements := m;
     charCount_text := charCount_text st;
     charCount_color := charCount_color st;
     fileInfo_text := fileInfo_text st; modal_active := modal_active st;
     body_overflow := body_overflow st; submitBtn := submitBtn st;
     toastContainer := toastContainer st; submitted := submitted st;
     timers := timers st |}.

Definition set_button (b : button) (st : state) : state :=
  {| f_name := f_name st; f_email := f_email st; f_category := f_category st;
     f_priority := f_priority st; f_subject := f_subject st;
     f_description := f_description st;
     fileInput := fileInput st; errorElements := errorElements st;
     charCount_text := charCount_text st;
     charCount_color := charCount_color st;
     fileInfo_text := fileInfo_text st; modal_active := modal_active st;
     body_overflow := body_overflow st; submitBtn := b;
     toastContainer := toastContainer st; submitted := submitted st;
     timers := timers st |}.

Definition toast (message : list N) (ty : severity) (dur : Z) (st : state)
  : state :=
  {| f_name := f_name st; f_email := f_email st; f_category := f_category st;
     f_priority := f_priority st; f_subject := f_subject st;
     f_description := f_description st;
     fileInput := fileInput st; errorElements := errorElements st;
     charCount_text := charCount_text st;
     charCount_color := charCount_color st;
     fileInfo_text := fileInfo_text st; modal_active := modal_active st;
     body_overflow := body_overflow st; submitBtn := submitBtn st;
     toastContainer := show message ty dur (toastContainer st);
     submitted := submitted st; timers := timers st |}.

(** [showError(input, errorId, message)] *)
Definition showError (i : input) (errorId message : list N) (st : state)
  : state :=
  let f := get_field i st in
  let st :=
    set_field i {| value := value f; default_value := default_value f;
                   has_error := true; aria_invalid := Some (str "true") |}
      st in
  match errorElements st !! errorId with
  | Some _ => set_errors (<[errorId := message]> (errorElements st)) st
  | None => st
  end.

Definition validateName (st : state) : state * bool :=
  let value := trim (value (f_name st)) in
  if is_empty value then
    (showError nameInput (str "nameError") (str "Please enter your name") st,
     false)
  else if (length value <? 2)%nat then
    (showError nameInput (str "nameError")
       (str "Name must be at least 2 characters") st, false)
  else (st, true).

(** [/^[^\s@]+@[^\s@]+\.[^\s@]+$/], the pattern [FormValidator] uses. *)
Definition emailPattern : Regex.regex := FormValidator.rules.email_pattern.

Definition validateEmail (st : state) : state * bool :=
  let value := trim (value (f_email st)) in
  if is_empty value then
    (showError emailInput (str "ticketEmailError")
       (str "Please enter your email") st, false)
  else if negb (Regex.test emailPattern value) then
    (showError emailInput (str "ticketEmailError")
       (str "Please enter a valid email address") st, false)
  else (st, true).

Definition validateCategory (st : state) : state * bool :=
  if is_empty (value (f_category st)) then
    (showError categorySelect (str "categoryError")
       (str "Please select a category") st, false)
  else (st, true).

Definition validatePriority (st : state) : state * bool :=
  if is_empty (value (f_priority st)) then
    (showError prioritySelect (str "priorityError")
       (str "Please select a priority level") st, false)
  else (st, true).

Definition validateSubject (st : state) : state * bool :=
  let value := trim (value (f_subject st)) in
  if is_empty value then
    (showError subjectInput (str "subjectError")
       (str "Please enter a subject") st, false)
  else if (length value <? 5)%nat then
    (showError subjectInput (str "subjectError")
       (str "Subject must be at least 5 characters") st, false)
  else (st, true).

Definition validateDescription (st : state) : state * bool :=
  let value := trim (value (f_description st)) in
  if is_empty value then
    (showError descriptionTextarea (str "descriptionError")
       (str "Please describe your issue") st, false)
  else if (length value <? 20)%nat then
    (showError descriptionTextarea (str "descriptionError")
       (str "Please provide more details (at least 20 characters)") st, false)
  else if (1000 <? length value)%nat then
    (showError descriptionTextarea (str "descriptionError")
       (str "Description is too long (max 1000 characters)") st, false)
  else (st, true).

(** The array literal of [handleSubmit]: the six calls in order, each on
    the state the previous one left, and their results. *)
Definition validateAll (st : state) : state * list bool :=
  let '(st, r1) := validateName st in
  let '(st, r2) := validateEmail st in
  let '(st, r3) := validateCategory st in
  let '(st, r4) := validatePriority st in
  let '(st, r5) := validateSubject st in
  let '(st, r6) := validateDescription st in
  (st, [r1; r2; r3; r4; r5; r6]).

Definition updateCharCount (st : state) : state :=
  let count := length (value (f_description st)) in
  {| f_name := f_name st; f_email := f_email st; f_category := f_category st;
     f_priority := f_priority st; f_subject := f_subject st;
     f_description := f_description st;
     fileInput := fileInput st; errorElements := errorElements st;
     charCount_text := N_to_string (N.of_nat count);
     charCount_color :=
       if (900 <? count)%nat then str "var(--warning-color)"
       else if (1000 <=? count)%nat then str "var(--error-color)"
       else [];
     fileInfo_text := fileInfo_text st; modal_active := modal_active st;
     body_overflow := body_overflow st; submitBtn := submitBtn st;
     toastContainer := toastContainer st; submitted := submitted st;
     timers := timers st |}.

(** [this.form.reset()] and the two lines after it. *)
Definition reset_form (st : state) : state :=
  let st :=
    {| f_name := reset_field (f_name st); f_email := reset_field (f_email st);
       f_category := reset_field (f_category st);
       f_priority := reset_field (f_priority st);
       f_subject := reset_field (f_subject st);
       f_description := reset_field (f_description st);
       fileInput := None; errorElements := errorElements st;
       charCount_text := charCount_text st;
       charCount_color := charCount_color st;
       fileInfo_text := fileInfo_text st; modal_active := modal_active st;
       body_overflow := body_overflow st; submitBtn := submitBtn st;
       toastContainer := toastContainer st; submitted := submitted st;
       timers := timers st |} in
  let st := updateCharCount st in
  {| f_name := f_name st; f_email := f_email st; f_category := f_category st;
     f_priority := f_priority st; f_subject := f_subject st;
     f_description := f_description st;
     fileInput := fileInput st; errorElements := errorElements st;
     charCount_text := charCount_text st;
     charCount_color := charCount_color st;
     fileInfo_text := []; modal_active := modal_active st;
     body_overflow := body_overflow st; submitBtn := submitBtn st;
     toastContainer := toastContainer st; submitted := submitted st;
     timers := timers st |}.

(** [s.slice(-k)] *)
Definition slice_last (k : nat) (s : list N) : list N :=
  drop (length s - k) s.

(** [s.padStart(k, "0")] *)
Definition padStart0 (k : nat) (s : list N) : list N :=
  replicate (k - length s) 48 ++ s.

Definition generateTicketNumber (e : env) : list N :=
  let prefix := str "SF" in
  let timestamp := slice_last 6 (Z_to_string (now_ms e)) in
  let random := padStart0 3 (Z_to_string (random_1000 e)) in
  prefix ++ [45] ++ timestamp ++ [45] ++ random.

(** [handleSubmit] up to the [await]: the validation, and on success the
    data handed to [submitTicket] with the button set busy. *)
Definition handleSubmit_begin (e : env) (st : state)
  : state * option ticketData :=
  let '(st, results) := validateAll st in
  let isValid := forallb (fun result => eqb result true) results in
  if negb isValid then
    (toast (str "Please fix the errors in the form") error default_duration st,
     None)
  else
    let data :=
      {| td_name := trim (value (f_name st));
         td_email := trim (value (f_email st));
         td_category := value (f_category st);
         td_priority := value (f_priority st);
         td_subject := trim (value (f_subject st));
         td_description := trim (value (f_description st));
         td_file := fileInput st;
         td_timestamp := iso_now e |} in
    (set_button (setLoadingState true) st, Some data).

Definition call_submitTicket (data : ticketData) (st : state) : state :=
  {| f_name := f_name st; f_email := f_email st; f_category := f_category st;
     f_priority := f_priority st; f_subject := f_subject st;
     f_description := f_description st;
     fileInput := fileInput st; errorElements := errorElements st;
     charCount_text := charCount_text st;
     charCount_color := charCount_color st;
     fileInfo_text := fileInfo_text st; modal_active := modal_active st;
     body_overflow := body_overflow st; submitBtn := submitBtn st;
     toastContainer := toastContainer st;
     submitted := submitted st ++ [data]; timers := timers st |}.

Definition add_timer (delay : Z) (cb : callback) (st : state) : state :=
  {| f_name := f_name st; f_email := f_email st; f_category := f_category st;
     f_priority := f_priority st; f_subject := f_subject st;
     f_description := f_description st;
     fileInput := fileInput st; errorElements := errorElements st;
     charCount_text := charCount_text st;
     charCount_color := charCount_color st;
     fileInfo_text := fileInfo_text st; modal_active := modal_active st;
     body_overflow := body_overflow st; submitBtn := submitBtn st;
     toastContainer := toastContainer st;
     submitted := submitted st; timers := timers st ++ [(delay, cb)] |}.

(** [close()] *)
Definition close (st : state) : state :=
  {| f_name := f_name st; f_email := f_email st; f_category := f_category st;
     f_priority := f_priority st; f_subject := f_subject st;
     f_description := f_description st;
     fileInput := fileInput st; errorElements := errorElements st;
     charCount_text := charCount_text st;
     charCount_color := charCount_color st;
     fileInfo_text := fileInfo_text st; modal_active := false;
     body_overflow := []; submitBtn := submitBtn st;
     toastContainer := toastContainer st;
     submitted := submitted st; timers := timers st |}.

(** What a waiting callback does when its delay has passed. *)
Definition run_callback (cb : callback) (st : state) : state :=
  match cb with
  | CloseAndRestore => set_button (setLoadingState false) (close st)
  end.

(** [handleSubmit] after the [await]. *)
Definition handleSubmit_settle (e : env) (r : settled) (data : ticketData)
    (st : state) : state :=
  match r with
  | Resolved =>
      let ticketNumber := generateTicketNumber e in
      let st :=
        toast (str "Ticket #" ++ ticketNumber
                 ++ str " created! We'll email you soon at " ++ td_email data)
          success 6000 st in
      let st := reset_form st in
      add_timer 1500 CloseAndRestore st
  | Rejected =>
      let st :=
        toast
          (str "Failed to submit ticket. Please try again or email us directly.")
          error default_duration st in
      set_button (setLoadingState false) st
  end.

(** One submit event with no other event before the promise settles.
    [submitTicket] is the external operation. *)
Definition handleSubmit (submitTicket : ticketData -> settled) (e : env)
    (st : state) : state :=
  match handleSubmit_begin e st with
  | (st, None) => st
  | (st, Some data) =>
      handleSubmit_settle e (submitTicket data) data
        (call_submitTicket data st)
  end.

(** The operation as the script has it: it resolves after 1500 ms. *)
Definition submitTicket (data : ticketData) : settled := Resolved.

(** The values of the six fields. *)
Definition values (st : state) : list (list N) :=
  [value (f_name st); value (f_email st); value (f_category st);
   value (f_priority st); value (f_subject st); value (f_description st)].

(** *** Observations on a form, to state its properties *)

(** The validator of each field, in the order of [handleSubmit]. *)
Definition validate (i : input) : state -> state * bool :=
  match i with
  | nameInput => validateName
  | emailInput => validateEmail
  | categorySelect => validateCategory
  | prioritySelect => validatePriority
  | subjectInput => validateSubject
  | descriptionTextarea => validateDescription
  end.

Definition inputs : list input :=
  [nameInput; emailInput; categorySelect; prioritySelect; subjectInput;
   descriptionTextarea].

(** The id of the element that shows the error of each field. *)
Definition errorId (i : input) : list N :=
  match i with
  | nameInput => str "nameError"
  | emailInput => str "ticketEmailError"
  | categorySelect => str "categoryError"
  | prioritySelect => str "priorityError"
  | subjectInput => str "subjectError"
  | descriptionTextarea => str "descriptionError"
  end.

(** The field fails its validator. *)
Definition fails (i : input) (st : state) : bool := negb (snd (validate i st)).

(** A field carries the error state. *)
Definition marked (f : field) : Prop :=
  has_error f = true /\ aria_invalid f = Some (str "true").

(** What the validators of [handleSubmit] leave behind for a field whose
    own validator answered [r]: its message when [r] is [Some]. *)
Definition report (i : input) (r : option (list N)) (st : state) : state :=
  match r with
  | Some message => showError i (errorId i) message st
  | None => st
  end.

(** The reports of the six validators, in the order of [handleSubmit]. *)
Definition reports (rs : input -> option (list N)) (st : state) : state :=
  report descriptionTextarea (rs descriptionTextarea)
    (report subjectInput (rs subjectInput)
       (report prioritySelect (rs prioritySelect)
          (report categorySelect (rs categorySelect)
             (report emailInput (rs emailInput)
                (report nameInput (rs nameInput) st))))).

(** A form filled in correctly, with every error element in the page, for
    the examples. *)
Definition example_form : state :=
  let blank v := {| value := v; default_value := [];
                    has_error := false; aria_invalid := None |} in
  {| f_name := blank (str "Jane Doe");
     f_email := blank (str "jane@x.com");
     f_category := blank (str "technical");
     f_priority := blank (str "high");
     f_subject := blank (str "Login fails");
     f_description := blank (str "The sign-in page rejects my password.");
     fileInput := None;
     errorElements :=
       list_to_map (List.map (fun i => (errorId i, [])) inputs);
     charCount_text := str "37";
     charCount_color := [];
     fileInfo_text := [];
     modal_active := true;
     body_overflow := str "hidden";
     submitBtn := setLoadingState false;
     toastContainer := [];
     submitted := [];
     timers := [] |}.

(** The scenario of the specification: name "A", email "bad", no subject. *)
Definition scenario_form : state :=
  let blank v := {| value := v; default_value := [];
                    has_error := false; aria_invalid := None |} in
  {| f_name := blank (str "A");
     f_email := blank (str "bad");
     f_category := blank (str "technical");
     f_priority := blank (str "high");
     f_subject := blank [];
     f_description := blank (str "The sign-in page rejects my password.");
     fileInput := None;
     errorElements :=
       list_to_map (List.map (fun i => (errorId i, [])) inputs);
     charCount_text := str "37";
     charCount_color := [];
     fileInfo_text := [];
     modal_active := true;
     body_overflow := str "hidden";
     submitBtn := setLoadingState false;
     toastContainer := [];
     submitted := [];
     timers := [] |}.

Definition example_env : env :=
  {| iso_now := str "2025-01-01T00:00:00.000Z";
     now_ms := 1735689600000; random_1000 := 7 |}.

(** *** The listeners besides [submit] *)

(** The id of each input, as the constructor looks it up. *)
Definition inputId (i : input) : list N :=
  match i with
  | nameInput => str "ticketName"
  | emailInput => str "ticketEmail"
  | categorySelect => str "ticketCategory"
  | prioritySelect => str "ticketPriority"
  | subjectInput => str "ticketSubject"
  | descriptionTextarea => str "ticketDescription"
  end.

(** [clearError(input)] *)
Definition clearError (i : input) (st : state) : state :=
  let errorId := inputId i ++ str "Error" in
  let f := get_field i st in
  let st :=
    set_field i {| value := value f; default_value := default_value f;
                   has_error := false; aria_invalid := None |}
      st in
  match errorElements st !! errorId with
  | Some _ => set_errors (<[errorId := []]> (errorElements st)) st
  | None => st
  end.

(** [open()]; the focus that follows after 300 ms moves no state of this
    record. *)
Definition open (st : state) : state :=
  {| f_name := f_name st; f_email := f_email st; f_category := f_category st;
     f_priority := f_priority st; f_subject := f_subject st;
     f_description := f_description st;
     fileInput := fileInput st; errorElements := errorElements st;
     charCount_text := charCount_text st;
     charCount_color := charCount_color st;
     fileInfo_text := fileInfo_text st; modal_active := true;
     body_overflow := str "hidden"; submitBtn := submitBtn st;
     toastContainer := toastContainer st;
     submitted := submitted st; timers := timers st |}.

(** Two decimal digits of a number below 100. *)
Definition two_digits (n : Z) : list N :=
  [Z.to_N (48 + n / 10); Z.to_N (48 + n mod 10)].

(** The hundredths that [x.toFixed(2)] prints for [x = size / 1024 / 1024]:
    the integer nearest to [100 * x], the larger one on a tie.  For a size
    in bytes below 2^53 the two divisions are exact. *)
Definition hundredths (size : Z) : Z := (200 * size + 2 ^ 20) / 2 ^ 21.

(** [(file.size / 1024 / 1024).toFixed(2)] *)
Definition sizeInMB (size : Z) : list N :=
  let n := hundredths size in
  Z_to_string (n / 100) ++ [46] ++ two_digits (n mod 100).

(** [handleFileUpload()]: the state, and the value it assigns to
    [fileInfo.style.color] when it assigns one. *)
Definition handleFileUpload (st : state) : state * option (list N) :=
  let text :=
    match fileInput st with
    | Some file =>
        str "Selected: " ++ file_name file ++ str " ("
          ++ sizeInMB (file_size file) ++ str " MB)"
    | None => []
    end in
  ({| f_name := f_name st; f_email := f_email st; f_category := f_category st;
      f_priority := f_priority st; f_subject := f_subject st;
      f_description := f_description st;
      fileInput := fileInput st; errorElements := errorElements st;
      charCount_text := charCount_text st;
      charCount_color := charCount_color st;
      fileInfo_text := text; modal_active := modal_active st;
      body_overflow := body_overflow st; submitBtn := submitBtn st;
      toastContainer := toastContainer st;
      submitted := submitted st; timers := timers st |},
   match fileInput st with
   | Some _ => Some (str "var(--success-color)")
   | None => None
   end).

(** The user changes the value of a field. *)
Definition set_value (i : input) (v : list N) (st : state) : state :=
  let f := get_field i st in
  set_field i {| value := v; default_value := default_value f;
                 has_error := has_error f;
                 aria_invalid := aria_invalid f |} st.

(** The listeners of [init] on a change of value, in the order in which
    [init] registers them: [input] on the four text fields runs
    [clearError], after [updateCharCount] on the description; [change] on
    the two selects runs the validator and then [clearError]. *)
Definition edit (i : input) (v : list N) (st : state) : state :=
  let st := set_value i v st in
  match i with
  | descriptionTextarea => clearError i (updateCharCount st)
  | categorySelect => clearError i (fst (validateCategory st))
  | prioritySelect => clearError i (fst (validatePriority st))
  | nameInput | emailInput | subjectInput => clearError i st
  end.

(** The [blur] listeners: the validator of each of the four text fields;
    the selects have none. *)
Definition blur (i : input) (st : state) : state :=
  match i with
  | categorySelect | prioritySelect => st
  | _ => fst (validate i st)
  end.

(** What can happen to the ticket form. *)
Inductive event : Type :=
| Edit (i : input) (v : list N)
| Blur (i : input)
| ChooseFile (f : option file)
| Submit (submitTicket : ticketData -> settled) (e : env)
| Timeout
| Open
| Close.

(** The first waiting callback runs. *)
Definition timeout (st : state) : state :=
  match timers st with
  | [] => st
  | (_, cb) :: rest =>
      run_callback cb
        {| f_name := f_name st; f_email := f_email st;
           f_category := f_category st; f_priority := f_priority st;
           f_subject := f_subject st; f_description := f_description st;
           fileInput := fileInput st; errorElements := errorElements st;
           charCount_text := charCount_text st;
           charCount_color := charCount_color st;
           fileInfo_text := fileInfo_text st; modal_active := modal_active st;
           body_overflow := body_overflow st; submitBtn := submitBtn st;
           toastContainer := toastContainer st;
           submitted := submitted st; timers := rest |}
  end.

Definition choose_file (f : option file) (st : state) : state :=
  fst (handleFileUpload
    {| f_name := f_name st; f_email := f_email st;
       f_category := f_category st; f_priority := f_priority st;
       f_subject := f_subject st; f_description := f_description st;
       fileInput := f; errorElements := errorElements st;
       charCount_text := charCount_text st;
       charCount_color := charCount_color st;
       fileInfo_text := fileInfo_text st; modal_active := modal_active st;
       body_overflow := body_overflow st; submitBtn := submitBtn st;
       toastContainer := toastContainer st;
       submitted := submitted st; timers := timers st |}).

Definition run (ev : event) (st : state) : state :=
  match ev with
  | Edit i v => edit i v st
  | Blur i => blur i st
  | ChooseFile f => choose_file f st
  | Submit submitTicket e => handleSubmit submitTicket e st
  | Timeout => timeout st
  | Open => open st
  | Close => close st
  end.

(** *** Further observations and examples *)

(** The error element of a field shows a message. *)
Definition shows (i : input) (st : state) : Prop :=
  exists m, errorElements st !! errorId i = Some m /\ m <> [].

(** The ticket that a form hands over. *)
Definition ticket_of (e : env) (st : state) : ticketData :=
  {| td_name := trim (value (f_name st));
     td_email := trim (value (f_email st));
     td_category := value (f_category st);
     td_priority := value (f_priority st);
     td_subject := trim (value (f_subject st));
     td_description := trim (value (f_description st));
     td_file := fileInput st;
     td_timestamp := iso_now e |}.

(** The example form after its name field was reported empty. *)
Definition reported_form : state :=
  showError nameInput (str "nameError") (str "Please enter your name")
    example_form.

(** The example form with a file of one and a half mebibytes chosen. *)
Definition form_with_file : state :=
  choose_file (Some {| file_name := str "log.txt"; file_size := 1572864 |})
    example_form.

(** A run one million milliseconds after the example run, with the same
    random draw. *)
Definition later_env : env :=
  {| iso_now := str "2025-01-01T00:16:40.000Z";
     now_ms := 1735690600000; random_1000 := 7 |}.

End TicketManager.

(** ** DonationManager (support page script) *)

Module DonationManager.
Import JS ToastManager Form.

(** [this.selectedAmount]: [null], or what [parseInt] gave. *)
Inductive selected : Type :=
| SelNull
| SelNaN
| SelNum (z : Z).

(** [customAmount || this.selectedAmount] *)
Inductive amount : Type :=
| AmountStr (s : list N)
| AmountSel (a : selected).

Record checkbox : Type := { checked : bool; default_checked : bool }.

(** The argument of [processDonation]. *)
Record donation : Type :=
  { d_name : list N; d_email : list N; d_amount : amount;
    d_frequency : option (list N);
    d_anonymous : bool; d_featured : bool; d_partner : bool }.

Record state : Type :=
  { donorName : field;
    donorEmail : field;
    (** the element with id [customAmount], if the page has it *)
    customAmount : option field;
    selectedAmount : selected;
    (** [btn.dataset.frequency] of the last button chosen *)
    selectedFrequency : option (list N);
    anonymousCheckbox : option checkbox;
    featuredCheckbox : option checkbox;
    partnerProgram : option checkbox;
    submitBtn : button;
    toastContainer : list toast;
    (** the calls of [processDonation] so far *)
    processed : list donation }.

Definition all_zero (ds : list N) : bool := forallb (N.eqb 48) ds.

(** The literal after the sign of a decimal string, for a string that
    StringToNumber accepts: [Some true] when its value rounds to zero.
    A positive value m * 10^e rounds to zero exactly when it is at most
    2^-1075, half the least positive double. *)
Definition unsigned_decimal_is_zero (s : list N) : option bool :=
  if str_eqb s (str "Infinity") then Some false
  else
    let '(ip, r1) := span is_digit s in
    let '(fp, r2) :=
      match r1 with
      | 46 :: t => span is_digit t
      | _ => ([], r1)
      end in
    if is_empty ip && is_empty fp then None
    else
      match Json.parse_exp r2 with
      | Some (ex, []) =>
          let m := Z.of_N (digits_val (ip ++ fp)) in
          let e := (ex - Z.of_nat (length fp))%Z in
          Some ((m =? 0)%Z
                || ((e <? 0)%Z && (m * 2 ^ 1075 <=? 10 ^ (- e))%Z))
      | _ => None
      end.

(** [0x], [0o] or [0b] and digits of that radix: whether the value is 0. *)
Definition non_decimal_is_zero (s : list N) : option bool :=
  match s with
  | 48 :: x :: ds =>
      let digit_ok :=
        if (x =? 120) || (x =? 88) then Some is_hex
        else if (x =? 111) || (x =? 79) then
          Some (fun c => (48 <=? c) && (c <=? 55))
        else if (x =? 98) || (x =? 66) then
          Some (fun c => (48 <=? c) && (c <=? 49))
        else None in
      match digit_ok with
      | Some ok =>
          if truthy ds && forallb ok ds then Some (all_zero ds) else None
      | None => None
      end
  | _ => None
  end.

(** [s <= 0] for a string [s]: StringToNumber, then the comparison, which
    is false on NaN. *)
Definition string_le_zero (s : list N) : bool :=
  match trim s with
  | [] => true
  | t =>
      match non_decimal_is_zero t with
      | Some z => z
      | None =>
          match t with
          | 45 :: u => bool_decide (is_Some (unsigned_decimal_is_zero u))
          | 43 :: u => default false (unsigned_decimal_is_zero u)
          | _ => default false (unsigned_decimal_is_zero t)
          end
      end
  end.

(** [!finalAmount || finalAmount <= 0] *)
Definition amount_rejected (a : amount) : bool :=
  match a with
  | AmountStr s => negb (truthy s) || string_le_zero s
  | AmountSel SelNull | AmountSel SelNaN => true
  | AmountSel (SelNum z) => (z =? 0)%Z || (z <=? 0)%Z
  end.

Definition amount_text (a : amount) : list N :=
  match a with
  | AmountStr s => s
  | AmountSel SelNull => str "null"
  | AmountSel SelNaN => str "NaN"
  | AmountSel (SelNum z) => Z_to_string z
  end.

Definition is_checked (c : option checkbox) : bool :=
  match c with Some c => checked c | None => false end.

Definition toast (message : list N) (ty : severity) (dur : Z) (st : state)
  : state :=
  {| donorName := donorName st; donorEmail := donorEmail st;
     customAmount := customAmount st; selectedAmount := selectedAmount st;
     selectedFrequency := selectedFrequency st;
     anonymousCheckbox := anonymousCheckbox st;
     featuredCheckbox := featuredCheckbox st;
     partnerProgram := partnerProgram st; submitBtn := submitBtn st;
     toastContainer := show message ty dur (toastContainer st);
     processed := processed st |}.

Definition set_button (b : button) (st : state) : state :=
  {| donorName := donorName st; donorEmail := donorEmail st;
     customAmount := customAmount st; selectedAmount := selectedAmount st;
     selectedFrequency := selectedFrequency st;
     anonymousCheckbox := anonymousCheckbox st;
     featuredCheckbox := featuredCheckbox st;
     partnerProgram := partnerProgram st; submitBtn := b;
     toastContainer := toastContainer st; processed := processed st |}.

Definition call_processDonation (data : donation) (st : state) : state :=
  {| donorName := donorName st; donorEmail := donorEmail st;
     customAmount := customAmount st; selectedAmount := selectedAmount st;
     selectedFrequency := selectedFrequency st;
     anonymousCheckbox := anonymousCheckbox st;
     featuredCheckbox := featuredCheckbox st;
     partnerProgram := partnerProgram st; submitBtn := submitBtn st;
     toastContainer := toastContainer st;
     processed := processed st ++ [data] |}.

Definition reset_checkbox (c : checkbox) : checkbox :=
  {| checked := default_checked c; default_checked := default_checked c |}.

(** [this.donationForm.reset()] *)
Definition reset_form (st : state) : state :=
  {| donorName := reset_field (donorName st);
     donorEmail := reset_field (donorEmail st);
     customAmount := reset_field <$> customAmount st;
     selectedAmount := selectedAmount st;
     selectedFrequency := selectedFrequency st;
     anonymousCheckbox := reset_checkbox <$> anonymousCheckbox st;
     featuredCheckbox := reset_checkbox <$> featuredCheckbox st;
     partnerProgram := reset_checkbox <$> partnerProgram st;
     submitBtn := submitBtn st;
     toastContainer := toastContainer st; processed := processed st |}.

Definition finalAmount (st : state) : amount :=
  match customAmount st with
  | Some f => if truthy (value f) then AmountStr (value f)
              else AmountSel (selectedAmount st)
  | None => AmountSel (selectedAmount st)
  end.

(** [handleSubmit] up to the [await]. *)
Definition handleSubmit_begin (st : state) : state * option donation :=
  let name := value (donorName st) in
  let email := value (donorEmail st) in
  (* Validate *)
  if negb (truthy name) || negb (truthy email) then
    (toast (str "Please fill in all required fields") error default_duration st,
     None)
  else
    (* Get final amount *)
    let final := finalAmount st in
    if amount_rejected final then
      (toast (str "Please select or enter a donation amount") error
         default_duration st, None)
    else
      (set_button (setLoadingState true) st,
       Some {| d_name := name; d_email := email; d_amount := final;
               d_frequency := selectedFrequency st;
               d_anonymous := is_checked (anonymousCheckbox st);
               d_featured := is_checked (featuredCheckbox st);
               d_partner := is_checked (partnerProgram st) |}).

Definition blue_heart : list N := [0xD83D; 0xDC99].

(** [handleSubmit] after the [await]. *)
Definition handleSubmit_settle (r : settled) (data : donation) (st : state)
  : state :=
  match r with
  | Resolved =>
      let st :=
        toast (str "Thank you for your "
                 ++ default (str "undefined") (selectedFrequency st)
                 ++ str " donation of $" ++ amount_text (d_amount data)
                 ++ str "! You're changing lives. " ++ blue_heart)
          success 6000 st in
      (* Reset form *)
      let st := reset_form st in
      set_button (setLoadingState false) st
  | Rejected =>
      let st :=
        toast (str "Payment failed. Please try again.") error
          default_duration st in
      set_button (setLoadingState false) st
  end.

(** One submit event with no other event before the promise settles.
    [processDonation] is the external operation. *)
Definition handleSubmit (processDonation : donation -> settled) (st : state)
  : state :=
  match handleSubmit_begin st with
  | (st, None) => st
  | (st, Some data) =>
      handleSubmit_settle (processDonation data) data
        (call_processDonation data st)
  end.

(** The operation as the script has it: it resolves after 2000 ms. *)
Definition processDonation (data : donation) : settled := Resolved.

(** The values the user typed. *)
Definition values (st : state) : list (list N) * option (list N) :=
  ([value (donorName st); value (donorEmail st)],
   value <$> customAmount st).

(** *** Example forms *)

Definition blank (v : list N) : field :=
  {| value := v; default_value := [];
     has_error := false; aria_invalid := None |}.

(** The scenario of the specification: Jane, jane@x.com, 25, monthly. *)
Definition example_form : state :=
  {| donorName := blank (str "Jane");
     donorEmail := blank (str "jane@x.com");
     customAmount := Some (blank []);
     selectedAmount := SelNum 25;
     selectedFrequency := Some (str "monthly");
     anonymousCheckbox := Some {| checked := false; default_checked := false |};
     featuredCheckbox := Some {| checked := false; default_checked := false |};
     partnerProgram := None;
     submitBtn := setLoadingState false;
     toastContainer := [];
     processed := [] |}.

(** The same form with an e-mail address of invalid format. *)
Definition bad_email_form : state :=
  {| donorName := blank (str "Jane");
     donorEmail := blank (str "not-an-email");
     customAmount := Some (blank []);
     selectedAmount := SelNum 25;
     selectedFrequency := Some (str "monthly");
     anonymousCheckbox := Some {| checked := false; default_checked := false |};
     featuredCheckbox := Some {| checked := false; default_checked := false |};
     partnerProgram := None;
     submitBtn := setLoadingState false;
     toastContainer := [];
     processed := [] |}.

(** A form with no name and the custom amount chosen but not entered. *)
Definition empty_form : state :=
  {| donorName := blank [];
     donorEmail := blank (str "jane@x.com");
     customAmount := Some (blank []);
     selectedAmount := SelNull;
     selectedFrequency := Some (str "monthly");
     anonymousCheckbox := None;
     featuredCheckbox := None;
     partnerProgram := None;
     submitBtn := setLoadingState false;
     toastContainer := [];
     processed := [] |}.

(** *** The listeners besides [submit] *)

(** An [.amount-btn]: [dataset.amount] and the class [active]. *)
Record amount_btn : Type :=
  { btn_amount : option (list N); amount_active : bool }.

(** The donation panel around the form: the amount buttons and the custom
    amount section. *)
Record panel : Type :=
  { form : state;
    amountBtns : list amount_btn;
    customAmountSection_hidden : bool }.

(** [parseInt(s)] with no radix, on a string: white space, a sign, then
    hexadecimal digits after [0x] and decimal digits otherwise; NaN when
    there is no digit.  [None] when the integer read is beyond 2^53 and
    the number returned is its rounding. *)
Definition parseInt (s : list N) : option selected :=
  let s1 := trimStart s in
  let '(neg, s2) :=
    match strip_char 45 s1, strip_char 43 s1 with
    | Some t, _ => (true, t)
    | None, Some t => (false, t)
    | None, None => (false, s1)
    end in
  let '(hex, s3) :=
    match s2 with
    | z :: x :: t =>
        if (z =? 48) && ((x =? 120) || (x =? 88)) then (true, t)
        else (false, s2)
    | _ => (false, s2)
    end in
  let ds := fst (span (if hex then is_hex else is_digit) s3) in
  match ds with
  | [] => Some SelNaN
  | _ =>
      let v :=
        if hex then fold_left (fun acc d => 16 * acc + hex_val d)%Z ds 0%Z
        else Z.of_N (digits_val ds) in
      if (v <=? 2 ^ 53)%Z then Some (SelNum (if neg then - v else v)%Z)
      else None
  end.

Definition set_selectedAmount (a : selected) (st : state) : state :=
  {| donorName := donorName st; donorEmail := donorEmail st;
     customAmount := customAmount st; selectedAmount := a;
     selectedFrequency := selectedFrequency st;
     anonymousCheckbox := anonymousCheckbox st;
     featuredCheckbox := featuredCheckbox st;
     partnerProgram := partnerProgram st; submitBtn := submitBtn st;
     toastContainer := toastContainer st; processed := processed st |}.

(** [selectAmount(btn)] for the [i]-th amount button; [None] when
    [parseInt] leaves the model. *)
Definition selectAmount (i : nat) (pn : panel) : option panel :=
  match amountBtns pn !! i with
  | None => Some pn
  | Some btn =>
      let amount := btn_amount btn in
      let btns :=
        imap (fun j b => {| btn_amount := btn_amount b;
                            amount_active := Nat.eqb j i |})
          (amountBtns pn) in
      let custom :=
        match amount with Some a => str_eqb a (str "custom") | None => false end in
      if custom then
        Some {| form := set_selectedAmount SelNull (form pn);
                amountBtns := btns; customAmountSection_hidden := false |}
      else
        match parseInt (default (str "undefined") amount) with
        | Some n =>
            Some {| form := set_selectedAmount n (form pn);
                    amountBtns := btns; customAmountSection_hidden := true |}
        | None => None
        end
  end.

Definition set_checkboxes (a f : option checkbox) (st : state) : state :=
  {| donorName := donorName st; donorEmail := donorEmail st;
     customAmount := customAmount st; selectedAmount := selectedAmount st;
     selectedFrequency := selectedFrequency st;
     anonymousCheckbox := a; featuredCheckbox := f;
     partnerProgram := partnerProgram st; submitBtn := submitBtn st;
     toastContainer := toastContainer st; processed := processed st |}.

Definition set_checked (v : bool) (c : checkbox) : checkbox :=
  {| checked := v; default_checked := default_checked c |}.

(** A click on the anonymous checkbox: the box flips, then its [change]
    listener runs; [init] registers it only when both boxes exist. *)
Definition click_anonymous (st : state) : state :=
  match anonymousCheckbox st, featuredCheckbox st with
  | Some a, Some f =>
      let a := set_checked (negb (checked a)) a in
      set_checkboxes (Some a)
        (Some (if checked a then set_checked false f else f)) st
  | Some a, None =>
      set_checkboxes (Some (set_checked (negb (checked a)) a)) None st
  | None, _ => st
  end.

(** A click on the featured checkbox. *)
Definition click_featured (st : state) : state :=
  match featuredCheckbox st, anonymousCheckbox st with
  | Some f, Some a =>
      let f := set_checked (negb (checked f)) f in
      set_checkboxes
        (Some (if checked f then set_checked false a else a)) (Some f) st
  | Some f, None =>
      set_checkboxes None (Some (set_checked (negb (checked f)) f)) st
  | None, _ => st
  end.

(** The example form in its panel, with a custom amount left in the field
    of the hidden section. *)
Definition example_panel : panel :=
  {| form :=
       {| donorName := blank (str "Jane");
          donorEmail := blank (str "jane@x.com");
          customAmount := Some (blank (str "10"));
          selectedAmount := SelNull;
          selectedFrequency := Some (str "monthly");
          anonymousCheckbox :=
            Some {| checked := false; default_checked := false |};
          featuredCheckbox :=
            Some {| checked := true; default_checked := false |};
          partnerProgram := None;
          submitBtn := setLoadingState false;
          toastContainer := [];
          processed := [] |};
     amountBtns :=
       [ {| btn_amount := Some (str "25"); amount_active := false |};
         {| btn_amount := Some (str "50"); amount_active := false |};
         {| btn_amount := Some (str "custom"); amount_active := true |} ];
     customAmountSection_hidden := false |}.

(** The clicks on the two recognition checkboxes. *)
Inductive click : Type := ClickAnonymous | ClickFeatured.

Definition click_on (c : click) (st : state) : state :=
  match c with
  | ClickAnonymous => click_anonymous st
  | ClickFeatured => click_featured st
  end.

(** The anonymous and the featured box are not both checked. *)
Definition exclusive (st : state) : Prop :=
  is_checked (anonymousCheckbox st) && is_checked (featuredCheckbox st)
  = false.

End DonationManager.

(** ** AuthenticationManager and the phone helpers (signin-script.js) *)

Module AuthenticationManager.
Import JS Regex ToastManager Form.

Inductive input : Type := emailInput | passwordInput | phoneInput.

(** The id under which the listeners look each input up. *)
Definition id (i : input) : list N :=
  match i with
  | emailInput => str "emailInput"
  | passwordInput => str "passwordInput"
  | phoneInput => str "phoneInput"
  end.

(** An error message element: its text and its [role] attribute. *)
Record error_el : Type :=
  { error_text : list N; error_role : option (list N) }.

(** Callbacks waiting in [setTimeout]: the redirect to the dashboard, the
    reset of the phone form's button, and the end of the shake that
    [showError] gives the parent of an input. *)
Inductive callback : Type :=
| Redirect | RestoreButton | StopShake (i : input).

(** How the promise of an API call settles; a rejection carries the
    [message] of its [Error]. *)
Inductive settled : Type := Resolved | Rejected (message : list N).

(** The sign-in page. *)
Record state : Type :=
  { f_email : field; f_password : field; f_phone : field;
    (** the error message elements present in the page, by id *)
    errorElements : gmap (list N) error_el;
    (** the value of the select with id [countryCode] *)
    countryCode : list N;
    (** the [.submit-btn] of the e-mail form and of the phone form *)
    emailSubmitBtn : button;
    phoneSubmitBtn : button;
    toastContainer : list toast;
    (** the calls of [authenticateWithEmail] and of [sendVerificationCode] *)
    authenticated : list (list N * list N);
    codes_sent : list (list N);
    timers : list (Z * callback);
    location_href : list N;
    (** [input.parentElement], by a number that tells the elements apart *)
    parentElement : input -> nat;
    (** the elements that carry the class [shake] *)
    shaking : gset nat }.

Definition get_field (i : input) (st : state) : field :=
  match i with
  | emailInput => f_email st
  | passwordInput => f_password st
  | phoneInput => f_phone st
  end.

Definition set_field (i : input) (f : field) (st : state) : state :=
  {| f_email := match i with emailInput => f | _ => f_email st end;
     f_password := match i with passwordInput => f | _ => f_password st end;
     f_phone := match i with phoneInput => f | _ => f_phone st end;
     errorElements := errorElements st; countryCode := countryCode st;
     emailSubmitBtn := emailSubmitBtn st; phoneSubmitBtn := phoneSubmitBtn st;
     toastContainer := toastContainer st; authenticated := authenticated st;
     codes_sent := codes_sent st; timers := timers st;
     location_href := location_href st;
     parentElement := parentElement st; shaking := shaking st |}.

Definition set_errors (m : gmap (list N) error_el) (st : state) : state :=
  {| f_email := f_email st; f_password := f_password st; f_phone := f_phone st;
     errorElements := m; countryCode := countryCode st;
     emailSubmitBtn := emailSubmitBtn st; phoneSubmitBtn := phoneSubmitBtn st;
     toastContainer := toastContainer st; authenticated := authenticated st;
     codes_sent := codes_sent st; timers := timers st;
     location_href := location_href st;
     parentElement := parentElement st; shaking := shaking st |}.

Definition set_emailBtn (b : button) (st : state) : state :=
  {| f_email := f_email st; f_password := f_password st; f_phone := f_phone st;
     errorElements := errorElements st; countryCode := countryCode st;
     emailSubmitBtn := b; phoneSubmitBtn := phoneSubmitBtn st;
     toastContainer := toastContainer st; authenticated := authenticated st;
     codes_sent := codes_sent st; timers := timers st;
     location_href := location_href st;
     parentElement := parentElement st; shaking := shaking st |}.

Definition set_phoneBtn (b : button) (st : state) : state :=
  {| f_email := f_email st; f_password := f_password st; f_phone := f_phone st;
     errorElements := errorElements st; countryCode := countryCode st;
     emailSubmitBtn := emailSubmitBtn st; phoneSubmitBtn := b;
     toastContainer := toastContainer st; authenticated := authenticated st;
     codes_sent := codes_sent st; timers := timers st;
     location_href := location_href st;
     parentElement := parentElement st; shaking := shaking st |}.

Definition toast (message : list N) (ty : severity) (st : state) : state :=
  {| f_email := f_email st; f_password := f_password st; f_phone := f_phone st;
     errorElements := errorElements st; countryCode := countryCode st;
     emailSubmitBtn := emailSubmitBtn st; phoneSubmitBtn := phoneSubmitBtn st;
     toastContainer := show message ty default_duration (toastContainer st);
     authenticated := authenticated st;
     codes_sent := codes_sent st; timers := timers st;
     location_href := location_href st;
     parentElement := parentElement st; shaking := shaking st |}.

Definition add_timer (delay : Z) (cb : callback) (st : state) : state :=
  {| f_email := f_email st; f_password := f_password st; f_phone := f_phone st;
     errorElements := errorElements st; countryCode := countryCode st;
     emailSubmitBtn := emailSubmitBtn st; phoneSubmitBtn := phoneSubmitBtn st;
     toastContainer := toastContainer st; authenticated := authenticated st;
     codes_sent := codes_sent st; timers := timers st ++ [(delay, cb)];
     location_href := location_href st;
     parentElement := parentElement st; shaking := shaking st |}.

Definition call_authenticateWithEmail (email password : list N) (st : state)
  : state :=
  {| f_email := f_email st; f_password := f_password st; f_phone := f_phone st;
     errorElements := errorElements st; countryCode := countryCode st;
     emailSubmitBtn := emailSubmitBtn st; phoneSubmitBtn := phoneSubmitBtn st;
     toastContainer := toastContainer st;
     authenticated := authenticated st ++ [(email, password)];
     codes_sent := codes_sent st; timers := timers st;
     location_href := location_href st;
     parentElement := parentElement st; shaking := shaking st |}.

Definition call_sendVerificationCode (phoneNumber : list N) (st : state)
  : state :=
  {| f_email := f_email st; f_password := f_password st; f_phone := f_phone st;
     errorElements := errorElements st; countryCode := countryCode st;
     emailSubmitBtn := emailSubmitBtn st; phoneSubmitBtn := phoneSubmitBtn st;
     toastContainer := toastContainer st; authenticated := authenticated st;
     codes_sent := codes_sent st ++ [phoneNumber]; timers := timers st;
     location_href := location_href st;
     parentElement := parentElement st; shaking := shaking st |}.

Definition set_href (h : list N) (st : state) : state :=
  {| f_email := f_email st; f_password := f_password st; f_phone := f_phone st;
     errorElements := errorElements st; countryCode := countryCode st;
     emailSubmitBtn := emailSubmitBtn st; phoneSubmitBtn := phoneSubmitBtn st;
     toastContainer := toastContainer st; authenticated := authenticated st;
     codes_sent := codes_sent st; timers := timers st;
     location_href := h;
     parentElement := parentElement st; shaking := shaking st |}.

Definition set_shaking (sh : gset nat) (st : state) : state :=
  {| f_email := f_email st; f_password := f_password st; f_phone := f_phone st;
     errorElements := errorElements st; countryCode := countryCode st;
     emailSubmitBtn := emailSubmitBtn st; phoneSubmitBtn := phoneSubmitBtn st;
     toastContainer := toastContainer st; authenticated := authenticated st;
     codes_sent := codes_sent st; timers := timers st;
     location_href := location_href st;
     parentElement := parentElement st; shaking := sh |}.

(** The id of the error element of an input: [`${input.id}Error`]. *)
Definition errorId (i : input) : list N := id i ++ str "Error".

(** [FormValidator.showError(input, message)] *)
Definition showError (i : input) (message : list N) (st : state) : state :=
  let f := get_field i st in
  let st :=
    set_field i {| value := value f; default_value := default_value f;
                   has_error := true; aria_invalid := Some (str "true") |}
      st in
  let st :=
    match errorElements st !! errorId i with
    | Some _ =>
        set_errors
          (<[errorId i := {| error_text := message;
                             error_role := Some (str "alert") |}]>
             (errorElements st)) st
    | None => st
    end in
  (* Shake animation *)
  let st := set_shaking ({[parentElement st i]} ∪ shaking st) st in
  add_timer 500 (StopShake i) st.

(** [FormValidator.clearError(input)] *)
Definition clearError (i : input) (st : state) : state :=
  let f := get_field i st in
  let st :=
    set_field i {| value := value f; default_value := default_value f;
                   has_error := false; aria_invalid := None |}
      st in
  match errorElements st !! errorId i with
  | Some el =>
      set_errors
        (<[errorId i := {| error_text := []; error_role := error_role el |}]>
           (errorElements st)) st
  | None => st
  end.

(** [validateEmailInput], [validatePasswordInput] and [validatePhoneInput]
    have one body, up to the validator they call. *)
Definition validateInput (validator : list N -> FormValidator.result)
    (i : input) (st : state) : state * bool :=
  let result := validator (value (get_field i st)) in
  let st :=
    if negb (FormValidator.isValid result)
    then showError i (FormValidator.message result) st else st in
  (st, FormValidator.isValid result).

Definition validateEmailInput : input -> state -> state * bool :=
  validateInput FormValidator.validateEmail.

Definition validatePasswordInput : input -> state -> state * bool :=
  validateInput FormValidator.validatePassword.

Definition validatePhoneInput : input -> state -> state * bool :=
  validateInput FormValidator.validatePhone.

(** [handleEmailSubmit] up to the [await]. *)
Definition handleEmailSubmit_begin (st : state)
  : state * option (list N * list N) :=
  (* Validate inputs *)
  let '(st, emailValid) := validateEmailInput emailInput st in
  let '(st, passwordValid) := validatePasswordInput passwordInput st in
  if negb emailValid || negb passwordValid then (st, None)
  else
    (set_emailBtn (setLoadingState true) st,
     Some (value (f_email st), value (f_password st))).

(** [error.message || fallback] *)
Definition message_or (message fallback : list N) : list N :=
  if truthy message then message else fallback.

(** [handleEmailSubmit] after the [await]. *)
Definition handleEmailSubmit_settle (r : settled) (st : state) : state :=
  match r with
  | Resolved =>
      let st := toast (str "Successfully signed in!") success st in
      add_timer 1500 Redirect st
  | Rejected message =>
      let st :=
        toast (message_or message (str "Sign in failed. Please try again."))
          error st in
      set_emailBtn (setLoadingState false) st
  end.

(** One submit of the e-mail form with no other event before the promise
    settles; [authenticate] is the API call. *)
Definition handleEmailSubmit (authenticate : list N -> list N -> settled)
    (st : state) : state :=
  match handleEmailSubmit_begin st with
  | (st, None) => st
  | (st, Some (email, password)) =>
      handleEmailSubmit_settle (authenticate email password)
        (call_authenticateWithEmail email password st)
  end.

(** The API call as the script simulates it. *)
Definition authenticateWithEmail (email password : list N) : settled :=
  if truthy email && (8 <=? length password)%nat then Resolved
  else Rejected (str "Invalid credentials").

(** [handlePhoneSubmit] up to the [await]. *)
Definition handlePhoneSubmit_begin (st : state) : state * option (list N) :=
  (* Validate phone *)
  let '(st, phoneValid) := validatePhoneInput phoneInput st in
  if negb phoneValid then (st, None)
  else
    (set_phoneBtn (setLoadingState true) st,
     Some (countryCode st ++ value (f_phone st))).

(** [handlePhoneSubmit] after the [await]. *)
Definition handlePhoneSubmit_settle (r : settled) (st : state) : state :=
  match r with
  | Resolved =>
      let st := toast (str "Verification code sent!") success st in
      add_timer 2000 RestoreButton st
  | Rejected message =>
      let st :=
        toast
          (message_or message (str "Failed to send code. Please try again."))
          error st in
      set_phoneBtn (setLoadingState false) st
  end.

Definition handlePhoneSubmit (sendCode : list N -> settled) (st : state)
  : state :=
  match handlePhoneSubmit_begin st with
  | (st, None) => st
  | (st, Some phoneNumber) =>
      handlePhoneSubmit_settle (sendCode phoneNumber)
        (call_sendVerificationCode phoneNumber st)
  end.

(** The SMS call as the script simulates it. *)
Definition sendVerificationCode (phoneNumber : list N) : settled := Resolved.

(** What a waiting callback does when its delay has passed. *)
Definition run_callback (cb : callback) (st : state) : state :=
  match cb with
  | Redirect => set_href (str "dashboard.html") st
  | RestoreButton => set_phoneBtn (setLoadingState false) st
  | StopShake i => set_shaking (shaking st ∖ {[parentElement st i]}) st
  end.

(** The [input] listener that [attachPhoneFormatting] puts on the phone
    input, as a function of [e.target.value]. *)
Definition attachPhoneFormatting_input (value : list N) : list N :=
  let value := List.filter is_digit value in
  (* Format as (XXX) XXX-XXXX *)
  if (0 <? length value)%nat then
    if (length value <=? 3)%nat then 40 :: value
    else if (length value <=? 6)%nat then
      40 :: take 3 value ++ str ") " ++ drop 3 value
    else
      40 :: take 3 value ++ str ") " ++ take 3 (drop 3 value) ++ [45]
        ++ take 4 (drop 6 value)
  else value.

(** [/^(\d{3})(\d{3})(\d{4})$/] *)
Definition ten_digits : regex :=
  let d := Class is_digit in
  Cat (Cat d (Cat d d)) (Cat (Cat d (Cat d d)) (Cat d (Cat d (Cat d d)))).

(** The top-level [formatPhoneNumber].  The groups of the pattern have a
    fixed width, so on a match they are the slices at 0, 3 and 6. *)
Definition formatPhoneNumber (phone : list N) : list N :=
  let cleaned := List.filter is_digit phone in
  if test ten_digits cleaned then
    40 :: take 3 cleaned ++ str ") " ++ take 3 (drop 3 cleaned) ++ [45]
      ++ take 4 (drop 6 cleaned)
  else phone.

(** The digits of a string: [s.replace(/\D/g, "")]. *)
Definition digitsOnly (s : list N) : list N := List.filter is_digit s.

(** A sign-in page with both forms filled in, for the examples. *)
Definition example_page : state :=
  let blank v := {| value := v; default_value := [];
                    has_error := false; aria_invalid := None |} in
  let el := {| error_text := []; error_role := None |} in
  {| f_email := blank (str "jane@x.com");
     f_password := blank (str "correct horse");
     f_phone := blank (str "(555) 123-4567");
     errorElements :=
       <[errorId emailInput := el]>
         (<[errorId passwordInput := el]> (<[errorId phoneInput := el]> ∅));
     countryCode := str "+1";
     emailSubmitBtn := setLoadingState false;
     phoneSubmitBtn := setLoadingState false;
     toastContainer := []; authenticated := []; codes_sent := [];
     timers := []; location_href := str "signin.html";
     parentElement :=
       (fun i => match i with
                 | emailInput => 0 | passwordInput => 1 | phoneInput => 2
                 end)%nat;
     shaking := ∅ |}.

(** The same page with a malformed e-mail and a password of five
    characters. *)
Definition invalid_page : state :=
  set_field emailInput
    {| value := str "jane.x.com"; default_value := [];
       has_error := false; aria_invalid := None |}
    (set_field passwordInput
       {| value := str "horse"; default_value := [];
          has_error := false; aria_invalid := None |} example_page).

End AuthenticationManager.

(** ** ThemeCustomizer (the site script) *)

Module ThemeCustomizer.
Import JS Json Color.

(** [Math.max(0, Math.floor((x * (100 - percent)) / 100))] for an integer
    channel [x] and an integer [percent]: the floor of the exact quotient,
    as in [Color.adjust]. *)
Definition darken (x : number) (percent : Z) : number :=
  match x with
  | Some z => Some (Z.max 0 ((z * (100 - percent)) / 100))
  | None => NaN
  end.

(** [Math.min(255, Math.floor(x + ((255 - x) * percent) / 100))] *)
Definition lighten (x : number) (percent : Z) : number :=
  match x with
  | Some z => Some (Z.min 255 ((100 * z + (255 - z) * percent) / 100))
  | None => NaN
  end.

(** [darkenColor(rgb, percent)]; the argument may be [null], and reading
    [rgb.r] then throws. *)
Definition darkenColor (c : option rgb) (percent : Z) : option rgb :=
  match c with
  | Some c =>
      Some {| r := darken (r c) percent;
              g := darken (g c) percent;
              b := darken (b c) percent |}
  | None => None
  end.

(** [lightenColor(rgb, percent)] *)
Definition lightenColor (c : option rgb) (percent : Z) : option rgb :=
  match c with
  | Some c =>
      Some {| r := lighten (r c) percent;
              g := lighten (g c) percent;
              b := lighten (b c) percent |}
  | None => None
  end.


(** *** The customizer's page state *)

(** A [.palette-color] input: [dataset.var] and its value. *)
Record palette_color : Type :=
  { data_var : option (list N); palette_value : list N }.

(** A [.mode-btn] element: [dataset.mode] and the class [active]. *)
Record mode_btn : Type :=
  { btn_mode : option (list N); btn_active : bool }.

(** A [.theme-preset] element: [dataset.theme] and the class [active]. *)
Record theme_preset : Type :=
  { preset_theme : option (list N); preset_active : bool }.

Record state : Type :=
  { (** custom properties the stylesheet gives the root element *)
    sheet_vars : gmap (list N) (list N);
    (** [document.documentElement.style] *)
    inline_vars : gmap (list N) (list N);
    (** the [data-theme] attribute of the root element *)
    data_theme : option (list N);
    primaryColorPicker_value : list N;
    paletteColors : list palette_color;
    modeButtons : list mode_btn;
    themePresets : list theme_preset;
    (** the texts of the notifications appended to the body so far *)
    notifications : list (list N);
    localStorage : gmap (list N) (list N) }.

Definition storage_key : list N := str "studyflow-theme".

(** [this.defaultTheme] *)
Definition default_primary : list N := str "#0066cc".
Definition default_secondary : list N := str "#004d99".
Definition default_accent : list N := str "#00bfff".
Definition default_highlight : list N := str "#ffd700".

(** [getComputedStyle(root).getPropertyValue(name)] for a custom property,
    as in [ThemeManager.getPropertyValue]. *)
Definition getPropertyValue (name : list N) (st : state) : list N :=
  match inline_vars st !! name with
  | Some v => v
  | None => default [] (sheet_vars st !! name)
  end.

Definition set_localStorage (ls : gmap (list N) (list N)) (st : state)
    : state :=
  {| sheet_vars := sheet_vars st; inline_vars := inline_vars st;
     data_theme := data_theme st;
     primaryColorPicker_value := primaryColorPicker_value st;
     paletteColors := paletteColors st; modeButtons := modeButtons st;
     themePresets := themePresets st; notifications := notifications st;
     localStorage := ls |}.

Definition set_inline (m : gmap (list N) (list N)) (st : state) : state :=
  {| sheet_vars := sheet_vars st; inline_vars := m;
     data_theme := data_theme st;
     primaryColorPicker_value := primaryColorPicker_value st;
     paletteColors := paletteColors st; modeButtons := modeButtons st;
     themePresets := themePresets st; notifications := notifications st;
     localStorage := localStorage st |}.

(** The theme record as [saveTheme] builds it. *)
Definition theme_record (primary secondary accent highlight mode : list N)
    : json :=
  JObj [(str "primary", JStr primary); (str "secondary", JStr secondary);
        (str "accent", JStr accent); (str "highlight", JStr highlight);
        (str "mode", JStr mode)].

(** [saveTheme()] *)
Definition saveTheme (st : state) : state :=
  let computed name := trim (getPropertyValue name st) in
  let mode :=
    match data_theme st with
    | Some m => if truthy m then m else str "light"
    | None => str "light"
    end in
  set_localStorage
    (<[storage_key :=
         stringify
           (theme_record (computed (str "--primary-color"))
              (computed (str "--secondary-color"))
              (computed (str "--accent-color"))
              (computed (str "--highlight-color")) mode)]> (localStorage st))
    st.

(** [updateColor(variable, value)]: [setProperty] as in
    [ThemeManager.setProperty] (the empty string removes the declaration, a
    plain value is stored, [None] for any other value), then
    [saveTheme]. *)
Definition updateColor (variable value : list N) (st : state)
    : option state :=
  if is_empty value then
    Some (saveTheme (set_inline (delete variable (inline_vars st)) st))
  else if ThemeManager.css_plain value then
    Some (saveTheme (set_inline (<[variable := value]> (inline_vars st)) st))
  else None.

(** [input.dataset.var === name] *)
Definition var_is (input : palette_color) (name : string) : bool :=
  match data_var input with
  | Some v => str_eqb v (str name)
  | None => false
  end.

(** The [forEach] over the palette inputs that [loadTheme] and
    [resetTheme] share: four tests in a row on each input. *)
Definition update_palette (primary secondary accent highlight : list N)
    (inputs : list palette_color) : list palette_color :=
  List.map
    (fun input =>
       let v := palette_value input in
       let v := if var_is input "--primary-color" then primary else v in
       let v := if var_is input "--secondary-color" then secondary else v in
       let v := if var_is input "--accent-color" then accent else v in
       let v := if var_is input "--highlight-color" then highlight else v in
       {| data_var := data_var input; palette_value := v |})
    inputs.

(** [btn.dataset.mode === mode] *)
Definition mode_is (btn : mode_btn) (mode : string) : bool :=
  match btn_mode btn with
  | Some m => str_eqb m (str mode)
  | None => false
  end.

(** The four [updateColor] calls of [loadTheme] and [resetTheme]. *)
Definition update_colors (primary secondary accent highlight : list N)
    (st : state) : option state :=
  match updateColor (str "--primary-color") primary st with
  | Some st =>
      match updateColor (str "--secondary-color") secondary st with
      | Some st =>
          match updateColor (str "--accent-color") accent st with
          | Some st => updateColor (str "--highlight-color") highlight st
          | None => None
          end
      | None => None
      end
  | None => None
  end.

(** [loadTheme()] *)
Definition loadTheme (st : state) : outcome state :=
  match localStorage st !! storage_key with
  | None => Returned st
  | Some savedTheme =>
      if truthy savedTheme then
        match parse savedTheme with
        | None => Threw SyntaxError st
        | Some JNull => Threw TypeError st
        | Some theme =>
            match ThemeManager.to_DOMString (get theme (str "primary")),
                  ThemeManager.to_DOMString (get theme (str "secondary")),
                  ThemeManager.to_DOMString (get theme (str "accent")),
                  ThemeManager.to_DOMString (get theme (str "highlight"))
            with
            | Some primary, Some secondary, Some accent, Some highlight =>
                match update_colors primary secondary accent highlight st with
                | Some st =>
                    let dark :=
                      match get theme (str "mode") with
                      | Some (JStr m) => str_eqb m (str "dark")
                      | _ => false
                      end in
                    Returned
                      {| sheet_vars := sheet_vars st;
                         inline_vars := inline_vars st;
                         (* Apply mode *)
                         data_theme :=
                           if dark then Some (str "dark") else data_theme st;
                         (* Update color pickers *)
                         primaryColorPicker_value := primary;
                         paletteColors :=
                           update_palette primary secondary accent highlight
                             (paletteColors st);
                         modeButtons :=
                           if dark then
                             List.map
                               (fun b => {| btn_mode := btn_mode b;
                                            btn_active := mode_is b "dark" |})
                               (modeButtons st)
                           else modeButtons st;
                         themePresets := themePresets st;
                         notifications := notifications st;
                         localStorage := localStorage st |}
                | None => OutOfModel
                end
            | _, _, _, _ => OutOfModel
            end
        end
      else Returned st
  end.

(** [toggleMode(button)] for the [i]-th of the mode buttons (a click on no
    button is no event). *)
Definition toggleMode (i : nat) (st : state) : state :=
  match modeButtons st !! i with
  | None => st
  | Some button =>
      saveTheme
        {| sheet_vars := sheet_vars st; inline_vars := inline_vars st;
           (* Apply theme *)
           data_theme :=
             if mode_is button "dark" then Some (str "dark") else None;
           primaryColorPicker_value := primaryColorPicker_value st;
           paletteColors := paletteColors st;
           modeButtons :=
             imap (fun j b => {| btn_mode := btn_mode b;
                                 btn_active := Nat.eqb j i |})
               (modeButtons st);
           themePresets := themePresets st;
           notifications := notifications st;
           localStorage := localStorage st |}
  end.

(** [resetTheme()]; [showNotification] appends its message, and the timers
    that remove the notification are not run here. *)
Definition resetTheme (st : state) : option state :=
  match update_colors default_primary default_secondary default_accent
          default_highlight st with
  | Some st =>
      Some
        {| sheet_vars := sheet_vars st; inline_vars := inline_vars st;
           (* Reset mode *)
           data_theme := None;
           (* Reset color pickers *)
           primaryColorPicker_value := default_primary;
           paletteColors :=
             update_palette default_primary default_secondary default_accent
               default_highlight (paletteColors st);
           modeButtons :=
             List.map
               (fun b => {| btn_mode := btn_mode b;
                            btn_active := mode_is b "light" |})
               (modeButtons st);
           (* Reset preset selection *)
           themePresets :=
             List.map
               (fun p => {| preset_theme := preset_theme p;
                            preset_active :=
                              match preset_theme p with
                              | Some t => str_eqb t (str "ocean-blue")
                              | None => false
                              end |})
               (themePresets st);
           notifications :=
             notifications st ++ [str "Theme reset to default"];
           localStorage := delete storage_key (localStorage st) |}
  | None => None
  end.

(** What the page shows: a custom property as [saveTheme] reads it, and
    the mode. *)
Definition shown (name : string) (st : state) : list N :=
  trim (getPropertyValue (str name) st).

Definition shown_mode (st : state) : list N :=
  match data_theme st with
  | Some m => if truthy m then m else str "light"
  | None => str "light"
  end.

(** The page that a new load finds with the store [ls]: nothing set by
    script yet. *)
Definition fresh (ls : gmap (list N) (list N)) (st : state) : state :=
  {| sheet_vars := sheet_vars st; inline_vars := ∅; data_theme := None;
     primaryColorPicker_value := primaryColorPicker_value st;
     paletteColors := paletteColors st; modeButtons := modeButtons st;
     themePresets := themePresets st; notifications := [];
     localStorage := ls |}.

(** A page for the examples: the stylesheet gives the default theme, and
    the second mode button is the dark one. *)
Definition example_page : state :=
  {| sheet_vars :=
       {[ str "--primary-color" := default_primary;
          str "--secondary-color" := default_secondary;
          str "--accent-color" := default_accent;
          str "--highlight-color" := default_highlight ]};
     inline_vars := ∅; data_theme := None;
     primaryColorPicker_value := default_primary;
     paletteColors :=
       [ {| data_var := Some (str "--accent-color");
            palette_value := default_accent |} ];
     modeButtons :=
       [ {| btn_mode := Some (str "light"); btn_active := true |};
         {| btn_mode := Some (str "dark"); btn_active := false |} ];
     themePresets :=
       [ {| preset_theme := Some (str "ocean-blue"); preset_active := true |};
         {| preset_theme := Some (str "midnight"); preset_active := false |} ];
     notifications := [];
     localStorage := ∅ |}.


(** The inline declarations after the four [updateColor] calls of
    [loadTheme] and [resetTheme]. *)
Definition painted (p s a h : list N) (m : gmap (list N) (list N))
    : gmap (list N) (list N) :=
  <[str "--highlight-color" := h]>
    (<[str "--accent-color" := a]>
       (<[str "--secondary-color" := s]> (<[str "--primary-color" := p]> m))).
End ThemeCustomizer.

(** ** Colours with channels from 0 to 255, to state the properties of the
    colour helpers *)

Module Gamut.
Import Color.

(** An integer channel from 0 to 255. *)
Definition channel (x : number) : Prop :=
  exists z, x = Some z /\ (0 <= z <= 255)%Z.

Definition in_gamut (c : rgb) : Prop :=
  channel (r c) /\ channel (g c) /\ channel (b c).

(** No channel of the first colour exceeds that channel of the second. *)
Definition le_channel (x y : number) : Prop :=
  match x, y with
  | Some a, Some b => (a <= b)%Z
  | _, _ => False
  end.

Definition le_rgb (c1 c2 : rgb) : Prop :=
  le_channel (r c1) (r c2) /\ le_channel (g c1) (g c2)
  /\ le_channel (b c1) (b c2).

(** The default primary colour [#0066cc]. *)
Definition default_rgb : rgb :=
  {| r := Some 0%Z; g := Some 102%Z; b := Some 204%Z |}.

End Gamut.

(** ** FAQManager (help-script.js) *)

Module FAQManager.

(** The [.faq-item] elements, each by whether it has the class [active]. *)
Abbreviation state := (list bool) (only parsing).

(** [toggleFAQ(item)] for the [i]-th item (a click on no item is no
    event). *)
Definition toggleFAQ (i : nat) (faqItems : state) : state :=
  match faqItems !! i with
  | None => faqItems
  | Some isActive =>
      imap (fun j active => if Nat.eqb j i then negb isActive else false)
        faqItems
  end.

End FAQManager.

(** ** TypingEffect (the site script) *)

Module TypingEffect.

(** The element's text, the text to type, the index of the next
    character and the number of [setTimeout] callbacks waiting. *)
Record state : Type :=
  { textContent : list N; text : list N; index : nat; waiting : nat }.

(** [new TypingEffect(element, text)] on an element. *)
Definition construct (element_text text : list N) : state :=
  {| textContent := element_text; text := text; index := 0; waiting := 0 |}.

(** [type()] *)
Definition type (st : state) : state :=
  match text st !! index st with
  | Some c =>
      {| textContent := textContent st ++ [c]; text := text st;
         index := S (index st); waiting := S (waiting st) |}
  | None => st
  end.

(** [start()] *)
Definition start (st : state) : state :=
  type {| textContent := []; text := text st; index := index st;
          waiting := waiting st |}.

(** A waiting callback runs [type()]. *)
Definition timeout (st : state) : state :=
  match waiting st with
  | O => st
  | S n =>
      type {| textContent := textContent st; text := text st;
              index := index st; waiting := n |}
  end.

End TypingEffect.

(** ** debounce and throttle (utility functions of the scripts) *)

Module Debounce.

Section Closure.
Context {A : Type}.

(** The closure of [debounce(func, wait)]: the arguments that the waiting
    [later] will pass on, if one waits, and the calls of [func] so far. *)
Record state : Type := { waiting : option A; calls : list A }.

(** [debounce(func, wait)] *)
Definition debounce : state := {| waiting := None; calls := [] |}.

(** [executedFunction(...args)]: the waiting callback is cleared and a new
    one is set. *)
Definition executedFunction (args : A) (st : state) : state :=
  {| waiting := Some args; calls := calls st |}.

(** The wait has passed: [later] runs. *)
Definition later (st : state) : state :=
  match waiting st with
  | Some args => {| waiting := None; calls := calls st ++ [args] |}
  | None => st
  end.

Inductive event : Type := Call (args : A) | Wait.

Definition run (ev : event) (st : state) : state :=
  match ev with
  | Call args => executedFunction args st
  | Wait => later st
  end.

(** The events of a list, one after the other. *)
Definition run_all (evs : list event) (st : state) : state :=
  foldl (fun st ev => run ev st) st evs.

(** The arguments of the calls among the events, in order. *)
Definition arguments (evs : list event) : list A :=
  omap (fun ev => match ev with Call args => Some args | Wait => None end) evs.

End Closure.
Arguments state A : clear implicits.
Arguments event A : clear implicits.

End Debounce.

Module Throttle.

Section Closure.
Context {A : Type}.

(** The closure of [throttle(func, limit)]: [inThrottle] and the calls of
    [func] so far.  A callback that resets [inThrottle] waits exactly
    while it is true. *)
Record state : Type := { inThrottle : bool; calls : list A }.

(** [throttle(func, limit)] *)
Definition throttle : state := {| inThrottle := false; calls := [] |}.

(** The function returned, called with [args]. *)
Definition throttled (args : A) (st : state) : state :=
  if negb (inThrottle st) then
    {| inThrottle := true; calls := calls st ++ [args] |}
  else st.

(** The limit has passed: the waiting callback resets [inThrottle]. *)
Definition reset (st : state) : state :=
  if inThrottle st then {| inThrottle := false; calls := calls st |} else st.

Inductive event : Type := Call (args : A) | Wait.

Definition run (ev : event) (st : state) : state :=
  match ev with
  | Call args => throttled args st
  | Wait => reset st
  end.

(** The events of a list, one after the other. *)
Definition run_all (evs : list event) (st : state) : state :=
  foldl (fun st ev => run ev st) st evs.

(** The arguments of the calls among the events, in order. *)
Definition arguments (evs : list event) : list A :=
  omap (fun ev => match ev with Call args => Some args | Wait => None end) evs.

End Closure.
Arguments state A : clear implicits.
Arguments event A : clear implicits.

End Throttle.

(** * Properties *)

Import JS.

(** ** The embedding on concrete inputs *)

Module Examples.
Import Json.

Example validateEmail_accepts :
  FormValidator.validateEmail (str "a@b.co")
  = {| FormValidator.isValid := true; FormValidator.message := [] |}.
Proof. reflexivity. Qed.

Example validatePhone_accepts :
  FormValidator.validatePhone (str "(555) 123-4567")
  = {| FormValidator.isValid := true; FormValidator.message := [] |}.
Proof. reflexivity. Qed.

Example largest_exact_count :
  Z_to_string 9007199254740992 = str "9007199254740992".
Proof. reflexivity. Qed.

Example hex_short_form : Color.hexToRgb (str "#06c") = None.
Proof. reflexivity. Qed.

Example darker_shade :
  Color.rgbToHex
    <$> Color.adjustBrightness (Color.hexToRgb (str "0066CC")) (-20)
  = Some (str "#0051a3").
Proof. reflexivity. Qed.

Example parse_progress_text :
  parse (text "{'count': 3, 'platforms': ['twitter', 'aA\n']}")
  = Some (JObj [(str "count", JNum 3 0);
                (str "platforms",
                 JArr [JStr (str "twitter"); JStr [97; 65; 10]])]).
Proof. reflexivity. Qed.

Example parse_all_kinds :
  parse (text " [1.50e3, -0, true, null, {}, [], ''] ")
  = Some (JArr [JNum 150 1; JNum 0 0; JBool true; JNull; JObj []; JArr [];
                JStr []]).
Proof. reflexivity. Qed.

Example parse_rejects :
  List.map parse
    [str "01"; str "[1,]"; str ""; str "1 2"; text "{'a':1,}"; str "nul";
     str "-"; str "1."; str "1e"; str "{bad"]
  = [None; None; None; None; None; None; None; None; None; None].
Proof. reflexivity. Qed.

Example stringify_escapes :
  stringify
    (JObj [(str "count", JNum 3 0);
           (str "platforms",
            JArr [JStr (str "twitter");
                  JStr [97; 34; 10; 1; 0xD83C; 0xDF89; 0xD83C]])])
  = text "{'count':3,'platforms':['twitter','a\'\n\u0001"
      ++ [0xD83C; 0xDF89] ++ text "\ud83c']}".
Proof. reflexivity. Qed.

Example string_le_zero_cases :
  List.map DonationManager.string_le_zero
    [str "0"; str " "; str "-5"; str "abc"; str "25"; str "1e-400";
     str "0x0"; str "0x1"; str "-0x1"; str ".0"; str "."; str "5.";
     str "-Infinity"; str "Infinity"; str "+0.000"; str "1e-323"; str "0e5";
     str "--1"; str "1e"; str "-"]
  = [true; true; true; false; false; true; true; false; false; true; false;
     false; true; false; true; false; true; false; false; false].
Proof. vm_compute. reflexivity. Qed.

(** The scenario of the specification for the donation form: the success
    toast names the frequency and the amount, and the fields are cleared. *)
Example donation_scenario :
  let st :=
    DonationManager.handleSubmit DonationManager.processDonation
      DonationManager.example_form in
  List.map ToastManager.text (DonationManager.toastContainer st)
  = [str "Thank you for your monthly donation of $25! You're changing lives. "
       ++ DonationManager.blue_heart]
  /\ DonationManager.values st = ([[]; []], Some [])
  /\ DonationManager.submitBtn st = Form.setLoadingState false.
Proof. repeat split. Qed.

(** The scenario of the specification for the ticket form: three errors,
    one toast, no submission. *)
Example ticket_scenario :
  let st :=
    TicketManager.handleSubmit TicketManager.submitTicket
      TicketManager.example_env TicketManager.scenario_form in
  List.map (fun i => TicketManager.errorElements st !! TicketManager.errorId i)
    TicketManager.inputs
  = [Some (str "Name must be at least 2 characters");
     Some (str "Please enter a valid email address");
     Some []; Some [];
     Some (str "Please enter a subject");
     Some []]
  /\ List.map ToastManager.text (TicketManager.toastContainer st)
     = [str "Please fix the errors in the form"]
  /\ TicketManager.submitted st = [].
Proof. vm_compute. repeat split. Qed.

Example ticket_number :
  TicketManager.generateTicketNumber TicketManager.example_env
  = str "SF-600000-007".
Proof. reflexivity. Qed.

End Examples.



(** ** Regular expressions: [test] decides the language *)

Module RegexFacts.
Import Regex.

Lemma lang_cat_iff r1 r2 s :
  lang (Cat r1 r2) s <->
  exists s1 s2, s = s1 ++ s2 /\ lang r1 s1 /\ lang r2 s2.
Proof.
  split.
  - intros H. inversion H; subst. eauto.
  - intros (s1 & s2 & -> & H1 & H2). by constructor.
Qed.

Lemma lang_alt_iff r1 r2 s : lang (Alt r1 r2) s <-> lang r1 s \/ lang r2 s.
Proof.
  split.
  - intros H. inversion H; subst; auto.
  - intros [H|H]; [by apply lang_alt_l|by apply lang_alt_r].
Qed.

Lemma lang_eps_iff s : lang Eps s <-> s = [].
Proof. split; [intros H; by inversion H|intros ->; constructor]. Qed.

Lemma lang_void_iff s : lang Void s <-> False.
Proof. split; [intros H; inversion H|done]. Qed.

Lemma lang_class_iff p s : lang (Class p) s <-> exists c, s = [c] /\ p c = true.
Proof.
  split.
  - intros H. inversion H; subst. eauto.
  - intros (c & -> & H). by constructor.
Qed.

Lemma nullable_lang r : nullable r = true <-> lang r [].
Proof.
  induction r; simpl.
  - rewrite lang_void_iff. split; [discriminate|done].
  - rewrite lang_eps_iff. done.
  - rewrite lang_class_iff. split; [discriminate|]. by intros (c & ? & _).
  - rewrite andb_true_iff, lang_cat_iff, IHr1, IHr2. split.
    + intros [H1 H2]. by exists [], [].
    + intros (s1 & s2 & Heq & H1 & H2). symmetry in Heq.
      apply app_eq_nil in Heq as [-> ->]. done.
  - rewrite orb_true_iff, lang_alt_iff, IHr1, IHr2. done.
  - split; [constructor|done].
Qed.

Lemma lang_star_cons r c s :
  lang (Star r) (c :: s) ->
  exists s1 s2, s = s1 ++ s2 /\ lang r (c :: s1) /\ lang (Star r) s2.
Proof.
  intros H. remember (Star r) as r' eqn:Hr. remember (c :: s) as w eqn:Hw.
  induction H; try discriminate.
  inversion Hr; subst r0. destruct s1 as [|c1 s1].
  - simpl in Hw. auto.
  - simpl in Hw. inversion Hw; subst. eauto.
Qed.

Lemma deriv_lang r : forall c s, lang (deriv c r) s <-> lang r (c :: s).
Proof.
  induction r; intros c s; simpl.
  - rewrite !lang_void_iff. done.
  - rewrite lang_void_iff, lang_eps_iff. done.
  - rewrite lang_class_iff. destruct (p c) eqn:Hp.
    + rewrite lang_eps_iff. split.
      * intros ->. eauto.
      * intros (c' & Heq & _). by inversion Heq.
    + rewrite lang_void_iff. split; [done|].
      intros (c' & Heq & Hc). inversion Heq; subst. congruence.
  - assert (Hcat : lang (Cat (deriv c r1) r2) s <->
                   exists s1 s2, s = s1 ++ s2 /\ lang r1 (c :: s1) /\ lang r2 s2).
    { rewrite lang_cat_iff. split; intros (s1 & s2 & ? & H1 & H2);
        exists s1, s2; (split; [done|]); (split; [by apply IHr1|done]). }
    rewrite (lang_cat_iff r1 r2). destruct (nullable r1) eqn:Hn.
    + rewrite lang_alt_iff, Hcat, IHr2. split.
      * intros [(s1 & s2 & -> & H1 & H2)|H].
        -- by exists (c :: s1), s2.
        -- exists [], (c :: s). split; [done|]. split; [by apply nullable_lang|done].
      * intros (s1 & s2 & Heq & H1 & H2). destruct s1 as [|c1 s1]; simpl in Heq.
        -- right. by subst.
        -- left. inversion Heq; subst. by exists s1, s2.
    + rewrite Hcat. split.
      * intros (s1 & s2 & -> & H1 & H2). by exists (c :: s1), s2.
      * intros (s1 & s2 & Heq & H1 & H2). destruct s1 as [|c1 s1]; simpl in Heq.
        -- apply nullable_lang in H1. congruence.
        -- inversion Heq; subst. by exists s1, s2.
  - rewrite !lang_alt_iff, IHr1, IHr2. done.
  - rewrite lang_cat_iff. split.
    + intros (s1 & s2 & -> & H1 & H2). apply IHr in H1.
      change (c :: s1 ++ s2) with ((c :: s1) ++ s2). by constructor.
    + intros H. apply lang_star_cons in H as (s1 & s2 & -> & Ha & Hb).
      exists s1, s2. split; [done|]. split; [by apply IHr|done].
Qed.

Lemma test_lang s : forall r, test r s = true <-> lang r s.
Proof.
  induction s as [|c s IH]; intros r; simpl.
  - apply nullable_lang.
  - rewrite IH. apply deriv_lang.
Qed.

(** [[p]*] and [[p]+] *)
Lemma lang_star_class p s : lang (Star (Class p)) s <-> forallb p s = true.
Proof.
  split.
  - intros H. remember (Star (Class p)) as r eqn:Hr.
    induction H; try discriminate; [done|].
    inversion Hr; subst. inversion H; subst. simpl.
    apply andb_true_iff. split; [done|]. by apply IHlang2.
  - induction s as [|c s IH]; simpl; intros H; [constructor|].
    apply andb_true_iff in H as [Hc Hs].
    change (c :: s) with ([c] ++ s). constructor; [by constructor|auto].
Qed.

Lemma lang_plus_class p s :
  lang (Plus (Class p)) s <-> s <> [] /\ forallb p s = true.
Proof.
  unfold Plus. rewrite lang_cat_iff. split.
  - intros (s1 & s2 & -> & Ha & Hb). apply lang_class_iff in Ha as (c & -> & Hc).
    apply lang_star_class in Hb. simpl. split; [done|]. apply andb_true_iff; auto.
  - intros [Hne H]. destruct s as [|c s]; [done|]. simpl in H.
    apply andb_true_iff in H as [Hc Hs]. exists [c], s.
    split; [done|]. split; [by constructor|by apply lang_star_class].
Qed.

Lemma lang_chr c s : lang (Chr c) s <-> s = [c].
Proof.
  unfold Chr. rewrite lang_class_iff. split.
  - intros (c' & -> & H). by apply N.eqb_eq in H as ->.
  - intros ->. exists c. split; [done|apply N.eqb_refl].
Qed.

End RegexFacts.

(** ** Strings *)

Module JSFacts.
Import JS.

(** Boolean comparisons on code units, as arithmetic. *)
Ltac code_units :=
  unfold FormValidator.not_space_at, FormValidator.phone_char,
    FormValidator.spec_phone_char, is_hex, is_space, is_digit in *;
  lia.

Lemma trimStart_nil s : trimStart s = [] <-> forallb is_space s = true.
Proof.
  induction s as [|c s IH]; simpl; [done|].
  destruct (is_space c); simpl; [done|]. split; discriminate.
Qed.

Lemma trimStart_head c s : is_space c = false -> trimStart (c :: s) = c :: s.
Proof. intros H. simpl. by rewrite H. Qed.

Lemma trimStart_spaces_or_head s :
  trimStart s = [] \/ exists c t, trimStart s = c :: t /\ is_space c = false.
Proof.
  induction s as [|c s IH]; simpl; [by left|].
  destruct (is_space c) eqn:Hc; [done|]. right. eauto.
Qed.

Lemma forallb_rev (p : N -> bool) s : forallb p (rev s) = forallb p s.
Proof.
  induction s as [|c s IH]; [done|]. simpl.
  rewrite forallb_app, IH. simpl. rewrite andb_true_r. apply andb_comm.
Qed.

(** [trim] leaves nothing exactly on white space. *)
Lemma trim_nil s : trim s = [] <-> forallb is_space s = true.
Proof.
  unfold trim, trimEnd. split.
  - intros H. apply (f_equal (@rev N)) in H. rewrite rev_involutive in H.
    simpl in H. apply trimStart_nil in H. rewrite forallb_rev in H.
    destruct (trimStart_spaces_or_head s) as [Hs|(c & t & Hs & Hc)].
    + by apply trimStart_nil.
    + rewrite Hs in H. simpl in H. rewrite Hc in H. discriminate.
  - intros H. apply trimStart_nil in H. by rewrite H.
Qed.

(** A string that starts and ends outside white space is its own trim. *)
Lemma trim_id s :
  forallb (fun c => negb (is_space c)) s = true -> trim s = s.
Proof.
  intros H. unfold trim, trimEnd.
  assert (Hst : forall x, forallb (fun c => negb (is_space c)) x = true ->
                          trimStart x = x).
  { intros [|c x]; [done|]. simpl. intros Hx.
    apply andb_true_iff in Hx as [Hc _]. apply negb_true_iff in Hc.
    by rewrite Hc. }
  rewrite (Hst s H), Hst, rev_involutive; [done|]. by rewrite forallb_rev.
Qed.

End JSFacts.

(** ** FormValidator *)

Module FormValidatorFacts.
Import JS Regex RegexFacts JSFacts FormValidator.

Lemma email_pattern_shape s :
  test rules.email_pattern s = true <-> email_shape s.
Proof.
  rewrite test_lang. unfold rules.email_pattern, email_shape. split.
  - intros H.
    apply lang_cat_iff in H as (l & s1 & -> & Hl & H).
    apply lang_cat_iff in H as (a & s2 & -> & Ha & H).
    apply lang_cat_iff in H as (d & s3 & -> & Hd & H).
    apply lang_cat_iff in H as (o & t & -> & Ho & Ht).
    apply lang_chr in Ha as ->. apply lang_chr in Ho as ->.
    apply lang_plus_class in Hl as [? ?]. apply lang_plus_class in Hd as [? ?].
    apply lang_plus_class in Ht as [? ?].
    exists l, d, t. simpl. done.
  - intros (l & d & t & -> & Hl & Hd & Ht & Fl & Fd & Ft).
    apply lang_cat_iff. exists l, (64 :: d ++ 46 :: t).
    split; [done|]. split; [by apply lang_plus_class|].
    apply lang_cat_iff. exists [64], (d ++ 46 :: t).
    split; [done|]. split; [by apply lang_chr|].
    apply lang_cat_iff. exists d, (46 :: t).
    split; [done|]. split; [by apply lang_plus_class|].
    apply lang_cat_iff. exists [46], t.
    split; [done|]. split; [by apply lang_chr|by apply lang_plus_class].
Qed.

Lemma email_shape_no_space s :
  email_shape s -> forallb (fun c => negb (is_space c)) s = true.
Proof.
  intros (l & d & t & -> & _ & _ & _ & Fl & Fd & Ft).
  assert (Hw : forall x, forallb not_space_at x = true ->
                         forallb (fun c => negb (is_space c)) x = true).
  { intros x Hx. rewrite forallb_forall in *. intros c Hc.
    specialize (Hx c Hc). unfold not_space_at in Hx.
    rewrite negb_orb in Hx. by apply andb_true_iff in Hx as [? _]. }
  rewrite forallb_app. simpl. rewrite forallb_app. simpl.
  rewrite (Hw l), (Hw d), (Hw t) by done. done.
Qed.

Lemma phone_pattern_shape s :
  test rules.phone_pattern s = true <-> s <> [] /\ forallb phone_char s = true.
Proof. rewrite test_lang. apply lang_plus_class. Qed.

Lemma spaces_have_no_digit s :
  forallb is_space s = true -> List.filter is_digit s = [].
Proof.
  induction s as [|c s IH]; simpl; [done|]. intros H.
  apply andb_true_iff in H as [Hc Hs].
  destruct (is_digit c) eqn:Hd; [exfalso; clear IH Hs; code_units|auto].
Qed.

End FormValidatorFacts.

Module ValidatorLemmas.
Import JS Regex RegexFacts JSFacts FormValidator FormValidatorFacts.

Lemma validateEmail_required email :
  forallb is_space email = true ->
  validateEmail email =
    {| isValid := false; message := str "Email is required" |}.
Proof.
  intros H. apply trim_nil in H. unfold validateEmail. rewrite H. simpl.
  by rewrite orb_true_r.
Qed.

Lemma validateEmail_valid_iff email :
  isValid (validateEmail email) = true <-> email_shape email.
Proof.
  unfold validateEmail. split.
  - destruct (negb (truthy email) || is_empty (trim email)); [discriminate|].
    destruct (test rules.email_pattern email) eqn:Ht; [|discriminate].
    intros _. by apply email_pattern_shape.
  - intros H. pose proof (email_shape_no_space _ H) as Hw.
    rewrite (trim_id _ Hw). apply email_pattern_shape in H as Ht. rewrite Ht.
    destruct H as (l & d & t & -> & Hl & _). destruct l; done.
Qed.

Lemma forallb_false_elem (p : N -> bool) s :
  forallb p s = false -> exists c, c ∈ s /\ p c = false.
Proof.
  induction s as [|c s IH]; simpl; [discriminate|].
  destruct (p c) eqn:Hc; simpl.
  - intros H. destruct (IH H) as (x & Hx & Hp). exists x. split; [|done].
    by apply elem_of_cons; right.
  - intros _. exists c. split; [|done]. by apply elem_of_cons; left.
Qed.

Lemma forallb_true_elem (p : N -> bool) s c :
  forallb p s = true -> c ∈ s -> p c = true.
Proof.
  intros H Hc. rewrite forallb_forall in H. apply H. by apply list_elem_of_In.
Qed.

End ValidatorLemmas.

(** C6, as amended.  [FormValidator.validateEmail] rejects the empty
    string and every white-space-only input with the message "Email is
    required"; it accepts "a@b.co"; it rejects "not-an-email", and every
    other input that is not blank and not of the accepted shape, with the
    format message "Please enter a valid email address"; and the inputs it
    accepts are exactly those made of a local part, [@], a domain label, a
    dot and a last part, each non-empty and free of white space and of
    [@].  [TicketManager.validateEmail] accepts the same shape on the
    trimmed value; on a blank value it answers false, marks the input and
    shows its own required message "Please enter your email" in the
    element [ticketEmailError]; on any other value whose trimmed form is
    not of the accepted shape it does the same with the format message.
    The value typed stays in both cases. *)
Theorem C6_validateEmail :
  (forall email, forallb is_space email = true ->
     FormValidator.validateEmail email =
       {| FormValidator.isValid := false;
          FormValidator.message := str "Email is required" |})
  /\ FormValidator.validateEmail (str "a@b.co") =
       {| FormValidator.isValid := true; FormValidator.message := [] |}
  /\ FormValidator.validateEmail (str "not-an-email") =
       {| FormValidator.isValid := false;
          FormValidator.message := str "Please enter a valid email address" |}
  /\ (forall email,
        FormValidator.isValid (FormValidator.validateEmail email) = true
        <-> FormValidator.email_shape email)
  /\ (forall st,
        snd (TicketManager.validateEmail st) = true
        <-> FormValidator.email_shape
              (trim (Form.value (TicketManager.f_email st))))
  /\ (forall email,
        forallb is_space email = false ->
        ~ FormValidator.email_shape email ->
        FormValidator.validateEmail email =
          {| FormValidator.isValid := false;
             FormValidator.message :=
               str "Please enter a valid email address" |})
  /\ (forall st,
        let typed := Form.value (TicketManager.f_email st) in
        let message :=
          if forallb is_space typed then str "Please enter your email"
          else str "Please enter a valid email address" in
        forallb is_space typed = true
        \/ ~ FormValidator.email_shape (trim typed) ->
        let st' := fst (TicketManager.validateEmail st) in
        snd (TicketManager.validateEmail st) = false
        /\ Form.has_error (TicketManager.f_email st') = true
        /\ Form.aria_invalid (TicketManager.f_email st') = Some (str "true")
        /\ Form.value (TicketManager.f_email st') = typed
        /\ (forall old,
              TicketManager.errorElements st !! str "ticketEmailError"
                = Some old ->
              TicketManager.errorElements st' !! str "ticketEmailError"
                = Some message)).
Proof.
  split; [apply ValidatorLemmas.validateEmail_required|].
  split; [by vm_compute|]. split; [by vm_compute|].
  split; [apply ValidatorLemmas.validateEmail_valid_iff|].
  split.
  { intros st. unfold TicketManager.validateEmail, TicketManager.emailPattern.
    rewrite <- FormValidatorFacts.email_pattern_shape.
    destruct (is_empty _) eqn:He.
    - destruct (trim _); [|discriminate]. simpl. split; discriminate.
    - destruct (Regex.test _ _); simpl; split; (done || discriminate). }
  split.
  { intros email Hb Hs. unfold FormValidator.validateEmail.
    assert (Ht : trim email <> []).
    { intros Ht. apply JSFacts.trim_nil in Ht. congruence. }
    assert (truthy email = true) as ->.
    { destruct email; [discriminate Hb|reflexivity]. }
    assert (is_empty (trim email) = false) as ->
      by (by destruct (trim email)).
    cbn [negb orb].
    destruct (Regex.test FormValidator.rules.email_pattern email) eqn:Hm;
      [|reflexivity].
    apply FormValidatorFacts.email_pattern_shape in Hm. by destruct Hs. }
  intros st. cbv zeta. intros Hbad.
  assert (Hv : TicketManager.validateEmail st
               = (TicketManager.showError TicketManager.emailInput
                    (str "ticketEmailError")
                    (if forallb is_space
                          (Form.value (TicketManager.f_email st))
                     then str "Please enter your email"
                     else str "Please enter a valid email address") st,
                  false)).
  { unfold TicketManager.validateEmail, TicketManager.emailPattern.
    destruct (forallb is_space (Form.value (TicketManager.f_email st)))
      eqn:Hb.
    - apply JSFacts.trim_nil in Hb. by rewrite Hb.
    - assert (is_empty (trim (Form.value (TicketManager.f_email st)))
              = false) as ->.
      { destruct (trim _) eqn:Ht; [|reflexivity].
        apply JSFacts.trim_nil in Ht. congruence. }
      destruct Hbad as [Hbad|Hbad]; [discriminate|].
      destruct (Regex.test _ _) eqn:Hm; [|reflexivity].
      apply FormValidatorFacts.email_pattern_shape in Hm. by destruct Hbad. }
  rewrite Hv. cbn [fst snd]. unfold TicketManager.showError. cbv zeta.
  cbn [TicketManager.errorElements TicketManager.set_field
         TicketManager.get_field].
  destruct (TicketManager.errorElements st !! str "ticketEmailError")
    as [old|] eqn:He.
  - cbn [TicketManager.f_email TicketManager.set_errors
           TicketManager.set_field TicketManager.errorElements
           Form.has_error Form.aria_invalid Form.value].
    repeat split. intros old' _. by rewrite lookup_insert_eq.
  - cbn [TicketManager.f_email TicketManager.set_field
           TicketManager.errorElements Form.has_error Form.aria_invalid
           Form.value].
    repeat split. intros old'. by rewrite He.
Qed.

(** The accepted shape is met by "jane@x.com" and the required message is
    given on a blank. *)
Lemma C6_validateEmail_witness :
  FormValidator.validateEmail (str "  ") =
    {| FormValidator.isValid := false;
       FormValidator.message := str "Email is required" |}
  /\ FormValidator.isValid (FormValidator.validateEmail (str "jane@x.com"))
     = true.
Proof.
  split.
  - apply (proj1 C6_validateEmail). reflexivity.
  - apply (proj1 (proj2 (proj2 (proj2 C6_validateEmail)))).
    exists (str "jane"), (str "x"), (str "com"). by vm_compute.
Defined.

(** C6 as stated fails: "a@.co" has no white space, one [@] after a
    non-empty local part and a dot after the [@], and is rejected. *)
Lemma C6_counterexample :
  FormValidator.spec_email_shape (str "a@.co")
  /\ FormValidator.validateEmail (str "a@.co") =
       {| FormValidator.isValid := false;
          FormValidator.message := str "Please enter a valid email address" |}.
Proof.
  split; [|by vm_compute]. split; [by vm_compute|].
  exists (str "a"), (str ".co"). split; [by vm_compute|].
  split; [by vm_compute|]. repeat split.
  - vm_compute. intros H. apply list_elem_of_In in H. simpl in H.
    destruct H as [H|[]]. discriminate.
  - vm_compute. intros H. apply list_elem_of_In in H. simpl in H.
    repeat destruct H as [H|H]; try discriminate. done.
  - vm_compute. apply list_elem_of_In. simpl. auto.
Qed.

(** C9, as amended.  On a white-space-only or empty input [validatePhone]
    answers "Phone number is required"; on any non-empty input it rejects
    exactly when fewer than 10 digits remain after the non-digits are
    stripped or some code unit is outside digits, white space (the class
    [\s], not only the space), parentheses and the hyphen. *)
Theorem C9_validatePhone (phone : list N) :
  (forallb is_space phone = true ->
     FormValidator.validatePhone phone =
       {| FormValidator.isValid := false;
          FormValidator.message := str "Phone number is required" |})
  /\ (phone <> [] ->
      (FormValidator.isValid (FormValidator.validatePhone phone) = false
       <-> (length (List.filter is_digit phone) < 10)%nat
           \/ exists c, c ∈ phone /\ FormValidator.phone_char c = false)).
Proof.
  unfold FormValidator.validatePhone. split.
  - intros H. apply JSFacts.trim_nil in H. rewrite H. simpl.
    by rewrite orb_true_r.
  - intros Hne. destruct phone as [|c0 phone0] eqn:Hp; [done|].
    rewrite <- Hp in *. assert (Htr : truthy phone = true) by by subst.
    rewrite Htr. simpl negb. rewrite orb_false_l.
    destruct (is_empty (trim phone)) eqn:He.
    + simpl. split; [intros _|done]. left.
      assert (trim phone = []) as Ht by by destruct (trim phone).
      apply JSFacts.trim_nil in Ht.
      rewrite (FormValidatorFacts.spaces_have_no_digit _ Ht). simpl. lia.
    + unfold FormValidator.rules.phone_minLength.
      destruct (Nat.ltb_spec (length (List.filter is_digit phone)) 10) as [Hl|Hl].
      * simpl. split; [auto|done].
      * destruct (Regex.test FormValidator.rules.phone_pattern phone) eqn:Ht;
          simpl.
        -- split; [discriminate|]. intros [?|(c & Hc & Hf)]; [lia|].
           apply FormValidatorFacts.phone_pattern_shape in Ht as [_ Ht].
           rewrite (ValidatorLemmas.forallb_true_elem _ _ _ Ht Hc) in Hf.
           discriminate.
        -- split; [intros _|done]. right.
           apply ValidatorLemmas.forallb_false_elem.
           destruct (forallb FormValidator.phone_char phone) eqn:Hf; [|done].
           assert (Regex.test FormValidator.rules.phone_pattern phone = true)
             by (apply FormValidatorFacts.phone_pattern_shape; by subst).
           congruence.
Qed.

(** A blank input is asked for, and "555-12" is rejected for its digits. *)
Lemma C9_validatePhone_witness :
  FormValidator.validatePhone (str " ") =
    {| FormValidator.isValid := false;
       FormValidator.message := str "Phone number is required" |}
  /\ FormValidator.isValid (FormValidator.validatePhone (str "555-12")) = false.
Proof.
  split.
  - apply (proj1 (C9_validatePhone (str " "))). reflexivity.
  - apply (proj2 (C9_validatePhone (str "555-12"))); [by vm_compute|].
    left. vm_compute. lia.
Defined.

(** C9 as stated fails: a phone number with a tab in it holds a code unit
    outside digits, space, parentheses and hyphen, and is accepted. *)
Lemma C9_counterexample :
  let phone := str "555 123" ++ [9] ++ str "4567" in
  phone <> []
  /\ (exists c, c ∈ phone /\ FormValidator.spec_phone_char c = false)
  /\ FormValidator.validatePhone phone =
       {| FormValidator.isValid := true; FormValidator.message := [] |}.
Proof.
  split; [by vm_compute|]. split; [|by vm_compute].
  exists 9. split; [|by vm_compute].
  vm_compute. apply list_elem_of_In. simpl. auto 10.
Qed.

(** ** Colour helpers *)

Module ColorFacts.
Import JS Regex RegexFacts JSFacts Color.

Lemma hex_val_range c : is_hex c = true -> (0 <= hex_val c < 16)%Z.
Proof.
  unfold hex_val. intros H.
  destruct (is_digit c) eqn:Hd;
    [|destruct ((97 <=? c) && (c <=? 102)) eqn:Hl]; code_units.
Qed.

Lemma hex_digit_val c : is_hex c = true -> hex_digit (hex_val c) = lower c.
Proof.
  unfold hex_val, hex_digit, lower. intros H.
  destruct (is_digit c) eqn:Hd;
    [|destruct ((97 <=? c) && (c <=? 102)) eqn:Hl];
    match goal with |- context [(?x <? 10)%Z] => destruct (x <? 10)%Z eqn:Hx end;
    destruct ((65 <=? c) && (c <=? 90)) eqn:Hu; code_units.
Qed.

Lemma hex_not_space c : is_hex c = true -> is_space c = false.
Proof. intros H. destruct (is_space c) eqn:Hs; [exfalso; code_units|done]. Qed.

Lemma lang_hex2 s :
  lang (Cat (Class is_hex) (Class is_hex)) s <->
  exists a b, s = [a; b] /\ is_hex a = true /\ is_hex b = true.
Proof.
  rewrite lang_cat_iff. split.
  - intros (s1 & s2 & -> & H1 & H2).
    apply lang_class_iff in H1 as (a & -> & Ha).
    apply lang_class_iff in H2 as (b & -> & Hb). eauto.
  - intros (a & b & -> & Ha & Hb). exists [a], [b].
    split; [done|]. split; apply lang_class_iff; eauto.
Qed.

Lemma six_hex ds :
  length ds = 6%nat -> forallb is_hex ds = true ->
  exists a b c d e f,
    ds = [a; b; c; d; e; f]
    /\ is_hex a = true /\ is_hex b = true /\ is_hex c = true
    /\ is_hex d = true /\ is_hex e = true /\ is_hex f = true.
Proof.
  intros Hlen H.
  destruct ds as [|a [|b [|c [|d [|e [|f [|]]]]]]]; try discriminate.
  simpl in H. repeat (apply andb_true_iff in H as [? H]).
  exists a, b, c, d, e, f. done.
Qed.

(** The pattern of [hexToRgb] accepts exactly an optional [#] and six
    hexadecimal digits. *)
Lemma hex_pattern_shape s :
  test hex_pattern s = true <-> exists ds, hex_shape s ds.
Proof.
  rewrite test_lang. unfold hex_pattern, hex_shape, Opt. split.
  - intros H.
    apply lang_cat_iff in H as (o & s1 & -> & Ho & H).
    apply lang_cat_iff in H as (g1 & s2 & -> & H1 & H).
    apply lang_cat_iff in H as (g2 & g3 & -> & H2 & H3).
    apply lang_hex2 in H1 as (a & b & -> & Ha & Hb).
    apply lang_hex2 in H2 as (c & d & -> & Hc & Hd).
    apply lang_hex2 in H3 as (e & f & -> & He & Hf).
    exists [a; b; c; d; e; f]. split; [done|]. split.
    + simpl. by rewrite Ha, Hb, Hc, Hd, He, Hf.
    + apply lang_alt_iff in Ho as [Ho|Ho].
      * apply lang_chr in Ho as ->. by right.
      * apply lang_eps_iff in Ho as ->. by left.
  - intros (ds & Hlen & Hhex & Hs).
    destruct (six_hex _ Hlen Hhex)
      as (a & b & c & d & e & f & -> & Ha & Hb & Hc & Hd & He & Hf).
    assert (Hbody : lang (Cat (Cat (Class is_hex) (Class is_hex))
                            (Cat (Cat (Class is_hex) (Class is_hex))
                               (Cat (Class is_hex) (Class is_hex))))
                      [a; b; c; d; e; f]); [|destruct Hs as [-> | ->]].
    2: { apply lang_cat_iff. exists [], [a; b; c; d; e; f]. split; [done|].
         split; [|done]. apply lang_alt_iff. right. by apply lang_eps_iff. }
    2: { apply lang_cat_iff. exists [35], [a; b; c; d; e; f]. split; [done|].
         split; [|done]. apply lang_alt_iff. left. by apply lang_chr. }
    apply lang_cat_iff. exists [a; b], [c; d; e; f]. split; [done|].
      split; [apply lang_hex2; eauto|].
      apply lang_cat_iff. exists [c; d], [e; f]. split; [done|].
      split; apply lang_hex2; eauto.
Qed.

Lemma parseInt16_pair a b :
  is_hex a = true -> is_hex b = true ->
  parseInt16 [a; b] = Some (16 * hex_val a + hex_val b)%Z.
Proof.
  intros Ha Hb. unfold parseInt16.
  rewrite (trimStart_head _ _ (hex_not_space _ Ha)). unfold strip_char.
  assert ((a =? 45) = false) as -> by code_units.
  assert ((a =? 43) = false) as -> by code_units.
  assert ((b =? 120) || (b =? 88) = false) as -> by code_units.
  rewrite andb_false_r. simpl. rewrite Ha, Hb. simpl. f_equal; lia.
Qed.

Lemma wrap32_small z : (- 2 ^ 31 <= z < 2 ^ 31)%Z -> wrap32 z = z.
Proof. intros H. unfold wrap32. rewrite Z.mod_small; lia. Qed.

Lemma shl_byte x k :
  (0 <= x < 256)%Z -> (k = 8 \/ k = 16)%Z -> shl (Some x) k = (x * 2 ^ k)%Z.
Proof.
  intros Hx Hk. unfold shl. simpl default. rewrite (wrap32_small x) by lia.
  assert ((k mod 32 = k)%Z) as -> by (destruct Hk as [-> | ->]; done).
  rewrite Z.shiftl_mul_pow2 by lia. apply wrap32_small.
  destruct Hk as [-> | ->]; lia.
Qed.

Lemma hex_fuel_more f n acc :
  (16 <= n)%Z ->
  hex_fuel (S f) n acc = hex_fuel f (n / 16) (hex_digit (n mod 16) :: acc).
Proof. intros H. simpl. destruct (Z.ltb_spec n 16); [lia|done]. Qed.

Lemma hex_fuel_last f n acc :
  (n < 16)%Z -> hex_fuel (S f) n acc = hex_digit (n mod 16) :: acc.
Proof. intros H. simpl. destruct (Z.ltb_spec n 16); [done|lia]. Qed.

Lemma horner_step base h :
  (0 <= h < 16)%Z ->
  ((16 * base + h) mod 16 = h /\ (16 * base + h) / 16 = base)%Z.
Proof. intros H. split; Z.to_euclidean_division_equations; lia. Qed.

(** The seven digits of 2^24 + r * 2^16 + g * 2^8 + b. *)
Lemma toString16_rgb h1 h2 h3 h4 h5 h6 :
  (0 <= h1 < 16)%Z -> (0 <= h2 < 16)%Z -> (0 <= h3 < 16)%Z ->
  (0 <= h4 < 16)%Z -> (0 <= h5 < 16)%Z -> (0 <= h6 < 16)%Z ->
  toString16
    (Some (2 ^ 24 + (16 * h1 + h2) * 2 ^ 16 + (16 * h3 + h4) * 2 ^ 8
           + (16 * h5 + h6))%Z)
  = [49; hex_digit h1; hex_digit h2; hex_digit h3; hex_digit h4;
     hex_digit h5; hex_digit h6].
Proof.
  intros H1 H2 H3 H4 H5 H6. unfold toString16.
  set (n := (2 ^ 24 + _ + _ + _)%Z).
  assert (Hn : n = (16 * (16 * (16 * (16 * (16 * (16 * 1 + h1) + h2) + h3)
                                  + h4) + h5) + h6)%Z) by (subst n; lia).
  assert (Hlog : Z.log2 n = 24%Z).
  { apply Z.log2_unique; [lia|]. subst n. lia. }
  destruct (Z.ltb_spec n 0) as [?|_]; [subst n; lia|].
  rewrite Hlog, Hn. change (S (Z.to_nat 24)) with 25%nat.
  repeat (rewrite hex_fuel_more by lia;
          match goal with
          | |- context [hex_fuel _ ((16 * ?b + ?h) / 16)%Z] =>
              let Hs := fresh in
              destruct (horner_step b h ltac:(lia)) as [-> ->]
          end).
  rewrite hex_fuel_last by lia. done.
Qed.

Lemma hexToRgb_six a b c d e f s :
  is_hex a = true -> is_hex b = true -> is_hex c = true ->
  is_hex d = true -> is_hex e = true -> is_hex f = true ->
  s = [a; b; c; d; e; f] \/ s = 35 :: [a; b; c; d; e; f] ->
  hexToRgb s =
    Some {| r := Some (16 * hex_val a + hex_val b)%Z;
            g := Some (16 * hex_val c + hex_val d)%Z;
            b := Some (16 * hex_val e + hex_val f)%Z |}.
Proof.
  intros Ha Hb Hc Hd He Hf Hs. unfold hexToRgb, exec_hex.
  assert (Ht : test hex_pattern s = true).
  { apply hex_pattern_shape. exists [a; b; c; d; e; f].
    split; [done|]. split; [|done]. simpl.
    by rewrite Ha, Hb, Hc, Hd, He, Hf. }
  rewrite Ht.
  assert (Hbody : default s (strip_char 35 s) = [a; b; c; d; e; f]).
  { destruct Hs as [-> | ->]; simpl; [|done].
    assert ((a =? 35) = false) as -> by code_units. done. }
  rewrite Hbody. simpl take. simpl drop.
  by rewrite !parseInt16_pair.
Qed.

End ColorFacts.

(** C10.  For a string [s] made of an optional [#] and exactly six
    hexadecimal digits [ds], [hexToRgb] succeeds and [rgbToHex] of its
    result is [#] followed by [ds] in lower case; on every other string
    (the three-digit shorthand among them) [hexToRgb] returns null.  The
    same two helpers serve ThemeManager and ThemeCustomizer. *)
Theorem C10_hex_round_trip (s : list N) :
  (forall ds, Color.hex_shape s ds ->
     Color.rgbToHex <$> Color.hexToRgb s = Some (35 :: List.map lower ds))
  /\ ((forall ds, ~ Color.hex_shape s ds) -> Color.hexToRgb s = None).
Proof.
  split.
  - intros ds (Hlen & Hhex & Hs).
    destruct (ColorFacts.six_hex _ Hlen Hhex)
      as (a & b & c & d & e & f & -> & Ha & Hb & Hc & Hd & He & Hf).
    rewrite (ColorFacts.hexToRgb_six a b c d e f) by done.
    simpl. f_equal. unfold Color.rgbToHex. simpl Color.b. simpl Color.r.
    simpl Color.g.
    pose proof (ColorFacts.hex_val_range _ Ha).
    pose proof (ColorFacts.hex_val_range _ Hb).
    pose proof (ColorFacts.hex_val_range _ Hc).
    pose proof (ColorFacts.hex_val_range _ Hd).
    pose proof (ColorFacts.hex_val_range _ He).
    pose proof (ColorFacts.hex_val_range _ Hf).
    rewrite (ColorFacts.shl_byte _ 16), (ColorFacts.shl_byte _ 8) by lia.
    change (Color.shl (Some 1%Z) 24) with (2 ^ 24)%Z.
    rewrite ColorFacts.toString16_rgb by done. simpl.
    by rewrite !ColorFacts.hex_digit_val.
  - intros Hno. unfold Color.hexToRgb, Color.exec_hex.
    destruct (Regex.test Color.hex_pattern s) eqn:Ht; [|done].
    apply ColorFacts.hex_pattern_shape in Ht as (ds & Hds). by destruct (Hno ds).
Qed.

(** "#0066CC" comes back as "#0066cc". *)
Lemma C10_hex_round_trip_witness :
  Color.rgbToHex <$> Color.hexToRgb (str "#0066CC") = Some (str "#0066cc").
Proof.
  apply (proj1 (C10_hex_round_trip (str "#0066CC")) (str "0066CC")).
  split; [reflexivity|]. split; [reflexivity|]. right. reflexivity.
Defined.

(** ** JSON: what [stringify] writes, [parse] reads back *)

Module JsonFacts.
Import JS JSFacts Json.

Lemma str_eqb_eq a : forall b, str_eqb a b = true <-> a = b.
Proof.
  induction a as [|x a IH]; intros [|y b]; simpl; try done.
  rewrite andb_true_iff, N.eqb_eq, IH. split; [by intros [-> ->]|].
  intros H. by inversion H.
Qed.

Lemma str_eqb_refl a : str_eqb a a = true.
Proof. by apply str_eqb_eq. Qed.

Lemma hex_digit_is_hex d : (0 <= d < 16)%Z -> is_hex (hex_digit d) = true.
Proof.
  intros H. unfold hex_digit. destruct (d <? 10)%Z eqn:Hd; code_units.
Qed.

Lemma hex_val_digit d : (0 <= d < 16)%Z -> hex_val (hex_digit d) = d.
Proof.
  intros H. unfold hex_val, hex_digit.
  destruct (d <? 10)%Z eqn:Hd.
  - assert (is_digit (Z.to_N (48 + d)) = true) as -> by code_units. lia.
  - assert (is_digit (Z.to_N (87 + d)) = false) as -> by code_units.
    assert ((97 <=? Z.to_N (87 + d)) && (Z.to_N (87 + d) <=? 102) = true)
      as -> by lia.
    lia.
Qed.

(** The escape [\uXXXX] of a code unit reads back as that code unit. *)
Lemma parse_uescape c rest :
  c < 65536 ->
  parse_string_body (uescape c ++ rest) = cons_res c (parse_string_body rest).
Proof.
  intros Hc. unfold uescape. cbn [app parse_string_body].
  change (92 =? 34) with false. change (92 =? 92) with true.
  change (117 =? 117) with true. cbv iota.
  assert (Hr : forall k, (0 <= Z.of_N (c / k mod 16) < 16)%Z).
  { intros k. assert (c / k mod 16 < 16) by (by apply N.mod_lt).
    split; [apply N2Z.is_nonneg|]. change 16%Z with (Z.of_N 16).
    by apply N2Z.inj_lt. }
  assert (Hr0 : (0 <= Z.of_N (c mod 16) < 16)%Z).
  { assert (c mod 16 < 16) by (by apply N.mod_lt).
    split; [apply N2Z.is_nonneg|]. change 16%Z with (Z.of_N 16).
    by apply N2Z.inj_lt. }
  unfold hex4.
  rewrite !hex_digit_is_hex, !hex_val_digit by auto. cbn [andb].
  replace (Z.to_N _) with c; [done|].
  zify. Z.to_euclidean_division_equations. lia.
Qed.

Lemma surrogate_raw c rest :
  (is_high c || is_low c) = true ->
  parse_string_body (c :: rest) = cons_res c (parse_string_body rest).
Proof.
  intros H. cbn [parse_string_body].
  assert ((c =? 34) = false) as -> by (unfold is_high, is_low in H; lia).
  assert ((c =? 92) = false) as -> by (unfold is_high, is_low in H; lia).
  assert ((c <? 32) = false) as -> by (unfold is_high, is_low in H; lia).
  done.
Qed.

Lemma parse_escape1 c rest :
  parse_string_body (escape1 c ++ rest) = cons_res c (parse_string_body rest).
Proof.
  unfold escape1.
  repeat match goal with
    | |- context [if ?c =? ?k then _ else _] =>
        destruct (N.eqb_spec c k) as [->|?]; [reflexivity|]
    end.
  destruct (N.ltb_spec c 32) as [Hlt|Hge].
  - apply parse_uescape. lia.
  - cbn [app parse_string_body].
    assert ((c =? 34) = false) as -> by lia.
    assert ((c =? 92) = false) as -> by lia.
    assert ((c <? 32) = false) as -> by lia. done.
Qed.

(** A quoted string reads back as the string. *)
Lemma parse_quote_body s : forall rest,
  parse_string_body (quote_body s ++ 34 :: rest) = Some (s, rest).
Proof.
  remember (length s) as n eqn:Hn. revert s Hn.
  induction n as [n IH] using lt_wf_ind. intros s Hn rest.
  destruct s as [|c t]; [reflexivity|]. cbn [quote_body].
  assert (IHt : forall rest,
             parse_string_body (quote_body t ++ 34 :: rest) = Some (t, rest)).
  { intros. apply (IH (length t)); [subst; simpl; lia|done]. }
  destruct (is_high c) eqn:Hh.
  - assert (Hc : c < 65536) by (unfold is_high in Hh; lia).
    destruct t as [|d t'].
    + rewrite parse_uescape by done. done.
    + destruct (is_low d) eqn:Hl.
      * cbn [app]. rewrite (surrogate_raw c) by (by rewrite Hh).
        rewrite (surrogate_raw d) by (rewrite Hl; apply orb_true_r).
        rewrite (IH (length t')); [done|subst; simpl; lia|done].
      * rewrite <- app_assoc, parse_uescape, IHt by done. done.
  - destruct (is_low c) eqn:Hl.
    + assert (Hc : c < 65536) by (unfold is_low in Hl; lia).
      rewrite <- app_assoc, parse_uescape, IHt by done. done.
    + rewrite <- app_assoc, parse_escape1, IHt. done.
Qed.

(** *** Numbers *)

Lemma digits_val_snoc ds d : digits_val (ds ++ [d]) = 10 * digits_val ds + (d - 48).
Proof. unfold digits_val. by rewrite fold_left_app. Qed.

(** The digits [digits_fuel] writes: all digits, their value is [n], a
    single digit below ten, and otherwise no leading zero. *)
Lemma digits_fuel_spec f : forall n,
  n < 2 ^ N.of_nat (S f) ->
  exists d t,
    (forall acc, digits_fuel (S f) n acc = (d :: t) ++ acc)
    /\ forallb is_digit (d :: t) = true
    /\ digits_val (d :: t) = n
    /\ (n < 10 -> t = [])
    /\ (0 < n -> d <> 48).
Proof.
  induction f as [|f IH]; intros n Hn.
  - assert (n < 2) by (revert Hn; by change (2 ^ N.of_nat 1) with 2).
    exists (48 + n mod 10), []. cbn [digits_fuel].
    destruct (N.ltb_spec n 10); [|lia].
    rewrite N.mod_small by done. split; [done|].
    split; [cbn [forallb]; unfold is_digit; lia|].
    split; [unfold digits_val; cbn [fold_left]; lia|]. split; [done|lia].
  - destruct (N.ltb_spec n 10) as [Hlt|Hge].
    + exists (48 + n mod 10), []. cbn [digits_fuel].
      destruct (N.ltb_spec n 10); [|lia].
      rewrite N.mod_small by done. split; [done|].
      split; [cbn [forallb]; unfold is_digit; lia|].
      split; [unfold digits_val; cbn [fold_left]; lia|]. split; [done|lia].
    + assert (Hdiv : n / 10 < 2 ^ N.of_nat (S f)).
      { rewrite Nat2N.inj_succ, N.pow_succ_r' in Hn.
        apply N.Div0.div_lt_upper_bound. lia. }
      destruct (IH _ Hdiv) as (d & t & Hds & Hdig & Hval & _ & Hd).
      exists d, (t ++ [48 + n mod 10]).
      assert (Hm : n mod 10 < 10) by (by apply N.mod_lt).
      split; [|split; [|split; [|split]]].
      * intros acc. change (digits_fuel (S (S f)) n acc)
          with (if n <? 10 then (48 + n mod 10) :: acc
                else digits_fuel (S f) (n / 10) ((48 + n mod 10) :: acc)).
        destruct (N.ltb_spec n 10); [lia|]. rewrite Hds.
        change (d :: t ++ [48 + n mod 10]) with ((d :: t) ++ [48 + n mod 10]).
        by rewrite <- (app_assoc (d :: t)).
      * change (d :: t ++ [48 + n mod 10]) with ((d :: t) ++ [48 + n mod 10]).
        rewrite forallb_app, Hdig. cbn [forallb]. unfold is_digit.
        revert Hm. generalize (n mod 10). intros m Hm. lia.
      * change (d :: t ++ [48 + n mod 10]) with ((d :: t) ++ [48 + n mod 10]).
        rewrite digits_val_snoc, Hval.
        pose proof (N.div_mod n 10 ltac:(done)) as Hdm. revert Hdm Hm.
        generalize (n / 10) (n mod 10). intros. lia.
      * lia.
      * intros _. apply Hd. apply N.div_str_pos. lia.
Qed.

Lemma N_to_string_spec n :
  exists d t,
    N_to_string n = d :: t
    /\ forallb is_digit (d :: t) = true
    /\ digits_val (d :: t) = n
    /\ (n < 10 -> t = [])
    /\ (0 < n -> d <> 48).
Proof.
  unfold N_to_string.
  assert (Hn : n < 2 ^ N.of_nat (S (N.to_nat (N.log2 n)))).
  { rewrite Nat2N.inj_succ, N2Nat.id. destruct n as [|p]; [done|].
    apply N.log2_spec. lia. }
  destruct (digits_fuel_spec _ _ Hn) as (d & t & Hds & Hdig & Hval & Hone & Hd).
  exists d, t. rewrite Hds, app_nil_r. done.
Qed.

Lemma span_all (p : N -> bool) ds c rest :
  forallb p ds = true -> p c = false -> span p (ds ++ c :: rest) = (ds, c :: rest).
Proof.
  intros Hds Hc. induction ds as [|d ds IH]; simpl.
  - by rewrite Hc.
  - simpl in Hds. apply andb_true_iff in Hds as [-> Hds]. by rewrite IH.
Qed.

Lemma parse_number_digits n c rest :
  ends_number c ->
  parse_number (N_to_string n ++ c :: rest) = Some (JNum (Z.of_N n) 0, c :: rest).
Proof.
  intros Hc.
  destruct (N_to_string_spec n) as (d & t & -> & Hdig & Hval & Hone & Hd).
  assert (Hcd : is_digit c = false)
    by (unfold is_digit; destruct Hc as [->|[->| ->]]; done).
  pose proof Hdig as Hdig'. simpl in Hdig'.
  apply andb_true_iff in Hdig' as [Hd1 Ht].
  unfold parse_number. cbn [app strip_char].
  assert ((d =? 45) = false) as -> by (unfold is_digit in Hd1; lia).
  rewrite Hd1.
  assert (Hfrac : parse_frac (c :: rest) = Some ([], c :: rest)).
  { unfold parse_frac, strip_char. destruct Hc as [->|[->| ->]]; done. }
  assert (Hexp : parse_exp (c :: rest) = Some (0%Z, c :: rest)).
  { unfold parse_exp. destruct Hc as [->|[->| ->]]; done. }
  destruct (N.eqb_spec d 48) as [->|Hne].
  - (* a leading zero is the number zero *)
    assert (n = 0) as ->
      by (destruct (N.eq_dec n 0); [done|exfalso; apply Hd; [lia|done]]).
    rewrite Hone by lia. cbn [app]. rewrite Hfrac, Hexp. done.
  - change (d :: t ++ c :: rest) with ((d :: t) ++ c :: rest).
    rewrite (span_all is_digit (d :: t) c rest Hdig Hcd).
    rewrite Hfrac, Hexp, app_nil_r, Hval. done.
Qed.

Lemma parse_number_neg n c rest :
  ends_number c -> 0 < n ->
  parse_number (45 :: N_to_string n ++ c :: rest)
  = Some (JNum (- Z.of_N n) 0, c :: rest).
Proof.
  intros Hc Hpos.
  destruct (N_to_string_spec n) as (d & t & -> & Hdig & Hval & Hone & Hd).
  assert (Hcd : is_digit c = false)
    by (unfold is_digit; destruct Hc as [->|[->| ->]]; done).
  pose proof Hdig as Hdig'. simpl in Hdig'.
  apply andb_true_iff in Hdig' as [Hd1 Ht].
  unfold parse_number. cbn [app strip_char]. change (45 =? 45) with true.
  cbv iota. rewrite Hd1.
  assert (Hfrac : parse_frac (c :: rest) = Some ([], c :: rest)).
  { unfold parse_frac, strip_char. destruct Hc as [->|[->| ->]]; done. }
  assert (Hexp : parse_exp (c :: rest) = Some (0%Z, c :: rest)).
  { unfold parse_exp. destruct Hc as [->|[->| ->]]; done. }
  destruct (N.eqb_spec d 48) as [->|Hne]; [by destruct (Hd Hpos)|].
  change (d :: t ++ c :: rest) with ((d :: t) ++ c :: rest).
  rewrite (span_all is_digit (d :: t) c rest Hdig Hcd).
  rewrite Hfrac, Hexp, app_nil_r, Hval. done.
Qed.

(** An integer as [Z_to_string] writes it reads back as that integer. *)
Lemma parse_number_Z z c rest :
  ends_number c ->
  parse_number (Z_to_string z ++ c :: rest) = Some (JNum z 0, c :: rest).
Proof.
  intros Hc. destruct z as [|p|p]; unfold Z_to_string.
  - apply (parse_number_digits 0 c rest Hc).
  - apply (parse_number_digits (Npos p) c rest Hc).
  - apply (parse_number_neg (Npos p) c rest Hc). lia.
Qed.

Lemma Z_to_string_head z :
  exists h t, Z_to_string z = h :: t /\ (is_digit h = true \/ h = 45).
Proof.
  destruct z as [|p|p]; unfold Z_to_string.
  - exists 48, []. split; [done|by left].
  - destruct (N_to_string_spec (Npos p)) as (d & t & -> & Hdig & _).
    exists d, t. split; [done|]. left. simpl in Hdig.
    by apply andb_true_iff in Hdig as [? _].
  - exists 45, (N_to_string (Npos p)). split; [done|by right].
Qed.

(** *** Values *)

Lemma parse_value_number f h t :
  is_digit h = true \/ h = 45 -> parse_value (S f) (h :: t) = parse_number (h :: t).
Proof.
  intros Hh. cbn [parse_value skip_ws].
  assert (is_ws h = false) as -> by (unfold is_ws, is_digit in *; lia).
  assert ((h =? 110) = false) as -> by (unfold is_digit in *; lia).
  assert ((h =? 116) = false) as -> by (unfold is_digit in *; lia).
  assert ((h =? 102) = false) as -> by (unfold is_digit in *; lia).
  assert ((h =? 34) = false) as -> by (unfold is_digit in *; lia).
  assert ((h =? 91) = false) as -> by (unfold is_digit in *; lia).
  assert ((h =? 123) = false) as -> by (unfold is_digit in *; lia).
  done.
Qed.

Lemma parse_value_Z f z c rest :
  ends_number c ->
  parse_value (S f) (Z_to_string z ++ c :: rest) = Some (JNum z 0, c :: rest).
Proof.
  intros Hc. destruct (Z_to_string_head z) as (h & t & Hz & Hh).
  rewrite <- (parse_number_Z z c rest Hc). rewrite Hz. cbn [app].
  by apply parse_value_number.
Qed.

Lemma parse_value_string f s rest :
  parse_value (S f) (quote s ++ rest) = Some (JStr s, rest).
Proof.
  unfold quote. cbn [app parse_value skip_ws].
  change (is_ws 34) with false. cbv iota.
  change (34 =? 110) with false. change (34 =? 116) with false.
  change (34 =? 102) with false. change (34 =? 34) with true. cbv iota.
  rewrite <- app_assoc. cbn [app]. by rewrite parse_quote_body.
Qed.

Lemma parse_elems_strings f ps : forall n rest,
  ps <> [] -> (length ps <= n)%nat ->
  parse_elems (parse_value (S f)) n
    (join_comma (List.map quote ps) ++ 93 :: rest)
  = Some (List.map JStr ps, rest).
Proof.
  induction ps as [|p ps IH]; intros n rest Hne Hlen; [done|].
  destruct n as [|n]; [simpl in Hlen; lia|].
  destruct ps as [|p' ps].
  - cbn [List.map join_comma parse_elems].
    rewrite (parse_value_string f p (93 :: rest)). done.
  - change (join_comma (List.map quote (p :: p' :: ps)))
      with (quote p ++ 44 :: join_comma (List.map quote (p' :: ps))).
    rewrite <- app_assoc. cbn [parse_elems].
    rewrite (parse_value_string f p). cbn [skip_ws app].
    change (is_ws 44) with false. cbv iota.
    rewrite IH; [done|done|simpl in *; lia].
Qed.

Lemma parse_value_array f t' xs rest :
  parse_elems (parse_value f) f (34 :: t') = Some (xs, rest) ->
  parse_value (S f) (91 :: 34 :: t') = Some (JArr xs, rest).
Proof.
  intros He. cbn [parse_value skip_ws]. change (is_ws 91) with false.
  cbv iota.
  change (91 =? 110) with false. change (91 =? 116) with false.
  change (91 =? 102) with false. change (91 =? 34) with false.
  change (91 =? 91) with true. cbv iota.
  change (is_ws 34) with false. cbv iota. by rewrite He.
Qed.

(** An array of strings. *)
Lemma parse_value_strings f ps rest :
  (length ps <= S f)%nat ->
  parse_value (S (S f))
    (91 :: join_comma (List.map quote ps) ++ 93 :: rest)
  = Some (JArr (List.map JStr ps), rest).
Proof.
  intros Hlen. destruct ps as [|p ps]; [reflexivity|].
  pose proof (parse_elems_strings f (p :: ps) (S f) rest ltac:(done) Hlen) as He.
  assert (Hq : exists t', join_comma (List.map quote (p :: ps)) ++ 93 :: rest
                          = 34 :: t').
  { destruct ps; cbn [List.map join_comma]; unfold quote at 1; cbn [app]; eauto. }
  destruct Hq as (t' & Hq). rewrite Hq in *. by apply parse_value_array.
Qed.

(** One member of an object that is followed by another. *)
Lemma parse_members_more pv n k body x rest :
  pv body = Some (x, 44 :: rest) ->
  parse_members pv (S n) (quote k ++ 58 :: body)
  = match parse_members pv n rest with
    | Some (ms, rest') => Some ((k, x) :: ms, rest')
    | None => None
    end.
Proof.
  intros Hpv. unfold quote. cbn [app parse_members skip_ws].
  change (is_ws 34) with false. cbv iota.
  rewrite <- app_assoc. cbn [app]. rewrite parse_quote_body.
  cbn [skip_ws]. change (is_ws 58) with false. cbv iota.
  rewrite Hpv. cbn [skip_ws]. change (is_ws 44) with false. by cbv iota.
Qed.

(** The last member of an object. *)
Lemma parse_members_last pv n k body x rest :
  pv body = Some (x, 125 :: rest) ->
  parse_members pv (S n) (quote k ++ 58 :: body) = Some ([(k, x)], rest).
Proof.
  intros Hpv. unfold quote. cbn [app parse_members skip_ws].
  change (is_ws 34) with false. cbv iota.
  rewrite <- app_assoc. cbn [app]. rewrite parse_quote_body.
  cbn [skip_ws]. change (is_ws 58) with false. cbv iota.
  rewrite Hpv. cbn [skip_ws]. change (is_ws 125) with false. by cbv iota.
Qed.

(** An object whose first key is quoted. *)
Lemma parse_value_object f k body rest ms :
  parse_members (parse_value f) f (quote k ++ body) = Some (ms, rest) ->
  parse_value (S f) (123 :: quote k ++ body) = Some (JObj ms, rest).
Proof.
  intros Hm. cbn [parse_value skip_ws]. change (is_ws 123) with false.
  cbv iota.
  change (123 =? 110) with false. change (123 =? 116) with false.
  change (123 =? 102) with false. change (123 =? 34) with false.
  change (123 =? 91) with false. change (123 =? 123) with true. cbv iota.
  rewrite Hm. unfold quote. cbn [app skip_ws]. change (is_ws 34) with false.
  by cbv iota.
Qed.

Lemma join_comma_length ps :
  (length ps <= S (length (join_comma (List.map quote ps))))%nat.
Proof.
  induction ps as [|p ps IH]; [simpl; lia|].
  destruct ps as [|p' ps]; [simpl; lia|].
  change (join_comma (List.map quote (p :: p' :: ps)))
    with (quote p ++ 44 :: join_comma (List.map quote (p' :: ps))).
  rewrite length_app. simpl in *. lia.
Qed.

(** The progress record that [saveProgress] writes reads back. *)
Lemma parse_progress c ps :
  parse (stringify (JObj [(str "count", JNum c 0);
                          (str "platforms", JArr (List.map JStr ps))]))
  = Some (JObj [(str "count", JNum c 0);
                (str "platforms", JArr (List.map JStr ps))]).
Proof.
  unfold parse.
  set (text := stringify _).
  assert (Htext : text =
    123 :: quote (str "count") ++ 58 :: Z_to_string c ++ 44 ::
      (quote (str "platforms") ++ 58 :: 91 ::
         join_comma (List.map quote ps) ++ 93 :: 125 :: [])).
  { subst text. cbn [stringify List.map join_comma].
    change (if (0 =? 0)%Z then [] else _) with (@nil N).
    rewrite app_nil_r, List.map_map. cbn [stringify].
    repeat (rewrite <- ?app_assoc; cbn [app]; f_equal). }
  assert (Hlen : (length ps + 3 <= length text)%nat).
  { rewrite Htext. pose proof (join_comma_length ps). simpl.
    rewrite !length_app. simpl. rewrite !length_app. simpl. lia. }
  destruct (length text) as [|[|[|f]]] eqn:Hl; try lia.
  rewrite Htext.
  rewrite (parse_value_object (S (S (S f))) _ _ [] 
             [(str "count", JNum c 0);
              (str "platforms", JArr (List.map JStr ps))]); [done|].
  rewrite (parse_members_more _ _ _ _ (JNum c 0)
             (quote (str "platforms") ++ 58 :: 91 ::
                join_comma (List.map quote ps) ++ 93 :: 125 :: [])).
  - rewrite (parse_members_last _ _ _ _ (JArr (List.map JStr ps)) []); [done|].
    apply parse_value_strings. lia.
  - apply parse_value_Z. by left.
Qed.

(** The theme record that [saveTheme] writes reads back. *)
Lemma parse_theme color mode :
  parse (stringify (JObj [(str "color", JStr color); (str "mode", JStr mode)]))
  = Some (JObj [(str "color", JStr color); (str "mode", JStr mode)]).
Proof.
  unfold parse.
  set (text := stringify _).
  assert (Htext : text =
    123 :: quote (str "color") ++ 58 :: quote color ++ 44 ::
      (quote (str "mode") ++ 58 :: quote mode ++ 125 :: [])).
  { subst text. cbn [stringify List.map join_comma].
    repeat (rewrite <- ?app_assoc; cbn [app]; f_equal). }
  assert (Hlen : (3 <= length text)%nat).
  { rewrite Htext. simpl. lia. }
  destruct (length text) as [|[|[|f]]] eqn:Hl; try lia.
  rewrite Htext.
  rewrite (parse_value_object (S (S (S f))) _ _ [] 
             [(str "color", JStr color); (str "mode", JStr mode)]); [done|].
  rewrite (parse_members_more _ _ _ _ (JStr color)
             (quote (str "mode") ++ 58 :: quote mode ++ 125 :: [])).
  - rewrite (parse_members_last _ _ _ _ (JStr mode) []); [done|].
    apply parse_value_string.
  - apply parse_value_string.
Qed.

End JsonFacts.

(** ** SocialSharingManager *)

Module SharingFacts.
Import JS Json JsonFacts ToastManager SocialSharingManager.

Lemma as_safe_int_exact c : safe_count c -> as_safe_int c 0 = Some c.
Proof.
  unfold safe_count, as_safe_int. intros H.
  destruct (Z.eqb_spec c 0) as [->|Hc]; [done|].
  change (0 <=? 0)%Z with true. change (0 <=? 16)%Z with true. cbv iota.
  change (10 ^ 0)%Z with 1%Z. rewrite Z.mul_1_r.
  destruct (Z.leb_spec (Z.abs c) (2 ^ 53)); [done|lia].
Qed.

Lemma strings_of_strings ps : strings_of (List.map JStr ps) = Some ps.
Proof. induction ps as [|p ps IH]; [done|]. simpl. by rewrite IH. Qed.

Lemma has_elem p ps : has p ps = true <-> p ∈ ps.
Proof.
  unfold has. rewrite existsb_exists. split.
  - intros (x & Hx & He). apply str_eqb_eq in He as ->. by apply list_elem_of_In.
  - intros H. exists p. split; [by apply list_elem_of_In|apply str_eqb_refl].
Qed.

Lemma new_Set_NoDup l : forall acc, NoDup (acc ++ l) -> new_Set l acc = acc ++ l.
Proof.
  induction l as [|p l IH]; intros acc H; simpl; [by rewrite app_nil_r|].
  destruct (has p acc) eqn:Hp.
  - apply has_elem in Hp. apply NoDup_app in H as (_ & H & _).
    destruct (H p Hp). by apply elem_of_cons; left.
  - rewrite IH; rewrite <- app_assoc; done.
Qed.

(** The members of [new_Set l acc] are those of [acc] and [l]. *)
Lemma new_Set_elem l : forall acc p, p ∈ new_Set l acc <-> p ∈ acc \/ p ∈ l.
Proof.
  induction l as [|x l IH]; intros acc p; simpl.
  - rewrite elem_of_nil. tauto.
  - rewrite IH, elem_of_cons. destruct (has x acc) eqn:Hx.
    + apply has_elem in Hx. split; [tauto|]. intros [?|[->|?]]; tauto.
    + rewrite elem_of_app, list_elem_of_singleton. tauto.
Qed.

(** What the user-interface updates leave alone. *)
Lemma markPlatformShared_frame p st :
  let st' := markPlatformShared p st in
  shareCount st' = shareCount st
  /\ sharedPlatforms st' = sharedPlatforms st
  /\ championSection_hidden st' = championSection_hidden st
  /\ localStorage st' = localStorage st
  /\ toastContainer st' = toastContainer st.
Proof. unfold markPlatformShared. by destruct (statusElements st !! _). Qed.

Lemma markPlatformShared_all_frame ps : forall st,
  let st' := fold_left (fun s p => markPlatformShared p s) ps st in
  shareCount st' = shareCount st
  /\ sharedPlatforms st' = sharedPlatforms st
  /\ championSection_hidden st' = championSection_hidden st
  /\ localStorage st' = localStorage st
  /\ toastContainer st' = toastContainer st.
Proof.
  induction ps as [|p ps IH]; intros st; [done|]. simpl.
  destruct (IH (markPlatformShared p st)) as (-> & -> & -> & -> & ->).
  apply markPlatformShared_frame.
Qed.

Lemma unlockChampionStatus_frame st :
  let st' := unlockChampionStatus st in
  shareCount st' = shareCount st
  /\ sharedPlatforms st' = sharedPlatforms st
  /\ championSection_hidden st' = false
  /\ localStorage st' = localStorage st
  /\ toastContainer st' = toastContainer st.
Proof.
  unfold unlockChampionStatus.
  destruct (championSection_hidden st) eqn:H; repeat split; try reflexivity.
  exact H.
Qed.

Lemma incr_bounds c : (c <= incr c <= c + 1)%Z.
Proof. unfold incr. destruct (c <? 2 ^ 53)%Z; lia. Qed.

Lemma incr_safe c : safe_count c -> safe_count (incr c).
Proof.
  unfold safe_count, incr. intros H.
  destruct (Z.ltb_spec c (2 ^ 53)); lia.
Qed.

(** Reading what [saveProgress] wrote, on any page that shares the store. *)
Lemma load_saved st pg :
  safe_count (shareCount st) ->
  localStorage pg = localStorage (saveProgress st) ->
  exists st',
    loadProgress pg = Returned st'
    /\ shareCount st' = shareCount st
    /\ sharedPlatforms st' = new_Set (sharedPlatforms st) []
    /\ championSection_hidden st'
       = (if (3 <=? shareCount st)%Z then false else championSection_hidden pg)
    /\ localStorage st' = localStorage pg
    /\ toastContainer st' = toastContainer pg.
Proof.
  intros Hsafe Hls. unfold loadProgress. rewrite Hls. unfold saveProgress.
  cbn [localStorage set_storage]. rewrite lookup_insert_eq.
  set (data := JObj _).
  assert (Htr : truthy (stringify data) = true) by done.
  rewrite Htr. unfold data. rewrite parse_progress.
  change (get _ (str "count")) with (Some (JNum (shareCount st) 0)).
  change (get _ (str "platforms"))
    with (Some (JArr (List.map JStr (sharedPlatforms st)))).
  cbn [count_or_zero platform_set]. rewrite (as_safe_int_exact _ Hsafe).
  rewrite strings_of_strings. cbn [default].
  match goal with
  | |- context [fold_left ?f ?l ?s] =>
      pose proof (markPlatformShared_all_frame l s) as Hf;
      cbv zeta in Hf; remember (fold_left f l s) as st3 eqn:E; clear E;
      cbn in Hf; destruct Hf as (Hc & Hp & Hh & Hl & Ht)
  end.
  rewrite Hc.
  destruct (3 <=? shareCount st)%Z eqn:H3.
  - exists (unlockChampionStatus st3). split; [reflexivity|].
    destruct (unlockChampionStatus_frame st3) as (-> & -> & -> & -> & ->).
    rewrite Hc, Hp, Hl, Ht. repeat split; first [reflexivity|exact Hls].
  - exists st3. split; [reflexivity|].
    rewrite Hc, Hp, Hh, Hl, Ht. repeat split; first [reflexivity|exact Hls].
Qed.

(** Whatever page loads a progress of three or more shares shows the
    champion section. *)
Lemma load_unlocks_champion st pg :
  safe_count (shareCount st) ->
  (3 <= shareCount st)%Z ->
  localStorage pg = localStorage (saveProgress st) ->
  exists st',
    loadProgress pg = Returned st' /\ championSection_hidden st' = false.
Proof.
  intros Hsafe H3 Hls.
  destruct (load_saved st pg Hsafe Hls) as (st' & Hl & _ & _ & Hh & _).
  exists st'. split; [exact Hl|]. rewrite Hh.
  destruct (Z.leb_spec 3 (shareCount st)); [reflexivity|lia].
Qed.

Lemma as_safe_int_safe m e z : as_safe_int m e = Some z -> safe_count z.
Proof.
  assert (Hcheck : forall v,
    (if (Z.abs v <=? 2 ^ 53)%Z then Some v else None) = Some z ->
    safe_count z).
  { intros v. unfold safe_count.
    destruct (Z.leb_spec (Z.abs v) (2 ^ 53)); [|discriminate].
    by intros [= <-]. }
  unfold as_safe_int. cbv zeta.
  destruct (m =? 0)%Z; [intros [= <-]; unfold safe_count; cbn; lia|].
  destruct (0 <=? e)%Z.
  - destruct (e <=? 16)%Z; [|discriminate]. apply Hcheck.
  - destruct (m mod 10 ^ (- e) =? 0)%Z; [|discriminate]. apply Hcheck.
Qed.

Lemma count_or_zero_safe v z : count_or_zero v = Some z -> safe_count z.
Proof.
  unfold count_or_zero.
  destruct v as [[| [|] |m e|[|]| |]|]; try discriminate;
    try (intros [= <-]; unfold safe_count; cbn; lia).
  apply as_safe_int_safe.
Qed.

Lemma new_Set_keeps_NoDup l : forall acc, NoDup acc -> NoDup (new_Set l acc).
Proof.
  induction l as [|p l IH]; intros acc Hacc; [exact Hacc|]. simpl.
  destruct (has p acc) eqn:Hp; [by apply IH|]. apply IH.
  apply NoDup_app. split; [exact Hacc|]. split.
  - intros x Hx Hx'. apply list_elem_of_singleton in Hx' as ->.
    apply has_elem in Hx. congruence.
  - apply NoDup_singleton.
Qed.

Lemma platform_set_NoDup v ps : platform_set v = SetOf ps -> NoDup ps.
Proof.
  unfold platform_set.
  destruct v as [[| [|] |m e|s|l|]|]; try discriminate;
    try (intros [= <-]; apply NoDup_nil_2).
  - destruct (as_safe_int m e) as [[| |]|]; try discriminate.
    intros [= <-]. apply NoDup_nil_2.
  - destruct s; intros [= <-]; [apply NoDup_nil_2|].
    apply new_Set_keeps_NoDup, NoDup_nil_2.
  - destruct (strings_of l); [|discriminate]. intros [= <-].
    apply new_Set_keeps_NoDup, NoDup_nil_2.
Qed.

(** What [loadProgress] returns with: the state untouched, or an exact
    count and a duplicate-free set. *)
Lemma loadProgress_returned st st' :
  loadProgress st = Returned st' ->
  st' = st
  \/ (safe_count (shareCount st') /\ NoDup (sharedPlatforms st')).
Proof.
  unfold loadProgress.
  destruct (localStorage st !! storage_key) as [saved|];
    [|intros [= <-]; by left].
  destruct (truthy saved); [|intros [= <-]; by left].
  destruct (parse saved) as [data|]; [|discriminate].
  assert (Hbody :
    match count_or_zero (get data (str "count")) with
    | Some c =>
        match platform_set (get data (str "platforms")) with
        | SetOf ps =>
            match get data (str "platforms") with
            | Some (JArr l) =>
                Returned
                  (let st3 :=
                     fold_left (fun s p => markPlatformShared p s)
                       (default [] (strings_of l))
                       (updateProgress (set_platforms ps (set_count c st))) in
                   if (3 <=? shareCount st3)%Z
                   then unlockChampionStatus st3 else st3)
            | _ => Threw TypeError
                     (updateProgress (set_platforms ps (set_count c st)))
            end
        | SetThrows => Threw TypeError (set_count c st)
        | SetOutOfModel => OutOfModel
        end
    | None => OutOfModel
    end = Returned st' ->
    safe_count (shareCount st') /\ NoDup (sharedPlatforms st')).
  { destruct (count_or_zero _) as [c|] eqn:Hc; [|discriminate].
    destruct (platform_set _) as [ps| |] eqn:Hp; try discriminate.
    destruct (get data (str "platforms")) as [[| | | |l|]|]; try discriminate.
    intros [= <-]. cbv zeta.
    pose proof (markPlatformShared_all_frame (default [] (strings_of l))
                  (updateProgress (set_platforms ps (set_count c st)))) as Hf.
    cbv zeta in Hf.
    remember (fold_left _ _ _) as st3 eqn:E. clear E.
    destruct Hf as (Hc3 & Hp3 & _).
    cbn [shareCount sharedPlatforms updateProgress set_platforms set_count]
      in Hc3, Hp3.
    assert (shareCount (if (3 <=? shareCount st3)%Z
                        then unlockChampionStatus st3 else st3) = c
            /\ sharedPlatforms (if (3 <=? shareCount st3)%Z
                                then unlockChampionStatus st3 else st3) = ps)
      as [-> ->].
    { destruct (3 <=? shareCount st3)%Z; [|by split].
      destruct (unlockChampionStatus_frame st3) as (-> & -> & _). by split. }
    split; [by apply (count_or_zero_safe _ _ Hc)|].
    by apply (platform_set_NoDup _ _ Hp). }
  destruct data; try discriminate; intros H; right; by apply Hbody.
Qed.

(** A manager that exists has an exact count and a duplicate-free set of
    platforms. *)
Lemma reachable_invariant st :
  reachable st -> safe_count (shareCount st) /\ NoDup (sharedPlatforms st).
Proof.
  induction 1 as [page store st Hc|p st Hr [IHc IHp]].
  - apply loadProgress_returned in Hc as [-> | H]; [|exact H].
    split; [unfold safe_count; cbn; lia|apply NoDup_nil_2].
  - unfold registerShare. destruct (has p (sharedPlatforms st)) eqn:Hp.
    + by split.
    + cbv zeta.
      pose proof (markPlatformShared_frame p
                    (updateProgress
                       (set_count (incr (shareCount st))
                          (set_platforms (sharedPlatforms st ++ [p]) st))))
        as Hf.
      cbv zeta in Hf. destruct Hf as (Hc & Hs & _).
      cbn [shareCount sharedPlatforms updateProgress set_platforms set_count]
        in Hc, Hs.
      cbn [shareCount sharedPlatforms toast].
      match goal with
      | |- context [if ?b then unlockChampionStatus ?x else ?x] =>
          assert (shareCount (if b then unlockChampionStatus x else x)
                  = incr (shareCount st)
                  /\ sharedPlatforms (if b then unlockChampionStatus x else x)
                     = sharedPlatforms st ++ [p]) as [-> ->]
      end.
      { match goal with
        | |- context [if ?b then _ else _] => destruct b
        end.
        - match goal with
          | |- context [unlockChampionStatus ?x] =>
              destruct (unlockChampionStatus_frame x) as (-> & -> & _)
          end.
          by split.
        - by split. }
      split; [by apply incr_safe|].
      apply NoDup_app. split; [exact IHp|]. split.
      * intros x Hx Hx'. apply list_elem_of_singleton in Hx' as ->.
        apply has_elem in Hx. congruence.
      * apply NoDup_singleton.
Qed.

End SharingFacts.

(** ** ThemeManager *)

Module ThemeFacts.
Import JS JSFacts Json JsonFacts Color ColorFacts ThemeManager.

Lemma hex_digit_plain d : (0 <= d < 16)%Z -> css_plain_char (hex_digit d) = true.
Proof.
  intros H. unfold css_plain_char, hex_digit.
  destruct (d <? 10)%Z eqn:Hd.
  - assert (is_digit (Z.to_N (48 + d)) = true) as -> by (unfold is_digit; lia).
    reflexivity.
  - assert ((97 <=? Z.to_N (87 + d)) && (Z.to_N (87 + d) <=? 122) = true)
      as -> by lia.
    by rewrite orb_true_r.
Qed.

Lemma is_hex_plain c : is_hex c = true -> css_plain_char c = true.
Proof.
  unfold css_plain_char, is_hex. intros H.
  destruct (is_digit c); [reflexivity|].
  destruct ((97 <=? c) && (c <=? 102)) eqn:Hl.
  - assert ((97 <=? c) && (c <=? 122) = true) as -> by lia. reflexivity.
  - assert ((65 <=? c) && (c <=? 90) = true) as -> by (simpl in H; lia).
    by rewrite orb_true_r.
Qed.

Lemma hex_shape_plain s ds : hex_shape s ds -> css_plain s = true.
Proof.
  intros (Hlen & Hhex & Hs).
  assert (Hp : forallb css_plain_char ds = true).
  { rewrite forallb_forall in *. intros c Hc. apply is_hex_plain. auto. }
  unfold css_plain. destruct Hs as [-> | ->].
  - rewrite Hp. destruct ds; [discriminate Hlen|reflexivity].
  - cbn [truthy is_empty negb forallb andb]. rewrite Hp. reflexivity.
Qed.

Lemma hex_shape_trim s ds : hex_shape s ds -> trim s = s.
Proof.
  intros (_ & Hhex & Hs). apply trim_id.
  assert (Hp : forallb (fun c => negb (is_space c)) ds = true).
  { rewrite forallb_forall in *. intros c Hc.
    by rewrite (hex_not_space c (Hhex c Hc)). }
  destruct Hs as [-> | ->]; [done|]. simpl. by rewrite Hp.
Qed.

(** [rgbToHex] on three channels between 0 and 255. *)
Lemma rgbToHex_bytes x y z :
  (0 <= x <= 255)%Z -> (0 <= y <= 255)%Z -> (0 <= z <= 255)%Z ->
  rgbToHex {| r := Some x; g := Some y; b := Some z |}
  = [35; hex_digit (x / 16); hex_digit (x mod 16);
     hex_digit (y / 16); hex_digit (y mod 16);
     hex_digit (z / 16); hex_digit (z mod 16)].
Proof.
  intros Hx Hy Hz. unfold rgbToHex. cbn [r g b].
  rewrite (shl_byte _ 16), (shl_byte _ 8) by lia.
  change (shl (Some 1%Z) 24) with (2 ^ 24)%Z.
  pose proof (Z.div_mod x 16 ltac:(lia)) as Ex.
  pose proof (Z.div_mod y 16 ltac:(lia)) as Ey.
  pose proof (Z.div_mod z 16 ltac:(lia)) as Ez.
  assert (0 <= x / 16 < 16 /\ 0 <= x mod 16 < 16)%Z as [? ?]
    by (split; Z.to_euclidean_division_equations; lia).
  assert (0 <= y / 16 < 16 /\ 0 <= y mod 16 < 16)%Z as [? ?]
    by (split; Z.to_euclidean_division_equations; lia).
  assert (0 <= z / 16 < 16 /\ 0 <= z mod 16 < 16)%Z as [? ?]
    by (split; Z.to_euclidean_division_equations; lia).
  rewrite Ex at 1. rewrite Ey at 1. rewrite Ez at 1.
  by rewrite toString16_rgb.
Qed.

Lemma rgbToHex_plain c p :
  (exists x y z, c = {| r := Some x; g := Some y; b := Some z |}) ->
  exists c', adjustBrightness (Some c) p = Some c'
             /\ is_empty (rgbToHex c') = false
             /\ css_plain (rgbToHex c') = true.
Proof.
  intros (x & y & z & ->). eexists. split; [done|]. cbn [r g b adjust].
  rewrite rgbToHex_bytes by lia. split; [done|].
  unfold css_plain. cbn [truthy is_empty negb andb forallb].
  assert (Hd : forall v, (0 <= v <= 255)%Z ->
                 css_plain_char (hex_digit (v / 16)) = true
                 /\ css_plain_char (hex_digit (v mod 16)) = true).
  { intros v Hv. split; apply hex_digit_plain;
      Z.to_euclidean_division_equations; lia. }
  repeat match goal with
    | |- context [hex_digit (?v / 16)] =>
        let H1 := fresh in let H2 := fresh in
        destruct (Hd v ltac:(lia)) as [H1 H2]; rewrite H1, H2; clear H1 H2
    end.
  done.
Qed.

Lemma key_dark : str "--primary-dark" <> primary_color.
Proof. by vm_compute. Qed.
Lemma key_light : str "--primary-light" <> primary_color.
Proof. by vm_compute. Qed.
Lemma key_hover : str "--primary-hover" <> primary_color.
Proof. by vm_compute. Qed.

(** [applyColor] on a hex colour: it returns, the primary colour is the
    one given, the mode attribute is untouched. *)
Lemma applyColor_hex c ds st :
  hex_shape c ds ->
  exists st',
    applyColor (Some (JStr c)) st = Returned st'
    /\ getPropertyValue primary_color st' = c
    /\ data_theme st' = data_theme st.
Proof.
  intros Hshape. unfold applyColor. cbn [to_String to_DOMString].
  pose proof (hex_shape_plain _ _ Hshape) as Hplain.
  assert (Hne : is_empty c = false).
  { destruct Hshape as (Hlen & _ & [-> | ->]); [|done]. by destruct ds. }
  unfold setProperty at 1. rewrite Hne, Hplain.
  destruct Hshape as (Hlen & Hhex & Hs).
  destruct (six_hex _ Hlen Hhex)
    as (a & b' & c' & d & e & f & -> & Ha & Hb & Hc & Hd & He & Hf).
  rewrite (hexToRgb_six a b' c' d e f c) by done.
  match goal with
  | |- context [adjustBrightness (Some ?v) _] =>
      assert (Hv : exists x y z, v = {| r := Some x; g := Some y; b := Some z |})
        by eauto;
      destruct (rgbToHex_plain v (-20) Hv) as (darker & -> & Hde & Hdp);
      destruct (rgbToHex_plain v 20 Hv) as (lighter & -> & Hle & Hlp);
      destruct (rgbToHex_plain v (-10) Hv) as (hover & -> & Hhe & Hhp)
  end.
  unfold setProperty. rewrite Hde, Hdp, Hle, Hlp, Hhe, Hhp.
  eexists. split; [done|]. split; [|done].
  unfold getPropertyValue, saveTheme, set_inline. cbn [inline_vars].
  rewrite lookup_insert_ne by apply key_hover.
  rewrite lookup_insert_ne by apply key_light.
  rewrite lookup_insert_ne by apply key_dark.
  by rewrite lookup_insert_eq.
Qed.

End ThemeFacts.

(** ** The persisted preference store *)

(** C1, as amended.  With no stored value (or an empty one) [loadProgress]
    and [loadSavedTheme] return and leave the state as it was, at its
    defaults when the constructor calls them.  On a stored string that is
    not valid JSON, [JSON.parse] throws a SyntaxError that neither method
    catches; the state is still untouched when the error leaves. *)
Theorem C1_load_absent_or_malformed :
  (forall st,
     SocialSharingManager.localStorage st !! SocialSharingManager.storage_key
       = None
     \/ SocialSharingManager.localStorage st !! SocialSharingManager.storage_key
       = Some [] ->
     SocialSharingManager.loadProgress st = Returned st)
  /\ (forall st saved,
        SocialSharingManager.localStorage st
          !! SocialSharingManager.storage_key = Some saved ->
        saved <> [] -> Json.parse saved = None ->
        SocialSharingManager.loadProgress st = Threw SyntaxError st)
  /\ (forall st,
        ThemeManager.localStorage st !! ThemeManager.storage_key = None
        \/ ThemeManager.localStorage st !! ThemeManager.storage_key = Some [] ->
        ThemeManager.loadSavedTheme st = Returned st)
  /\ (forall st saved,
        ThemeManager.localStorage st !! ThemeManager.storage_key = Some saved ->
        saved <> [] -> Json.parse saved = None ->
        ThemeManager.loadSavedTheme st = Threw SyntaxError st).
Proof.
  repeat split.
  - intros st [H|H]; unfold SocialSharingManager.loadProgress; by rewrite H.
  - intros st saved H Hne Hp. unfold SocialSharingManager.loadProgress.
    rewrite H, Hp. by destruct saved.
  - intros st [H|H]; unfold ThemeManager.loadSavedTheme; by rewrite H.
  - intros st saved H Hne Hp. unfold ThemeManager.loadSavedTheme.
    rewrite H, Hp. by destruct saved.
Qed.

(** A page with an empty store loads to itself; a store holding "{oops"
    makes both loads throw. *)
Lemma C1_load_absent_or_malformed_witness :
  SocialSharingManager.loadProgress SocialSharingManager.example_page
    = Returned SocialSharingManager.example_page
  /\ SocialSharingManager.loadProgress
       (SocialSharingManager.set_storage
          {[ SocialSharingManager.storage_key := str "{oops" ]}
          SocialSharingManager.example_page)
     = Threw SyntaxError
         (SocialSharingManager.set_storage
            {[ SocialSharingManager.storage_key := str "{oops" ]}
            SocialSharingManager.example_page)
  /\ ThemeManager.loadSavedTheme ThemeManager.example_page
     = Returned ThemeManager.example_page
  /\ ThemeManager.loadSavedTheme
       (ThemeManager.with_storage
          {[ ThemeManager.storage_key := str "{oops" ]}
          ThemeManager.example_page)
     = Threw SyntaxError
         (ThemeManager.with_storage
            {[ ThemeManager.storage_key := str "{oops" ]}
            ThemeManager.example_page).
Proof.
  destruct C1_load_absent_or_malformed as (H1 & H2 & H3 & H4).
  split; [apply H1; by left|]. split.
  { apply (H2 _ (str "{oops"));
      [apply lookup_singleton_eq|discriminate|reflexivity]. }
  split; [apply H3; by left|].
  apply (H4 _ (str "{oops"));
    [apply lookup_singleton_eq|discriminate|reflexivity].
Defined.

(** C1 as stated fails: on the stored string "{oops", which is no JSON,
    neither load returns; each throws a SyntaxError. *)
Lemma C1_counterexample :
  Json.parse (str "{oops") = None
  /\ (forall st,
        SocialSharingManager.construct SocialSharingManager.example_page
          {[ SocialSharingManager.storage_key := str "{oops" ]}
        <> Returned st)
  /\ (forall st,
        ThemeManager.loadSavedTheme
          (ThemeManager.with_storage
             {[ ThemeManager.storage_key := str "{oops" ]}
             ThemeManager.example_page)
        <> Returned st).
Proof.
  split; [reflexivity|]. split; intros st.
  - unfold SocialSharingManager.construct, SocialSharingManager.loadProgress.
    cbn [SocialSharingManager.localStorage SocialSharingManager.set_storage].
    rewrite lookup_singleton_eq.
    change (Json.parse (str "{oops")) with (@None Json.json).
    cbn [truthy is_empty negb str]. discriminate.
  - unfold ThemeManager.loadSavedTheme.
    cbn [ThemeManager.localStorage ThemeManager.with_storage].
    rewrite lookup_singleton_eq.
    change (Json.parse (str "{oops")) with (@None Json.json).
    cbn [truthy is_empty negb str]. discriminate.
Qed.

Import SocialSharingManager.

(** C2: the code does not do what the claim says.  [registerShare] never
    changes whether the champion section is hidden: on a page where it is
    hidden, registering twitter, facebook and linkedin brings the count to
    3 and leaves it hidden.  Only a new page load, through [loadProgress],
    shows it. *)
Theorem C2_registerShare_never_unlocks :
  (forall p st,
     championSection_hidden (registerShare p st) = championSection_hidden st)
  /\ (let st3 :=
        registerShare (str "linkedin")
          (registerShare (str "facebook")
             (registerShare (str "twitter") example_page)) in
      construct example_page ∅ = Returned example_page
      /\ shareCount st3 = 3%Z
      /\ championSection_hidden st3 = true
      /\ exists st',
           construct example_page (localStorage st3) = Returned st'
           /\ shareCount st' = 3%Z
           /\ championSection_hidden st' = false).
Proof.
  split.
  - intros p st. unfold registerShare.
    destruct (has p (sharedPlatforms st)); [done|].
    cbv zeta.
    match goal with
    | |- context [saveProgress ?s] =>
        pose proof (SharingFacts.markPlatformShared_frame p
                      (updateProgress
                         (set_count (incr (shareCount st))
                            (set_platforms (sharedPlatforms st ++ [p]) st))))
          as (Hc & _ & Hh & _)
    end.
    cbn in Hh.
    cbn [championSection_hidden toast].
    match goal with
    | |- championSection_hidden (if ?b then _ else _) = _ => destruct b eqn:Hb
    end.
    + apply andb_true_iff in Hb as [_ Hb]. apply negb_true_iff in Hb.
      unfold unlockChampionStatus. rewrite Hb. cbn in *. congruence.
    + cbn. done.
  - cbv zeta. split; [done|]. split; [by vm_compute|]. split; [by vm_compute|].
    set (st3 := registerShare _ _).
    destruct (SharingFacts.load_saved
                (set_platforms [str "twitter"; str "facebook"; str "linkedin"]
                   (set_count 3 example_page))
                (set_storage (localStorage st3)
                   (set_platforms [] (set_count 0 example_page))))
      as (st' & Hl & Hc & _ & Hh & _).
    + unfold safe_count. cbn. lia.
    + subst st3. vm_compute. reflexivity.
    + exists st'. split; [exact Hl|]. split; [exact Hc|]. rewrite Hh. done.
Qed.

(** C3, as amended.  Share progress: for a count that is an exact integer
    and a set of platform names, what [saveProgress] writes is read by
    [loadProgress], on any page sharing the store, back to the same count
    and the same platforms.  Theme: for a colour made of an optional [#]
    and six hexadecimal digits and a mode that is light or dark, what
    [saveTheme] writes is read by [loadSavedTheme], in the same page or on
    a new page load, back to the same colour and mode.  For a colour not
    of that form that is empty or made only of letters, digits and the
    signs [#], [%], [,], [.] and [-] (a colour name such as [blue]),
    [loadSavedTheme] on what [saveTheme] wrote throws a TypeError inside
    [applyColor], after the primary colour is set and before the mode is
    applied: the [data-theme] attribute, the mode buttons, the presets
    and the store are as the page had them. *)
Theorem C3_save_then_load :
  (forall st pg,
     safe_count (shareCount st) ->
     NoDup (sharedPlatforms st) ->
     localStorage pg = localStorage (saveProgress st) ->
     exists st',
       loadProgress pg = Returned st'
       /\ shareCount st' = shareCount st
       /\ sharedPlatforms st' = sharedPlatforms st)
  /\ (forall st pg ds,
        Color.hex_shape (ThemeManager.shown_color st) ds ->
        ThemeManager.shown_mode st = str "light"
        \/ ThemeManager.shown_mode st = str "dark" ->
        ThemeManager.localStorage pg
          = ThemeManager.localStorage (ThemeManager.saveTheme st) ->
        ThemeManager.shown_mode pg = str "light"
        \/ ThemeManager.shown_mode pg = ThemeManager.shown_mode st ->
        exists st',
          ThemeManager.loadSavedTheme pg = Returned st'
          /\ ThemeManager.shown_color st' = ThemeManager.shown_color st
          /\ ThemeManager.shown_mode st' = ThemeManager.shown_mode st)
  /\ (forall st pg,
        is_empty (ThemeManager.shown_color st) = true
        \/ ThemeManager.css_plain (ThemeManager.shown_color st) = true ->
        (forall ds, ~ Color.hex_shape (ThemeManager.shown_color st) ds) ->
        ThemeManager.localStorage pg
          = ThemeManager.localStorage (ThemeManager.saveTheme st) ->
        exists st',
          ThemeManager.loadSavedTheme pg = Threw TypeError st'
          /\ ThemeManager.inline_vars st'
             = (if is_empty (ThemeManager.shown_color st)
                then delete ThemeManager.primary_color
                       (ThemeManager.inline_vars pg)
                else <[ThemeManager.primary_color :=
                         ThemeManager.shown_color st]>
                       (ThemeManager.inline_vars pg))
          /\ ThemeManager.data_theme st' = ThemeManager.data_theme pg
          /\ ThemeManager.modeButtons st' = ThemeManager.modeButtons pg
          /\ ThemeManager.colorPresets st' = ThemeManager.colorPresets pg
          /\ ThemeManager.localStorage st' = ThemeManager.localStorage pg).
Proof.
  split; [|split].
  - intros st pg Hsafe Hnd Hls.
    destruct (SharingFacts.load_saved st pg Hsafe Hls)
      as (st' & Hl & Hc & Hp & _).
    exists st'. split; [done|]. split; [done|].
    rewrite Hp. by apply SharingFacts.new_Set_NoDup.
  - intros st pg ds Hhex Hmode Hls Hpg.
    unfold ThemeManager.loadSavedTheme. rewrite Hls.
    unfold ThemeManager.saveTheme at 1. cbn [ThemeManager.localStorage].
    rewrite lookup_insert_eq.
    fold (ThemeManager.shown_color st). fold (ThemeManager.shown_mode st).
    set (data := Json.JObj _).
    assert (Htr : truthy (Json.stringify data) = true) by done.
    rewrite Htr. unfold data. rewrite JsonFacts.parse_theme.
    change (Json.get _ (str "color"))
      with (Some (Json.JStr (ThemeManager.shown_color st))).
    change (Json.get _ (str "mode"))
      with (Some (Json.JStr (ThemeManager.shown_mode st))).
    destruct (ThemeFacts.applyColor_hex _ _ pg Hhex) as (st1 & -> & Hcol & Hdt).
    eexists. split; [done|]. split.
    + unfold ThemeManager.shown_color, ThemeManager.getPropertyValue in *.
      cbn [ThemeManager.inline_vars ThemeManager.sheet_vars].
      rewrite Hcol. apply (ThemeFacts.hex_shape_trim _ ds). exact Hhex.
    + unfold ThemeManager.shown_mode at 1. cbn [ThemeManager.data_theme].
      destruct (str_eqb (ThemeManager.shown_mode st) (str "dark")) eqn:Hd.
      * apply JsonFacts.str_eqb_eq in Hd. by rewrite Hd.
      * rewrite Hdt. fold (ThemeManager.shown_mode pg).
        destruct Hpg as [Hpg|Hpg]; [|done]. rewrite Hpg.
        destruct Hmode as [Hm|Hm]; [done|].
        rewrite Hm in Hd. discriminate.
  - intros st pg Hplain Hno Hls.
    unfold ThemeManager.loadSavedTheme. rewrite Hls.
    unfold ThemeManager.saveTheme at 1. cbn [ThemeManager.localStorage].
    rewrite lookup_insert_eq.
    fold (ThemeManager.shown_color st). fold (ThemeManager.shown_mode st).
    set (data := Json.JObj _).
    assert (Htr : truthy (Json.stringify data) = true) by done.
    rewrite Htr. unfold data. rewrite JsonFacts.parse_theme.
    change (Json.get _ (str "color"))
      with (Some (Json.JStr (ThemeManager.shown_color st))).
    unfold ThemeManager.applyColor.
    cbn [ThemeManager.to_String ThemeManager.to_DOMString].
    assert (Hnull : Color.hexToRgb (ThemeManager.shown_color st) = None).
    { unfold Color.hexToRgb, Color.exec_hex.
      destruct (Regex.test Color.hex_pattern (ThemeManager.shown_color st))
        eqn:Ht; [|done].
      apply ColorFacts.hex_pattern_shape in Ht as (ds & Hds).
      by destruct (Hno ds). }
    unfold ThemeManager.setProperty.
    destruct (is_empty (ThemeManager.shown_color st)) eqn:He.
    + rewrite Hnull. cbn [Color.adjustBrightness].
      eexists. split; [reflexivity|]. repeat split. exact Hls.
    + destruct Hplain as [Hplain|Hplain]; [discriminate|]. rewrite Hplain.
      rewrite Hnull. cbn [Color.adjustBrightness].
      eexists. split; [reflexivity|]. repeat split. exact Hls.
Qed.

(** Three platforms and the count 3 come back on the example page; the
    default colour and the dark mode come back on a new page load. *)
Lemma C3_save_then_load_witness :
  (exists st',
     loadProgress
       (saveProgress
          (set_platforms [str "twitter"; str "facebook"; str "linkedin"]
             (set_count 3 example_page))) = Returned st'
     /\ shareCount st' = 3%Z
     /\ sharedPlatforms st' = [str "twitter"; str "facebook"; str "linkedin"])
  /\ (exists st',
        ThemeManager.loadSavedTheme
          (ThemeManager.with_storage
             (ThemeManager.localStorage
                (ThemeManager.saveTheme ThemeManager.dark_page))
             ThemeManager.example_page) = Returned st'
        /\ ThemeManager.shown_color st'
           = ThemeManager.shown_color ThemeManager.dark_page
        /\ ThemeManager.shown_mode st'
           = ThemeManager.shown_mode ThemeManager.dark_page).
Proof.
  split.
  - apply (proj1 C3_save_then_load
             (set_platforms [str "twitter"; str "facebook"; str "linkedin"]
                (set_count 3 example_page))
             (saveProgress
                (set_platforms [str "twitter"; str "facebook"; str "linkedin"]
                   (set_count 3 example_page)))).
    + unfold safe_count. cbn [shareCount set_platforms set_count]. lia.
    + cbn [sharedPlatforms set_platforms].
      repeat constructor; rewrite ?elem_of_cons, ?elem_of_nil;
        intros H; repeat destruct H as [H|H]; try discriminate; exact H.
    + reflexivity.
  - apply (proj1 (proj2 C3_save_then_load) ThemeManager.dark_page
             (ThemeManager.with_storage
                (ThemeManager.localStorage
                   (ThemeManager.saveTheme ThemeManager.dark_page))
                ThemeManager.example_page)
             (str "0066cc")).
    + split; [reflexivity|]. split; [reflexivity|]. right.
      vm_compute. reflexivity.
    + right. vm_compute. reflexivity.
    + reflexivity.
    + left. vm_compute. reflexivity.
Defined.

(** C3 as stated fails on a colour that is no six-digit hex string: with
    the primary colour [blue] and dark mode saved, [loadSavedTheme] throws
    in [applyColor], in the same page and on a new page load, where the
    mode then stays light. *)
Lemma C3_counterexample :
  let st := ThemeManager.named_colour_page in
  let saved := ThemeManager.localStorage (ThemeManager.saveTheme st) in
  ThemeManager.shown_color st = str "blue"
  /\ ThemeManager.shown_mode st = str "dark"
  /\ (exists st',
        ThemeManager.loadSavedTheme (ThemeManager.saveTheme st)
          = Threw TypeError st')
  /\ (exists st',
        ThemeManager.loadSavedTheme
          (ThemeManager.with_storage saved ThemeManager.named_colour_fresh)
          = Threw TypeError st'
        /\ ThemeManager.shown_mode st' = str "light").
Proof.
  cbv zeta. split; [by vm_compute|]. split; [by vm_compute|]. split.
  - eexists. unfold ThemeManager.loadSavedTheme.
    unfold ThemeManager.saveTheme at 1. cbn [ThemeManager.localStorage].
    rewrite lookup_insert_eq. vm_compute. reflexivity.
  - eexists. unfold ThemeManager.loadSavedTheme.
    cbn [ThemeManager.localStorage ThemeManager.with_storage
           ThemeManager.saveTheme].
    rewrite lookup_insert_eq. split; [vm_compute; reflexivity|by vm_compute].
Qed.

(** C7.  For every manager that exists and every platform: registering a
    platform that is already recorded changes neither the count, nor the
    platforms, nor the store, and shows one informational toast; two
    registrations of the same platform raise the count by at most 1; no
    registration lowers the count; and after a registration the platform
    is recorded, the count is still an exact integer and the platforms
    are still distinct. *)
Theorem C7_registerShare_idempotent (p : list N) (st : state) :
  reachable st ->
  (has p (sharedPlatforms st) = true ->
   let st' := registerShare p st in
   shareCount st' = shareCount st
   /\ sharedPlatforms st' = sharedPlatforms st
   /\ localStorage st' = localStorage st
   /\ championSection_hidden st' = championSection_hidden st
   /\ toastContainer st' =
        toastContainer st
        ++ [{| ToastManager.text := str "You already shared on this platform!";
               ToastManager.type := ToastManager.info;
               ToastManager.duration := 4000 |}])
  /\ (shareCount (registerShare p (registerShare p st)) <= shareCount st + 1)%Z
  /\ (shareCount st <= shareCount (registerShare p st))%Z
  /\ has p (sharedPlatforms (registerShare p st)) = true
  /\ safe_count (shareCount (registerShare p st))
  /\ NoDup (sharedPlatforms (registerShare p st)).
Proof.
  intros Hr.
  assert (Hstep : forall q s,
             (shareCount s <= shareCount (registerShare q s)
              <= shareCount s + 1)%Z
             /\ has q (sharedPlatforms (registerShare q s)) = true).
  { intros q s. unfold registerShare.
    destruct (has q (sharedPlatforms s)) eqn:Hq; [cbn; split; [lia|done]|].
    cbv zeta.
    pose proof (SharingFacts.markPlatformShared_frame q
                  (updateProgress
                     (set_count (incr (shareCount s))
                        (set_platforms (sharedPlatforms s ++ [q]) s))))
      as (Hc & Hp & _).
    cbn in Hc, Hp. cbn [shareCount sharedPlatforms toast].
    match goal with
    | |- context [if ?b then unlockChampionStatus ?x else ?x] =>
        assert (shareCount (if b then unlockChampionStatus x else x)
                = incr (shareCount s)
                /\ sharedPlatforms (if b then unlockChampionStatus x else x)
                   = sharedPlatforms s ++ [q]) as [-> ->]
    end.
    { unfold unlockChampionStatus.
      repeat match goal with
        | |- context [if ?b then _ else _] => destruct b
        end; cbn; by rewrite ?Hc, ?Hp. }
    split; [apply SharingFacts.incr_bounds|].
    apply SharingFacts.has_elem, elem_of_app. right.
    by apply list_elem_of_singleton. }
  split; [|split; [|split; [|split]]].
  - intros Hp. unfold registerShare. rewrite Hp. cbn. done.
  - destruct (Hstep p st) as [[_ H1] Hin].
    assert (shareCount (registerShare p (registerShare p st))
            = shareCount (registerShare p st)) as ->; [|done].
    unfold registerShare at 1. by rewrite Hin.
  - by destruct (Hstep p st) as [[? _] _].
  - by destruct (Hstep p st) as [_ ?].
  - apply SharingFacts.reachable_invariant. by apply reach_registerShare.
Qed.

(** On the manager built on the example page, sharing on twitter twice
    counts once. *)
Lemma C7_registerShare_idempotent_witness :
  (shareCount (registerShare (str "twitter")
                 (registerShare (str "twitter") example_page))
   <= shareCount example_page + 1)%Z.
Proof.
  apply (C7_registerShare_idempotent (str "twitter") example_page).
  apply (reach_construct example_page ∅). reflexivity.
Defined.

(** ** TicketManager *)

Module TicketFacts.
Import JS ToastManager Form TicketManager.

Lemma errorId_inj i j : errorId i = errorId j -> i = j.
Proof. destruct i, j; (done || by vm_compute). Qed.

(** What [showError] changes: the error state of its field and the text
    of its error element. *)
Lemma showError_frame i eid message st :
  let st' := showError i eid message st in
  values st' = values st
  /\ fileInput st' = fileInput st
  /\ submitBtn st' = submitBtn st
  /\ toastContainer st' = toastContainer st
  /\ submitted st' = submitted st
  /\ timers st' = timers st.
Proof.
  unfold showError. cbv zeta.
  destruct (errorElements _ !! eid); destruct i; done.
Qed.

Lemma showError_field_other i j eid message st :
  i <> j -> get_field j (showError i eid message st) = get_field j st.
Proof.
  intros Hij. unfold showError.
  destruct (errorElements _ !! eid); destruct i, j; done.
Qed.

Lemma showError_field_self i eid message st :
  get_field i (showError i eid message st)
  = {| value := value (get_field i st);
       default_value := default_value (get_field i st);
       has_error := true; aria_invalid := Some (str "true") |}.
Proof.
  unfold showError. destruct (errorElements _ !! eid); destruct i; done.
Qed.

Lemma showError_errors i eid message st eid' :
  errorElements (showError i eid message st) !! eid'
  = if decide (eid = eid') then
      (fun _ => message) <$> errorElements st !! eid'
    else errorElements st !! eid'.
Proof.
  unfold showError. cbv zeta.
  assert (He : errorElements
                 (set_field i
                    {| value := value (get_field i st);
                       default_value := default_value (get_field i st);
                       has_error := true;
                       aria_invalid := Some (str "true") |} st)
               = errorElements st) by (by destruct i).
  rewrite He. destruct (errorElements st !! eid) eqn:Hl.
  - cbn [errorElements set_errors]. rewrite ?He.
    destruct (decide (eid = eid')) as [<-|Hne].
    + by rewrite lookup_insert_eq, Hl.
    + by rewrite lookup_insert_ne.
  - rewrite ?He. destruct (decide (eid = eid')) as [<-|Hne]; [|done].
    by rewrite Hl.
Qed.

Lemma report_frame i r st :
  let st' := report i r st in
  values st' = values st
  /\ fileInput st' = fileInput st
  /\ submitBtn st' = submitBtn st
  /\ toastContainer st' = toastContainer st
  /\ submitted st' = submitted st
  /\ timers st' = timers st.
Proof. destruct r; [apply showError_frame|done]. Qed.

Lemma report_field_other i j r st :
  i <> j -> get_field j (report i r st) = get_field j st.
Proof. destruct r; [apply showError_field_other|done]. Qed.

Lemma report_field_self i r s1 s2 :
  get_field i s1 = get_field i s2 ->
  get_field i (report i r s1) = get_field i (report i r s2).
Proof.
  intros H. destruct r; [|done]. cbn [report].
  by rewrite !showError_field_self, H.
Qed.

Lemma report_errors_other i j r st :
  i <> j ->
  errorElements (report i r st) !! errorId j = errorElements st !! errorId j.
Proof.
  intros Hij. destruct r; [|done]. cbn [report]. rewrite showError_errors.
  destruct (decide _) as [He|]; [|done]. by apply errorId_inj in He.
Qed.

Lemma report_errors_self i r s1 s2 :
  errorElements s1 !! errorId i = errorElements s2 !! errorId i ->
  errorElements (report i r s1) !! errorId i
  = errorElements (report i r s2) !! errorId i.
Proof.
  intros H. destruct r; [|done]. cbn [report].
  rewrite !showError_errors. by rewrite H.
Qed.

(** A validator reads the value of its own field only: on two states with
    the same values it gives the same answer and the same message. *)
Lemma validate_shape i st st' :
  values st' = values st ->
  exists r,
    validate i st = (report i r st, bool_decide (r = None))
    /\ validate i st' = (report i r st', bool_decide (r = None)).
Proof.
  intros Hv. unfold values in Hv.
  injection Hv as H1 H2 H3 H4 H5 H6.
  destruct i; cbn [validate];
    unfold validateName, validateEmail, validateCategory, validatePriority,
      validateSubject, validateDescription;
    rewrite ?H1, ?H2, ?H3, ?H4, ?H5, ?H6;
    repeat match goal with
      | |- context [if ?c then _ else _] => destruct c
      end;
    first [ by exists None | by eexists (Some _) ].
Qed.

(** [validateAll] runs every validator; each answers as it would on the
    form as submitted. *)
Lemma validateAll_reports st :
  exists rs,
    validateAll st
    = (reports rs st, List.map (fun i => bool_decide (rs i = None)) inputs)
    /\ forall i, validate i st = (report i (rs i) st, bool_decide (rs i = None)).
Proof.
  unfold validateAll, reports.
  destruct (validate_shape nameInput st st eq_refl) as (r1 & E1 & _).
  set (s1 := report nameInput r1 st).
  assert (V1 : values s1 = values st) by apply (report_frame nameInput r1 st).
  destruct (validate_shape emailInput st s1 V1) as (r2 & E2 & E2').
  set (s2 := report emailInput r2 s1).
  assert (V2 : values s2 = values st).
  { rewrite <- V1. apply (report_frame emailInput r2 s1). }
  destruct (validate_shape categorySelect st s2 V2) as (r3 & E3 & E3').
  set (s3 := report categorySelect r3 s2).
  assert (V3 : values s3 = values st).
  { rewrite <- V2. apply (report_frame categorySelect r3 s2). }
  destruct (validate_shape prioritySelect st s3 V3) as (r4 & E4 & E4').
  set (s4 := report prioritySelect r4 s3).
  assert (V4 : values s4 = values st).
  { rewrite <- V3. apply (report_frame prioritySelect r4 s3). }
  destruct (validate_shape subjectInput st s4 V4) as (r5 & E5 & E5').
  set (s5 := report subjectInput r5 s4).
  assert (V5 : values s5 = values st).
  { rewrite <- V4. apply (report_frame subjectInput r5 s4). }
  destruct (validate_shape descriptionTextarea st s5 V5) as (r6 & E6 & E6').
  cbn [validate] in *.
  exists (fun i => match i with
                   | nameInput => r1 | emailInput => r2
                   | categorySelect => r3 | prioritySelect => r4
                   | subjectInput => r5 | descriptionTextarea => r6
                   end).
  split.
  - rewrite E1. fold s1. rewrite E2'. fold s2. rewrite E3'. fold s3.
    rewrite E4'. fold s4. rewrite E5'. fold s5. rewrite E6'. reflexivity.
  - intros i. destruct i; cbn [validate]; assumption.
Qed.

Lemma reports_frame rs st :
  let st' := reports rs st in
  values st' = values st
  /\ fileInput st' = fileInput st
  /\ submitBtn st' = submitBtn st
  /\ toastContainer st' = toastContainer st
  /\ submitted st' = submitted st
  /\ timers st' = timers st.
Proof.
  unfold reports. cbv zeta.
  do 6 match goal with
    | |- context [report ?i ?r ?s] =>
        destruct (report_frame i r s) as (-> & -> & -> & -> & -> & ->)
    end.
  repeat split; reflexivity.
Qed.

(** In the outcome of the six reports, a field and its error element are
    as its own validator alone leaves them. *)
Lemma reports_field rs st i :
  get_field i (reports rs st) = get_field i (report i (rs i) st)
  /\ errorElements (reports rs st) !! errorId i
     = errorElements (report i (rs i) st) !! errorId i.
Proof.
  unfold reports. split.
  - destruct i;
      rewrite ?report_field_other by done;
      (apply report_field_self || idtac);
      rewrite ?report_field_other by done; done.
  - destruct i;
      rewrite ?report_errors_other by done;
      (apply report_errors_self || idtac);
      rewrite ?report_errors_other by done; done.
Qed.

End TicketFacts.

(** ** The form submission pipeline *)

Module SubmitFacts.
Import JS ToastManager Form.

(** [handleSubmit] of the ticket form when some field fails: the six
    reports and one toast. *)
Lemma ticket_invalid op e st i :
  TicketManager.fails i st = true ->
  exists rs,
    TicketManager.handleSubmit op e st
    = TicketManager.toast (str "Please fix the errors in the form") error
        default_duration (TicketManager.reports rs st)
    /\ forall j,
         TicketManager.validate j st
         = (TicketManager.report j (rs j) st, bool_decide (rs j = None)).
Proof.
  intros Hf. destruct (TicketFacts.validateAll_reports st) as (rs & Hall & Hv).
  exists rs. split; [|done].
  unfold TicketManager.handleSubmit, TicketManager.handleSubmit_begin.
  rewrite Hall.
  assert (Hfalse : forallb (fun result => eqb result true)
                     (List.map (fun i => bool_decide (rs i = None))
                        TicketManager.inputs) = false).
  { unfold TicketManager.fails in Hf. rewrite Hv in Hf. cbn [snd] in Hf.
    apply negb_true_iff in Hf.
    destruct i; cbn [TicketManager.inputs List.map forallb]; rewrite Hf;
      cbn [eqb andb]; by rewrite ?andb_false_r. }
  by rewrite Hfalse.
Qed.

(** [handleSubmit] of the ticket form when no field fails: the call of
    the external operation on a form whose fields are untouched. *)
Lemma ticket_valid e st :
  (forall i, TicketManager.fails i st = false) ->
  exists data,
    TicketManager.handleSubmit_begin e st
    = (TicketManager.set_button (setLoadingState true) st, Some data).
Proof.
  intros Hok. destruct (TicketFacts.validateAll_reports st) as (rs & Hall & Hv).
  assert (Hrs : forall i, rs i = None).
  { intros i. specialize (Hok i). unfold TicketManager.fails in Hok.
    rewrite Hv in Hok. cbn [snd] in Hok. apply negb_false_iff in Hok.
    by apply bool_decide_eq_true in Hok. }
  unfold TicketManager.handleSubmit_begin. rewrite Hall.
  unfold TicketManager.reports. rewrite !Hrs. cbn [TicketManager.report].
  cbn [TicketManager.inputs List.map]. rewrite !Hrs. cbn.
  eexists. reflexivity.
Qed.

(** What a ticket form with a failing field is left with. *)
Lemma ticket_rejected submitTicket e st i0 :
  TicketManager.fails i0 st = true ->
  let st' := TicketManager.handleSubmit submitTicket e st in
  (forall i,
     TicketManager.fails i st = true ->
     TicketManager.marked (TicketManager.get_field i st')
     /\ TicketManager.errorElements st' !! TicketManager.errorId i
        = TicketManager.errorElements (fst (TicketManager.validate i st))
            !! TicketManager.errorId i)
  /\ (forall i,
        TicketManager.fails i st = false ->
        TicketManager.get_field i st' = TicketManager.get_field i st)
  /\ TicketManager.toastContainer st'
     = TicketManager.toastContainer st
       ++ [{| ToastManager.text := str "Please fix the errors in the form";
              ToastManager.type := ToastManager.error;
              ToastManager.duration := 4000 |}]
  /\ TicketManager.submitted st' = TicketManager.submitted st
  /\ TicketManager.submitBtn st' = TicketManager.submitBtn st
  /\ TicketManager.values st' = TicketManager.values st.
Proof.
  intros Hf0. cbv zeta.
  destruct (ticket_invalid submitTicket e st i0 Hf0) as (rs & -> & Hv).
  destruct (TicketFacts.reports_frame rs st) as (Hval & _ & Hb & Ht & Hs & _).
  assert (Hg' : forall i,
             TicketManager.get_field i
               (TicketManager.toast
                  (str "Please fix the errors in the form")
                  ToastManager.error ToastManager.default_duration
                  (TicketManager.reports rs st))
             = TicketManager.get_field i (TicketManager.reports rs st))
    by (by intros []).
  split; [|split; [|split; [|split; [|split]]]].
  - intros i Hf. destruct (TicketFacts.reports_field rs st i) as [Hg He].
    rewrite Hg', Hg. cbn [TicketManager.errorElements TicketManager.toast].
    rewrite He, Hv. cbn [fst]. split; [|done].
    unfold TicketManager.fails in Hf. rewrite Hv in Hf. cbn [snd] in Hf.
    destruct (rs i) as [message|]; [|done]. cbn [TicketManager.report].
    rewrite TicketFacts.showError_field_self. by split.
  - intros i Hf. destruct (TicketFacts.reports_field rs st i) as [Hg _].
    rewrite Hg', Hg.
    unfold TicketManager.fails in Hf. rewrite Hv in Hf. cbn [snd] in Hf.
    destruct (rs i); [done|]. done.
  - cbn [TicketManager.toastContainer TicketManager.toast]. by rewrite Ht.
  - exact Hs.
  - exact Hb.
  - exact Hval.
Qed.

End SubmitFacts.

(** C4, as amended.  Ticket form: when at least one of the six fields
    fails its validator, [handleSubmit] marks every failing field with its
    own message, leaves the other fields as they were, shows the one toast
    "Please fix the errors in the form" and returns without calling
    [submitTicket].  Donation form: when the name or the e-mail is empty,
    or the amount fails the test of the code ([!finalAmount || finalAmount
    <= 0], on the value of the custom field when that is not empty and on
    the selected amount otherwise), [handleSubmit] shows one error toast
    and returns without calling [processDonation]; it marks no field, and
    it does not look at the format of the e-mail.  In every other case
    [processDonation] is called once, with that amount; a custom amount
    that is no number, such as [abc], passes the test whatever amount is
    selected. *)
Theorem C4_invalid_form_not_submitted :
  (forall submitTicket e st i0,
     TicketManager.fails i0 st = true ->
     let st' := TicketManager.handleSubmit submitTicket e st in
     (forall i,
        TicketManager.fails i st = true ->
        TicketManager.marked (TicketManager.get_field i st')
        /\ TicketManager.errorElements st' !! TicketManager.errorId i
           = TicketManager.errorElements (fst (TicketManager.validate i st))
               !! TicketManager.errorId i)
     /\ (forall i,
           TicketManager.fails i st = false ->
           TicketManager.get_field i st' = TicketManager.get_field i st)
     /\ TicketManager.toastContainer st'
        = TicketManager.toastContainer st
          ++ [{| ToastManager.text := str "Please fix the errors in the form";
                 ToastManager.type := ToastManager.error;
                 ToastManager.duration := 4000 |}]
     /\ TicketManager.submitted st' = TicketManager.submitted st
     /\ TicketManager.submitBtn st' = TicketManager.submitBtn st
     /\ TicketManager.values st' = TicketManager.values st)
  /\ (forall processDonation st,
        Form.value (DonationManager.donorName st) = []
        \/ Form.value (DonationManager.donorEmail st) = []
        \/ DonationManager.amount_rejected (DonationManager.finalAmount st)
           = true ->
        let st' := DonationManager.handleSubmit processDonation st in
        DonationManager.processed st' = DonationManager.processed st
        /\ (exists message,
              DonationManager.toastContainer st'
              = DonationManager.toastContainer st
                ++ [{| ToastManager.text := message;
                       ToastManager.type := ToastManager.error;
                       ToastManager.duration := 4000 |}])
        /\ DonationManager.donorName st' = DonationManager.donorName st
        /\ DonationManager.donorEmail st' = DonationManager.donorEmail st
        /\ DonationManager.customAmount st' = DonationManager.customAmount st
        /\ DonationManager.submitBtn st' = DonationManager.submitBtn st)
  /\ (forall processDonation st,
        Form.value (DonationManager.donorName st) <> [] ->
        Form.value (DonationManager.donorEmail st) <> [] ->
        DonationManager.amount_rejected (DonationManager.finalAmount st)
          = false ->
        exists data,
          DonationManager.processed
            (DonationManager.handleSubmit processDonation st)
          = DonationManager.processed st ++ [data]
          /\ DonationManager.d_amount data = DonationManager.finalAmount st)
  /\ (forall st f,
        DonationManager.customAmount st = Some f ->
        Form.value f = str "abc" ->
        DonationManager.finalAmount st = DonationManager.AmountStr (str "abc")
        /\ DonationManager.amount_rejected (DonationManager.finalAmount st)
           = false).
Proof.
  split; [|split; [|split]].
  - intros op e st i0 Hf0. exact (SubmitFacts.ticket_rejected op e st i0 Hf0).
  - intros op st H. cbv zeta.
    unfold DonationManager.handleSubmit, DonationManager.handleSubmit_begin.
    destruct (truthy (Form.value (DonationManager.donorName st))) eqn:Hn;
      [destruct (truthy (Form.value (DonationManager.donorEmail st))) eqn:He|].
    + cbn [negb orb].
      destruct (DonationManager.amount_rejected _) eqn:Ha.
      * cbn. repeat split; eauto.
      * destruct H as [H|[H|H]]; [| |done].
        -- rewrite H in Hn. discriminate.
        -- rewrite H in He. discriminate.
    + cbn [negb orb]. cbn. repeat split; eauto.
    + cbn [negb orb]. cbn. repeat split; eauto.
  - intros op st Hn He Ha.
    unfold DonationManager.handleSubmit, DonationManager.handleSubmit_begin.
    assert (truthy (Form.value (DonationManager.donorName st)) = true) as ->
      by (by destruct (Form.value (DonationManager.donorName st))).
    assert (truthy (Form.value (DonationManager.donorEmail st)) = true) as ->
      by (by destruct (Form.value (DonationManager.donorEmail st))).
    cbn [negb orb]. rewrite Ha.
    eexists. split; [destruct (op _); reflexivity|reflexivity].
  - intros st f Hf Hv. unfold DonationManager.finalAmount.
    rewrite Hf, Hv. split; reflexivity.
Qed.

(** The scenario of the specification (name "A", email "bad", no subject)
    gets its three errors and one toast and is not submitted; a donation
    with no name is not processed. *)
Lemma C4_invalid_form_not_submitted_witness :
  TicketManager.submitted
    (TicketManager.handleSubmit TicketManager.submitTicket
       TicketManager.example_env TicketManager.scenario_form) = []
  /\ DonationManager.processed
       (DonationManager.handleSubmit DonationManager.processDonation
          DonationManager.empty_form) = [].
Proof.
  split.
  - apply (proj1 C4_invalid_form_not_submitted TicketManager.submitTicket
             TicketManager.example_env TicketManager.scenario_form
             TicketManager.nameInput).
    reflexivity.
  - apply (proj1 (proj2 C4_invalid_form_not_submitted)
             DonationManager.processDonation DonationManager.empty_form).
    left. reflexivity.
Defined.

(** C4 as stated fails on the donation form: with the e-mail
    "not-an-email", which [validateEmail] rejects for its format, the
    donation is handed to [processDonation], no field is marked and no
    error toast is shown. *)
Lemma C4_counterexample :
  let st := DonationManager.bad_email_form in
  let st' := DonationManager.handleSubmit DonationManager.processDonation st in
  FormValidator.validateEmail (Form.value (DonationManager.donorEmail st))
    = {| FormValidator.isValid := false;
         FormValidator.message := str "Please enter a valid email address" |}
  /\ List.map DonationManager.d_email (DonationManager.processed st')
     = [str "not-an-email"]
  /\ Form.has_error (DonationManager.donorEmail st') = false
  /\ List.map ToastManager.type (DonationManager.toastContainer st')
     = [ToastManager.success].
Proof. cbv zeta. repeat split; by vm_compute. Qed.

(** C5, as amended.  Ticket form: [handleSubmit] runs the six validators
    in the declared order (name, email, category, priority, subject,
    description) and collects the six answers, each the answer its
    validator gives on the form as submitted; every failing field is
    marked with its own message, however many other fields fail.  Donation
    form: the checks are made one after the other and the first failing
    one ends the run with its own toast: an empty name or e-mail shows
    "Please fill in all required fields" whatever the amount, and the
    amount notice is shown only when both are present. *)
Theorem C5_all_validators_run :
  (forall st,
     exists final,
       TicketManager.validateAll st
       = (final,
          List.map (fun i => snd (TicketManager.validate i st))
            TicketManager.inputs)
       /\ forall i,
            TicketManager.fails i st = true ->
            TicketManager.marked (TicketManager.get_field i final)
            /\ TicketManager.errorElements final !! TicketManager.errorId i
               = TicketManager.errorElements
                   (fst (TicketManager.validate i st))
                   !! TicketManager.errorId i)
  /\ (forall submitTicket e st i,
        TicketManager.fails i st = true ->
        TicketManager.marked
          (TicketManager.get_field i
             (TicketManager.handleSubmit submitTicket e st)))
  /\ (forall processDonation st,
        let st' := DonationManager.handleSubmit processDonation st in
        let toast_of message :=
          {| ToastManager.text := message;
             ToastManager.type := ToastManager.error;
             ToastManager.duration := 4000 |} in
        (Form.value (DonationManager.donorName st) = []
         \/ Form.value (DonationManager.donorEmail st) = [] ->
         DonationManager.toastContainer st'
         = DonationManager.toastContainer st
           ++ [toast_of (str "Please fill in all required fields")])
        /\ (Form.value (DonationManager.donorName st) <> [] ->
            Form.value (DonationManager.donorEmail st) <> [] ->
            DonationManager.amount_rejected (DonationManager.finalAmount st)
              = true ->
            DonationManager.toastContainer st'
            = DonationManager.toastContainer st
              ++ [toast_of (str "Please select or enter a donation amount")])).
Proof.
  split; [|split].
  - intros st.
    destruct (TicketFacts.validateAll_reports st) as (rs & Hall & Hv).
    exists (TicketManager.reports rs st). split.
    + rewrite Hall. f_equal. apply List.map_ext. intros i. by rewrite Hv.
    + intros i Hf. destruct (TicketFacts.reports_field rs st i) as [Hg He].
      rewrite Hg, He, Hv. cbn [fst]. split; [|done].
      unfold TicketManager.fails in Hf. rewrite Hv in Hf. cbn [snd] in Hf.
      destruct (rs i) as [message|]; [|done]. cbn [TicketManager.report].
      rewrite TicketFacts.showError_field_self. by split.
  - intros op e st i Hf.
    by apply (SubmitFacts.ticket_rejected op e st i Hf).
  - intros op st. cbv zeta.
    unfold DonationManager.handleSubmit, DonationManager.handleSubmit_begin.
    split.
    + intros [H|H]; rewrite H; cbn [truthy is_empty negb orb]; [done|].
      by rewrite orb_true_r.
    + intros Hn He Ha.
      destruct (Form.value (DonationManager.donorName st)); [done|].
      destruct (Form.value (DonationManager.donorEmail st)); [done|].
      cbn [truthy is_empty negb orb]. by rewrite Ha.
Qed.

(** In the scenario of the specification the subject is marked although
    the name and the e-mail fail before it; a donation with no name gets
    the required-fields toast. *)
Lemma C5_all_validators_run_witness :
  TicketManager.marked
    (TicketManager.get_field TicketManager.subjectInput
       (TicketManager.handleSubmit TicketManager.submitTicket
          TicketManager.example_env TicketManager.scenario_form))
  /\ DonationManager.toastContainer
       (DonationManager.handleSubmit DonationManager.processDonation
          DonationManager.empty_form)
     = [{| ToastManager.text := str "Please fill in all required fields";
           ToastManager.type := ToastManager.error;
           ToastManager.duration := 4000 |}].
Proof.
  destruct C5_all_validators_run as (_ & Hticket & Hdonation).
  split.
  - apply Hticket. reflexivity.
  - apply (proj1 (Hdonation DonationManager.processDonation
                    DonationManager.empty_form)).
    left. reflexivity.
Defined.

(** C5 as stated fails on the donation form: with no name and no amount,
    the amount is rejected by its own check, yet the only toast shown is
    the one for the required fields. *)
Lemma C5_counterexample :
  let st := DonationManager.empty_form in
  let st' := DonationManager.handleSubmit DonationManager.processDonation st in
  Form.value (DonationManager.donorName st) = []
  /\ DonationManager.amount_rejected (DonationManager.finalAmount st) = true
  /\ List.map ToastManager.text (DonationManager.toastContainer st')
     = [str "Please fill in all required fields"].
Proof. cbv zeta. repeat split; by vm_compute. Qed.

(** C8.  When the form passes validation and the external operation
    rejects, [handleSubmit] shows one error toast that asks to try again,
    puts the submit button back to its idle state (enabled, its text
    shown, its loader hidden) and leaves every field value as it was when
    the submit began; this holds for the ticket form and for the donation
    form. *)
Theorem C8_rejected_submission_keeps_input :
  (forall submitTicket e st,
     (forall i, TicketManager.fails i st = false) ->
     (forall data, submitTicket data = Form.Rejected) ->
     let st' := TicketManager.handleSubmit submitTicket e st in
     TicketManager.values st' = TicketManager.values st
     /\ TicketManager.fileInput st' = TicketManager.fileInput st
     /\ TicketManager.toastContainer st'
        = TicketManager.toastContainer st
          ++ [{| ToastManager.text :=
                   str "Failed to submit ticket. Please try again or email us directly.";
                 ToastManager.type := ToastManager.error;
                 ToastManager.duration := 4000 |}]
     /\ TicketManager.submitBtn st'
        = {| Form.disabled := false; Form.btnText_hidden := false;
             Form.btnLoader_hidden := true |}
     /\ length (TicketManager.submitted st')
        = S (length (TicketManager.submitted st)))
  /\ (forall processDonation st,
        Form.value (DonationManager.donorName st) <> [] ->
        Form.value (DonationManager.donorEmail st) <> [] ->
        DonationManager.amount_rejected (DonationManager.finalAmount st)
          = false ->
        (forall data, processDonation data = Form.Rejected) ->
        let st' := DonationManager.handleSubmit processDonation st in
        DonationManager.values st' = DonationManager.values st
        /\ DonationManager.donorName st' = DonationManager.donorName st
        /\ DonationManager.donorEmail st' = DonationManager.donorEmail st
        /\ DonationManager.customAmount st' = DonationManager.customAmount st
        /\ DonationManager.anonymousCheckbox st'
           = DonationManager.anonymousCheckbox st
        /\ DonationManager.featuredCheckbox st'
           = DonationManager.featuredCheckbox st
        /\ DonationManager.partnerProgram st'
           = DonationManager.partnerProgram st
        /\ DonationManager.toastContainer st'
           = DonationManager.toastContainer st
             ++ [{| ToastManager.text := str "Payment failed. Please try again.";
                    ToastManager.type := ToastManager.error;
                    ToastManager.duration := 4000 |}]
        /\ DonationManager.submitBtn st'
           = {| Form.disabled := false; Form.btnText_hidden := false;
                Form.btnLoader_hidden := true |}
        /\ length (DonationManager.processed st')
           = S (length (DonationManager.processed st))).
Proof.
  split.
  - intros op e st Hok Hrej. cbv zeta. unfold TicketManager.handleSubmit.
    destruct (SubmitFacts.ticket_valid e st Hok) as (data & ->).
    rewrite Hrej.
    cbn [TicketManager.handleSubmit_settle TicketManager.call_submitTicket
           TicketManager.set_button TicketManager.toast TicketManager.values
           TicketManager.fileInput TicketManager.toastContainer
           TicketManager.submitBtn TicketManager.submitted
           TicketManager.f_name TicketManager.f_email TicketManager.f_category
           TicketManager.f_priority TicketManager.f_subject
           TicketManager.f_description].
    rewrite length_app. cbn [length]. repeat split; try reflexivity. lia.
  - intros op st Hn He Ha Hrej. cbv zeta.
    unfold DonationManager.handleSubmit, DonationManager.handleSubmit_begin.
    assert (truthy (Form.value (DonationManager.donorName st)) = true) as ->
      by (by destruct (Form.value (DonationManager.donorName st))).
    assert (truthy (Form.value (DonationManager.donorEmail st)) = true) as ->
      by (by destruct (Form.value (DonationManager.donorEmail st))).
    cbn [negb orb]. rewrite Ha, Hrej.
    cbn [DonationManager.handleSubmit_settle
           DonationManager.call_processDonation DonationManager.set_button
           DonationManager.toast DonationManager.values
           DonationManager.donorName DonationManager.donorEmail
           DonationManager.customAmount DonationManager.anonymousCheckbox
           DonationManager.featuredCheckbox DonationManager.partnerProgram
           DonationManager.toastContainer DonationManager.submitBtn
           DonationManager.processed].
    rewrite length_app. cbn [length]. repeat split; try reflexivity. lia.
Qed.

(** The example forms, against an operation that always rejects, keep what
    was typed. *)
Lemma C8_rejected_submission_keeps_input_witness :
  TicketManager.values
    (TicketManager.handleSubmit (fun _ => Form.Rejected)
       TicketManager.example_env TicketManager.example_form)
  = TicketManager.values TicketManager.example_form
  /\ DonationManager.values
       (DonationManager.handleSubmit (fun _ => Form.Rejected)
          DonationManager.example_form)
     = DonationManager.values DonationManager.example_form.
Proof.
  split.
  - apply (proj1 C8_rejected_submission_keeps_input (fun _ => Form.Rejected)
             TicketManager.example_env TicketManager.example_form).
    + intros i. destruct i; reflexivity.
    + reflexivity.
  - apply (proj2 C8_rejected_submission_keeps_input (fun _ => Form.Rejected)
             DonationManager.example_form).
    + discriminate.
    + discriminate.
    + reflexivity.
    + reflexivity.
Defined.

(** * Further properties of the scripts *)

(** ** Phone numbers on the sign-in page *)

Module PhoneFacts.
Import JS Regex RegexFacts JSFacts FormValidator FormValidatorFacts.
Import AuthenticationManager.

Lemma digit_not_space c : is_digit c = true -> is_space c = false.
Proof. code_units. Qed.

Lemma digit_phone_char c : is_digit c = true -> phone_char c = true.
Proof. unfold phone_char. by intros ->. Qed.

Lemma filter_all (p : N -> bool) s :
  forallb p s = true -> List.filter p s = s.
Proof.
  induction s as [|c s IH]; [done|]. simpl.
  intros [Hc Hs]%andb_true_iff. rewrite Hc. by rewrite IH.
Qed.

Lemma forallb_filter (p : N -> bool) s : forallb p (List.filter p s) = true.
Proof.
  induction s as [|c s IH]; [done|]. simpl.
  destruct (p c) eqn:Hc; [|done]. simpl. by rewrite Hc.
Qed.

Lemma lang_class_cons p r s :
  lang (Cat (Class p) r) s
  <-> exists c t, s = c :: t /\ p c = true /\ lang r t.
Proof.
  rewrite lang_cat_iff. split.
  - intros (s1 & s2 & -> & H1 & H2).
    apply lang_class_iff in H1 as (c & -> & Hc). by exists c, s2.
  - intros (c & t & -> & Hc & Ht). exists [c], t.
    split; [done|]. split; [by constructor|done].
Qed.

(** The pattern of [formatPhoneNumber] accepts the runs of ten digits. *)
Lemma ten_digits_shape s :
  test ten_digits s = true
  <-> length s = 10%nat /\ forallb is_digit s = true.
Proof.
  rewrite test_lang. unfold ten_digits. cbv zeta. split.
  - intros H.
    apply lang_cat_iff in H as (s1 & s2 & -> & H1 & H2).
    apply lang_cat_iff in H2 as (s3 & s4 & -> & H3 & H4).
    apply lang_class_cons in H1 as (a & t1 & -> & Ha & H1).
    apply lang_class_cons in H1 as (b & t2 & -> & Hb & H1).
    apply lang_class_iff in H1 as (c & -> & Hc).
    apply lang_class_cons in H3 as (d & t3 & -> & Hd & H3).
    apply lang_class_cons in H3 as (e & t4 & -> & He & H3).
    apply lang_class_iff in H3 as (f & -> & Hf).
    apply lang_class_cons in H4 as (g & t5 & -> & Hg & H4).
    apply lang_class_cons in H4 as (h & t6 & -> & Hh & H4).
    apply lang_class_cons in H4 as (i & t7 & -> & Hi & H4).
    apply lang_class_iff in H4 as (j & -> & Hj).
    simpl. rewrite Ha, Hb, Hc, Hd, He, Hf, Hg, Hh, Hi, Hj. done.
  - intros [Hl Hf].
    destruct s as [|a [|b [|c [|d [|e [|f [|g [|h [|i [|j [|]]]]]]]]]]];
      try discriminate.
    simpl in Hf. repeat (apply andb_true_iff in Hf as [? Hf]).
    change [a; b; c; d; e; f; g; h; i; j]
      with ([a; b; c] ++ [d; e; f] ++ [g; h; i; j]).
    repeat first
      [ apply lang_cat
      | apply lang_class_cons; eexists _, _; split; [reflexivity|split; [eassumption|]]
      | by apply lang_class ].
Qed.

(** [validatePhone] accepts exactly the strings of phone characters with
    at least ten digits. *)
Lemma validatePhone_valid_iff phone :
  isValid (validatePhone phone) = true
  <-> (10 <= length (List.filter is_digit phone))%nat
      /\ forallb phone_char phone = true.
Proof.
  unfold validatePhone, rules.phone_minLength.
  destruct (truthy phone) eqn:Ht; simpl.
  2: { destruct phone; [|discriminate]. simpl. split; [discriminate|lia]. }
  destruct (is_empty (trim phone)) eqn:He; simpl.
  { destruct (trim phone) eqn:Etrim; [|discriminate].
    apply trim_nil in Etrim. rewrite (spaces_have_no_digit _ Etrim).
    simpl. split; [discriminate|lia]. }
  destruct (Nat.ltb_spec (length (List.filter is_digit phone)) 10); simpl.
  { split; [discriminate|lia]. }
  destruct (test rules.phone_pattern phone) eqn:Hp; simpl.
  - apply phone_pattern_shape in Hp as [_ Hp]. split; [done|done].
  - split; [discriminate|]. intros [_ Hc].
    assert (test rules.phone_pattern phone = true); [|congruence].
    apply phone_pattern_shape. split; [|done]. by destruct phone.
Qed.

(** The digits of the two formatted shapes. *)
Ltac digit_hyps H :=
  simpl in H; repeat (apply andb_true_iff in H as [? H]); clear H.

Ltac use_digits :=
  repeat match goal with
    | H : is_digit ?c = true |- context [is_digit ?c] => rewrite H
    end.

Ltac const_chars :=
  change (is_digit 40) with false; change (is_digit 41) with false;
  change (is_digit 32) with false; change (is_digit 45) with false;
  change (phone_char 40) with true; change (phone_char 41) with true;
  change (phone_char 32) with true; change (phone_char 45) with true.

Lemma cleaned_digits phone :
  forallb is_digit (List.filter is_digit phone) = true.
Proof. apply forallb_filter. Qed.

(** [formatPhoneNumber] on a string with the ten digits [a] to [j]. *)
Lemma formatPhoneNumber_ten phone a b c d e f g h i j :
  List.filter is_digit phone = [a; b; c; d; e; f; g; h; i; j] ->
  formatPhoneNumber phone = [40; a; b; c; 41; 32; d; e; f; 45; g; h; i; j].
Proof.
  intros H. unfold formatPhoneNumber. cbv zeta.
  pose proof (cleaned_digits phone) as Hd. rewrite H in *.
  assert (test ten_digits [a; b; c; d; e; f; g; h; i; j] = true) as ->.
  { apply ten_digits_shape. by split. }
  reflexivity.
Qed.

Lemma formatPhoneNumber_other phone :
  length (List.filter is_digit phone) <> 10%nat ->
  formatPhoneNumber phone = phone.
Proof.
  intros H. unfold formatPhoneNumber. cbv zeta.
  destruct (test ten_digits _) eqn:Ht; [|done].
  apply ten_digits_shape in Ht as [Hl _]. done.
Qed.

Lemma formatted_digits a b c d e f g h i j :
  forallb is_digit [a; b; c; d; e; f; g; h; i; j] = true ->
  List.filter is_digit [40; a; b; c; 41; 32; d; e; f; 45; g; h; i; j]
  = [a; b; c; d; e; f; g; h; i; j].
Proof.
  intros H. digit_hyps H. cbn [List.filter].
  change (is_digit 40) with false. change (is_digit 41) with false.
  change (is_digit 32) with false. change (is_digit 45) with false.
  use_digits. reflexivity.
Qed.

Lemma formatted_chars a b c d e f g h i j :
  forallb is_digit [a; b; c; d; e; f; g; h; i; j] = true ->
  forallb phone_char [40; a; b; c; 41; 32; d; e; f; 45; g; h; i; j] = true.
Proof.
  intros H. digit_hyps H. cbn [forallb].
  change (phone_char 40) with true. change (phone_char 41) with true.
  change (phone_char 32) with true. change (phone_char 45) with true.
  rewrite !digit_phone_char by assumption. reflexivity.
Qed.

End PhoneFacts.

(** X1.  [formatPhoneNumber] on a string that holds exactly ten digits
    gives [(ddd) ddd-dddd] with those digits in order, and
    [FormValidator.validatePhone] accepts the result; a string with any
    other number of digits is returned as it is. *)
Theorem X1_formatPhoneNumber_ten_digits (phone : list N) :
  let cleaned := AuthenticationManager.digitsOnly phone in
  (length cleaned = 10%nat ->
   AuthenticationManager.formatPhoneNumber phone
   = 40 :: take 3 cleaned ++ [41; 32] ++ take 3 (drop 3 cleaned) ++ [45]
       ++ drop 6 cleaned
   /\ FormValidator.isValid
        (FormValidator.validatePhone
           (AuthenticationManager.formatPhoneNumber phone)) = true)
  /\ (length cleaned <> 10%nat ->
      AuthenticationManager.formatPhoneNumber phone = phone).
Proof.
  cbv zeta. unfold AuthenticationManager.digitsOnly. split.
  - intros Hl. pose proof (PhoneFacts.cleaned_digits phone) as Hd.
    destruct (List.filter is_digit phone)
      as [|a [|b [|c [|d [|e [|f [|g [|h [|i [|j [|]]]]]]]]]]] eqn:Hc;
      try discriminate.
    rewrite (PhoneFacts.formatPhoneNumber_ten phone a b c d e f g h i j Hc).
    split; [reflexivity|].
    apply PhoneFacts.validatePhone_valid_iff.
    rewrite PhoneFacts.formatted_digits by exact Hd.
    split; [cbn [length]; lia|by apply PhoneFacts.formatted_chars].
  - apply PhoneFacts.formatPhoneNumber_other.
Qed.

(** A number typed with dots is formatted and then valid. *)
Lemma X1_formatPhoneNumber_ten_digits_witness :
  AuthenticationManager.formatPhoneNumber (str "555.123.4567")
  = str "(555) 123-4567"
  /\ FormValidator.isValid
       (FormValidator.validatePhone
          (AuthenticationManager.formatPhoneNumber (str "555.123.4567")))
     = true.
Proof.
  apply (proj1 (X1_formatPhoneNumber_ten_digits (str "555.123.4567"))).
  reflexivity.
Defined.

(** X2.  [formatPhoneNumber] keeps the digits of its argument, in order,
    and formatting twice is formatting once. *)
Theorem X2_formatPhoneNumber_idempotent (phone : list N) :
  AuthenticationManager.digitsOnly
    (AuthenticationManager.formatPhoneNumber phone)
  = AuthenticationManager.digitsOnly phone
  /\ AuthenticationManager.formatPhoneNumber
       (AuthenticationManager.formatPhoneNumber phone)
     = AuthenticationManager.formatPhoneNumber phone.
Proof.
  unfold AuthenticationManager.digitsOnly.
  destruct (Nat.eq_dec (length (List.filter is_digit phone)) 10%nat)
    as [Hl|Hl].
  - pose proof (PhoneFacts.cleaned_digits phone) as Hd.
    destruct (List.filter is_digit phone)
      as [|a [|b [|c [|d [|e [|f [|g [|h [|i [|j [|]]]]]]]]]]] eqn:Hc;
      try discriminate.
    rewrite (PhoneFacts.formatPhoneNumber_ten phone a b c d e f g h i j Hc).
    pose proof (PhoneFacts.formatted_digits a b c d e f g h i j Hd) as Hf.
    split; [exact Hf|].
    exact (PhoneFacts.formatPhoneNumber_ten _ a b c d e f g h i j Hf).
  - rewrite !(PhoneFacts.formatPhoneNumber_other phone Hl). done.
Qed.

(** ** The listener that formats the phone input *)

Module PhoneInputFacts.
Import JS Regex RegexFacts JSFacts FormValidator FormValidatorFacts.

(** What the listener shows for what was typed. *)
Lemma input_formatting (value : list N) :
  let typed := AuthenticationManager.digitsOnly value in
  let shown := AuthenticationManager.attachPhoneFormatting_input value in
  AuthenticationManager.digitsOnly shown = take 10 typed
  /\ AuthenticationManager.attachPhoneFormatting_input shown = shown
  /\ (FormValidator.isValid (FormValidator.validatePhone shown) = true
      <-> (10 <= length typed)%nat)
  /\ (length typed = 10%nat ->
      shown = AuthenticationManager.formatPhoneNumber value).
Proof.
  cbv zeta. unfold AuthenticationManager.digitsOnly.
  pose proof (eq_refl (AuthenticationManager.attachPhoneFormatting_input value))
    as Hs.
  unfold AuthenticationManager.attachPhoneFormatting_input in Hs at 2.
  cbv zeta in Hs.
  pose proof (PhoneFacts.cleaned_digits value) as Hd.
  destruct (List.filter is_digit value)
    as [|a [|b [|c [|d [|e [|f [|g [|h [|i [|j rest]]]]]]]]]] eqn:Hc.
  all: change (str ") ") with [41; 32] in Hs.
  all: cbn [length Nat.ltb Nat.leb firstn skipn app] in Hs.
  11: change (take 0 rest) with (@nil N) in Hs.
  all: rewrite Hs; clear Hs; cbn [firstn].
  11: change (take 0 rest) with (@nil N).
  all: simpl in Hd; repeat (apply andb_true_iff in Hd as [? Hd]).
  all: match goal with
       | |- List.filter is_digit ?s = ?ds /\ _ =>
           assert (Hf : List.filter is_digit s = ds)
             by (cbn [List.filter]; PhoneFacts.const_chars;
                 PhoneFacts.use_digits; reflexivity)
       end.
  all: split; [exact Hf|].
  all: split;
    [unfold AuthenticationManager.attachPhoneFormatting_input; rewrite Hf;
     reflexivity|].
  all: rewrite PhoneFacts.validatePhone_valid_iff, Hf; cbn [length].
  1-10: split; [split; [intros [Hx _]; clear -Hx; lia
                       |intros Hx; exfalso; clear -Hx; lia]
               |intros Hx; discriminate Hx].
  split.
  - split; [intros _; clear; lia|]. intros _. split; [clear; lia|].
    apply PhoneFacts.formatted_chars. cbn [forallb].
    PhoneFacts.use_digits. reflexivity.
  - intros Hl. destruct rest; [|discriminate].
    symmetry. by apply PhoneFacts.formatPhoneNumber_ten.
Qed.

(** The message for a text with fewer than ten digits: the required
    message when no digit was typed, the format message otherwise. *)
Lemma input_invalid_message (value : list N) :
  (length (AuthenticationManager.digitsOnly value) < 10)%nat ->
  validatePhone (AuthenticationManager.attachPhoneFormatting_input value)
  = {| isValid := false;
       message :=
         if is_empty (AuthenticationManager.digitsOnly value)
         then str "Phone number is required" else rules.phone_message |}.
Proof.
  intros Hl.
  destruct (input_formatting value) as (Hd & _ & _ & _). cbv zeta in Hd.
  unfold AuthenticationManager.digitsOnly in *.
  rewrite firstn_all2 in Hd by lia.
  unfold validatePhone. rewrite Hd.
  destruct (AuthenticationManager.attachPhoneFormatting_input value)
    as [|c shown] eqn:Hs.
  { simpl in Hd. rewrite <- Hd. reflexivity. }
  assert (Hc : c = 40).
  { unfold AuthenticationManager.attachPhoneFormatting_input in Hs.
    cbv zeta in Hs.
    destruct (0 <? length (List.filter is_digit value))%nat eqn:H0.
    - destruct (length (List.filter is_digit value) <=? 3)%nat;
        [|destruct (length (List.filter is_digit value) <=? 6)%nat];
        by inversion Hs.
    - apply Nat.ltb_ge in H0.
      destruct (List.filter is_digit value); [discriminate|simpl in H0; lia]. }
  subst c. cbn [truthy is_empty negb orb].
  destruct (trim (40 :: shown)) eqn:Ht.
  { apply trim_nil in Ht. discriminate. }
  cbn [is_empty]. unfold rules.phone_minLength.
  destruct (List.filter is_digit value) as [|d ds] eqn:Hv.
  { unfold AuthenticationManager.attachPhoneFormatting_input in Hs.
    rewrite Hv in Hs. discriminate Hs. }
  cbn [is_empty].
  destruct (Nat.ltb_spec (length (d :: ds)) 10); [done|lia].
Qed.

End PhoneInputFacts.

(** X3.  The listener that formats the phone input while the user types
    keeps the first ten digits typed, in order, and nothing else of the
    text; applied to its own result it changes nothing; its result passes
    [FormValidator.validatePhone] exactly when at least ten digits were
    typed; and on a text with exactly ten digits it agrees with
    [formatPhoneNumber]. *)
Theorem X3_phone_input_formatting (value : list N) :
  let typed := AuthenticationManager.digitsOnly value in
  let shown := AuthenticationManager.attachPhoneFormatting_input value in
  AuthenticationManager.digitsOnly shown = take 10 typed
  /\ AuthenticationManager.attachPhoneFormatting_input shown = shown
  /\ (FormValidator.isValid (FormValidator.validatePhone shown) = true
      <-> (10 <= length typed)%nat)
  /\ (length typed = 10%nat ->
      shown = AuthenticationManager.formatPhoneNumber value).
Proof. exact (PhoneInputFacts.input_formatting value). Qed.

(** Ten digits typed without punctuation are shown as
    [formatPhoneNumber] would print them. *)
Lemma X3_phone_input_formatting_witness :
  AuthenticationManager.attachPhoneFormatting_input (str "5551234567")
  = AuthenticationManager.formatPhoneNumber (str "5551234567").
Proof.
  apply (X3_phone_input_formatting (str "5551234567")). reflexivity.
Defined.

(** ** The sign-in forms *)

Module AuthFacts.
Import ToastManager Form AuthenticationManager.

(** What [showError] changes: the marks of its input, the element that
    shows its message, the shake of the parent and the timer that ends
    it. *)
Lemma auth_showError_other i j message st :
  j <> i -> get_field j (showError i message st) = get_field j st.
Proof.
  intros Hj. unfold showError. cbv zeta. cbn [errorElements set_field].
  destruct (errorElements st !! errorId i); destruct i, j; done.
Qed.

Lemma auth_showError_self i message st :
  get_field i (showError i message st)
  = {| value := value (get_field i st);
       default_value := default_value (get_field i st);
       has_error := true; aria_invalid := Some (str "true") |}.
Proof.
  unfold showError. cbv zeta. cbn [errorElements set_field].
  destruct (errorElements st !! errorId i); by destruct i.
Qed.

Lemma auth_showError_errors_other i k message st :
  k <> errorId i ->
  errorElements (showError i message st) !! k = errorElements st !! k.
Proof.
  intros Hk. unfold showError. cbv zeta. cbn [errorElements set_field].
  destruct (errorElements st !! errorId i); [|done].
  cbn [add_timer set_shaking set_errors errorElements].
  by rewrite lookup_insert_ne.
Qed.

Lemma auth_showError_errors_self i message st :
  errorElements (showError i message st) !! errorId i
  = (fun _ => {| error_text := message; error_role := Some (str "alert") |})
      <$> errorElements st !! errorId i.
Proof.
  unfold showError. cbv zeta. cbn [errorElements set_field].
  destruct (errorElements st !! errorId i) eqn:He; [|done].
  cbn [add_timer set_shaking set_errors errorElements].
  by rewrite lookup_insert_eq.
Qed.

Lemma auth_showError_frame i message st :
  countryCode (showError i message st) = countryCode st
  /\ emailSubmitBtn (showError i message st) = emailSubmitBtn st
  /\ phoneSubmitBtn (showError i message st) = phoneSubmitBtn st
  /\ toastContainer (showError i message st) = toastContainer st
  /\ authenticated (showError i message st) = authenticated st
  /\ codes_sent (showError i message st) = codes_sent st
  /\ location_href (showError i message st) = location_href st
  /\ parentElement (showError i message st) = parentElement st.
Proof.
  unfold showError. cbv zeta. cbn [errorElements set_field].
  by destruct (errorElements st !! errorId i).
Qed.

(** The shake: the parent of the input carries the class, and one timer
    of 500 ms waits to take it off. *)
Lemma auth_showError_shake i message st :
  timers (showError i message st) = timers st ++ [(500%Z, StopShake i)]
  /\ shaking (showError i message st)
     = {[parentElement st i]} ∪ shaking st.
Proof.
  unfold showError. cbv zeta. cbn [errorElements set_field].
  by destruct (errorElements st !! errorId i).
Qed.

(** The password input is read after the e-mail input was reported on. *)
Lemma validateInput_fst v i st :
  fst (validateInput v i st)
  = if FormValidator.isValid (v (value (get_field i st))) then st
    else showError i (FormValidator.message (v (value (get_field i st)))) st.
Proof. unfold validateInput. by destruct (FormValidator.isValid _). Qed.

Lemma validateInput_snd v i st :
  snd (validateInput v i st)
  = FormValidator.isValid (v (value (get_field i st))).
Proof. reflexivity. Qed.


(** An e-mail form with an invalid input: both inputs are reported on,
    nothing is sent. *)
Lemma email_invalid (authenticate : list N -> list N -> settled) (st : state) :
  let ve := FormValidator.validateEmail (Form.value (f_email st)) in
  let vp := FormValidator.validatePassword (Form.value (f_password st)) in
  FormValidator.isValid ve = false \/ FormValidator.isValid vp = false ->
  let st' := handleEmailSubmit authenticate st in
  authenticated st' = authenticated st
  /\ toastContainer st' = toastContainer st
  /\ emailSubmitBtn st' = emailSubmitBtn st
  /\ timers st'
     = timers st
       ++ (if FormValidator.isValid ve then []
           else [(500%Z, StopShake emailInput)])
       ++ (if FormValidator.isValid vp then []
           else [(500%Z, StopShake passwordInput)])
  /\ (forall p,
        p ∈ shaking st'
        <-> p ∈ shaking st
            \/ (FormValidator.isValid ve = false
                /\ p = parentElement st emailInput)
            \/ (FormValidator.isValid vp = false
                /\ p = parentElement st passwordInput))
  /\ Form.value (f_email st') = Form.value (f_email st)
  /\ Form.value (f_password st') = Form.value (f_password st)
  /\ (FormValidator.isValid ve = false ->
      TicketManager.marked (f_email st')
      /\ error_text <$> errorElements st' !! errorId emailInput
         = (fun _ => FormValidator.message ve)
             <$> errorElements st !! errorId emailInput)
  /\ (FormValidator.isValid vp = false ->
      TicketManager.marked (f_password st')
      /\ error_text <$> errorElements st' !! errorId passwordInput
         = (fun _ => FormValidator.message vp)
             <$> errorElements st !! errorId passwordInput)
  /\ (FormValidator.isValid ve = true ->
      f_email st' = f_email st
      /\ errorElements st' !! errorId emailInput
         = errorElements st !! errorId emailInput)
  /\ (FormValidator.isValid vp = true ->
      f_password st' = f_password st
      /\ errorElements st' !! errorId passwordInput
         = errorElements st !! errorId passwordInput).
Proof.
  cbv zeta. intros Hinv.
  unfold handleEmailSubmit, handleEmailSubmit_begin,
    validateEmailInput, validatePasswordInput.
  pose proof (validateInput_fst FormValidator.validateEmail
                emailInput st) as H1.
  pose proof (validateInput_snd FormValidator.validateEmail
                emailInput st) as H1'.
  destruct (validateInput FormValidator.validateEmail emailInput st)
    as [st1 emailValid].
  cbn [fst snd get_field] in H1, H1'. subst emailValid.
  pose proof (validateInput_fst FormValidator.validatePassword
                passwordInput st1) as H2.
  pose proof (validateInput_snd FormValidator.validatePassword
                passwordInput st1) as H2'.
  destruct (validateInput FormValidator.validatePassword passwordInput st1)
    as [st2 passwordValid].
  cbn [fst snd get_field] in H2, H2'. subst passwordValid.
  assert (Hpw : f_password st1 = f_password st).
  { subst st1. destruct (FormValidator.isValid _); [done|].
    by apply (auth_showError_other emailInput passwordInput). }
  rewrite Hpw in *. clear Hpw.
  set (ve := FormValidator.validateEmail _) in *.
  set (vp := FormValidator.validatePassword _) in *.
  assert (negb (FormValidator.isValid ve) || negb (FormValidator.isValid vp)
          = true) as ->.
  { destruct Hinv as [-> | ->]; [done|by destruct (FormValidator.isValid ve)]. }
  clear Hinv.
  change (f_email ?x) with (get_field emailInput x).
  change (f_password ?x) with (get_field passwordInput x).
  assert (Hne : errorId passwordInput <> errorId emailInput) by by vm_compute.
  assert (Hne' : errorId emailInput <> errorId passwordInput) by by vm_compute.
  pose proof (auth_showError_frame emailInput
                (FormValidator.message ve) st)
    as (_ & Fb & _ & Ft & Fa & _ & _ & Fq).
  pose proof (auth_showError_shake emailInput
                (FormValidator.message ve) st) as (Fi & Fs).
  pose proof (auth_showError_frame passwordInput
                (FormValidator.message vp) st1)
    as (_ & Gb & _ & Gt & Ga & _ & _ & Gq).
  pose proof (auth_showError_shake passwordInput
                (FormValidator.message vp) st1) as (Gi & Gs).
  destruct (FormValidator.isValid ve) eqn:Ee,
           (FormValidator.isValid vp) eqn:Ep; subst st1 st2.
  all: rewrite ?Ga, ?Gt, ?Gb, ?Gi, ?Gs, ?Gq, ?Fa, ?Ft, ?Fb, ?Fi, ?Fs, ?Fq.
  all: rewrite ?auth_showError_self,
         ?auth_showError_errors_self,
         ?(auth_showError_other passwordInput emailInput),
         ?(auth_showError_other emailInput passwordInput),
         ?(auth_showError_errors_other passwordInput _ _ _ Hne'),
         ?(auth_showError_errors_other emailInput _ _ _ Hne),
         ?auth_showError_self,
         ?auth_showError_errors_self by done.
  all: repeat split; try done; try discriminate.
  all: try by destruct (errorElements st !! _).
  all: try (cbn [app]; rewrite ?app_nil_r, <- ?app_assoc; done).
  all: rewrite ?elem_of_union, ?elem_of_singleton.
  all: intuition (subst; auto; try discriminate).
Qed.



(** The phone form: the value is read once, reported on when invalid and
    sent behind the country code when valid. *)
Lemma phone_invalid (sendCode : list N -> settled) (st : state) :
  FormValidator.isValid (FormValidator.validatePhone (value (f_phone st)))
  = false ->
  handlePhoneSubmit sendCode st
  = showError phoneInput
      (FormValidator.message
         (FormValidator.validatePhone (value (f_phone st)))) st.
Proof.
  intros H.
  unfold handlePhoneSubmit, handlePhoneSubmit_begin, validatePhoneInput,
    validateInput.
  cbn [get_field]. rewrite H. reflexivity.
Qed.

Lemma phone_valid (st : state) :
  FormValidator.isValid (FormValidator.validatePhone (value (f_phone st)))
  = true ->
  handlePhoneSubmit sendVerificationCode st
  = add_timer 2000 RestoreButton
      (toast (str "Verification code sent!") success
         (call_sendVerificationCode (countryCode st ++ value (f_phone st))
            (set_phoneBtn (setLoadingState true) st))).
Proof.
  intros H.
  unfold handlePhoneSubmit, handlePhoneSubmit_begin, validatePhoneInput,
    validateInput.
  cbn [get_field]. rewrite H. reflexivity.
Qed.

End AuthFacts.

Section SignIn.
Import AuthenticationManager.

(** X4.  A submit of the e-mail form in which the e-mail or the password
    fails its validator: [authenticateWithEmail] is not called, no toast is
    shown, the button is untouched and what was typed stays.  Both inputs
    are validated whatever the first one gave: each failing input is marked
    and its error element, when the page has it, shows the message of its
    validator; an input that passes is left as it was.  The parent of each
    failing input gets the class [shake], and the only timers added are
    the 500 ms timers that take that class off, one for each failing
    input, the e-mail's first. *)
Theorem X4_signin_invalid_not_sent
    (authenticate : list N -> list N -> AuthenticationManager.settled)
    (st : AuthenticationManager.state) :
  let ve := FormValidator.validateEmail (Form.value (f_email st)) in
  let vp := FormValidator.validatePassword (Form.value (f_password st)) in
  FormValidator.isValid ve = false \/ FormValidator.isValid vp = false ->
  let st' := handleEmailSubmit authenticate st in
  authenticated st' = authenticated st
  /\ toastContainer st' = toastContainer st
  /\ emailSubmitBtn st' = emailSubmitBtn st
  /\ timers st'
     = timers st
       ++ (if FormValidator.isValid ve then []
           else [(500%Z, StopShake emailInput)])
       ++ (if FormValidator.isValid vp then []
           else [(500%Z, StopShake passwordInput)])
  /\ (forall p,
        p ∈ shaking st'
        <-> p ∈ shaking st
            \/ (FormValidator.isValid ve = false
                /\ p = parentElement st emailInput)
            \/ (FormValidator.isValid vp = false
                /\ p = parentElement st passwordInput))
  /\ Form.value (f_email st') = Form.value (f_email st)
  /\ Form.value (f_password st') = Form.value (f_password st)
  /\ (FormValidator.isValid ve = false ->
      TicketManager.marked (f_email st')
      /\ error_text <$> errorElements st' !! errorId emailInput
         = (fun _ => FormValidator.message ve)
             <$> errorElements st !! errorId emailInput)
  /\ (FormValidator.isValid vp = false ->
      TicketManager.marked (f_password st')
      /\ error_text <$> errorElements st' !! errorId passwordInput
         = (fun _ => FormValidator.message vp)
             <$> errorElements st !! errorId passwordInput)
  /\ (FormValidator.isValid ve = true ->
      f_email st' = f_email st
      /\ errorElements st' !! errorId emailInput
         = errorElements st !! errorId emailInput)
  /\ (FormValidator.isValid vp = true ->
      f_password st' = f_password st
      /\ errorElements st' !! errorId passwordInput
         = errorElements st !! errorId passwordInput).
Proof. exact (AuthFacts.email_invalid authenticate st). Qed.

(** The page with a malformed e-mail and a short password: nothing is
    sent. *)
Lemma X4_signin_invalid_not_sent_witness :
  authenticated (handleEmailSubmit authenticateWithEmail invalid_page)
  = authenticated invalid_page.
Proof.
  apply (X4_signin_invalid_not_sent authenticateWithEmail invalid_page).
  left. reflexivity.
Defined.



(** X6.  The phone form on a value that the formatting listener produced
    from the text typed.  With at least ten digits typed the code is sent
    once to the country code followed by the formatted value, the success
    toast is shown, nothing shakes, and the button is busy (disabled, its
    text hidden, its loader shown) until the callback scheduled after
    2000 ms puts it back to idle (enabled, its text shown, its loader
    hidden).  With fewer digits nothing is sent and no toast is shown; the
    input is marked, with the required message when no digit was typed and
    the format message otherwise; its parent gets the class [shake], and
    the one timer added is the 500 ms timer that takes that class off. *)
Theorem X6_phone_submit (typed : list N) (st : state) :
  Form.value (f_phone st) = attachPhoneFormatting_input typed ->
  let st' := handlePhoneSubmit sendVerificationCode st in
  ((10 <= length (digitsOnly typed))%nat ->
   codes_sent st'
   = codes_sent st ++ [countryCode st ++ attachPhoneFormatting_input typed]
   /\ toastContainer st'
      = toastContainer st
          ++ [{| ToastManager.text := str "Verification code sent!";
                 ToastManager.type := ToastManager.success;
                 ToastManager.duration := 4000 |}]
   /\ timers st' = timers st ++ [(2000%Z, RestoreButton)]
   /\ shaking st' = shaking st
   /\ phoneSubmitBtn st'
      = {| Form.disabled := true; Form.btnText_hidden := true;
           Form.btnLoader_hidden := false |}
   /\ phoneSubmitBtn (run_callback RestoreButton st')
      = {| Form.disabled := false; Form.btnText_hidden := false;
           Form.btnLoader_hidden := true |}
   /\ f_phone st' = f_phone st)
  /\ ((length (digitsOnly typed) < 10)%nat ->
      codes_sent st' = codes_sent st
      /\ toastContainer st' = toastContainer st
      /\ timers st' = timers st ++ [(500%Z, StopShake phoneInput)]
      /\ shaking st' = {[parentElement st phoneInput]} ∪ shaking st
      /\ shaking (run_callback (StopShake phoneInput) st')
         = shaking st ∖ {[parentElement st phoneInput]}
      /\ phoneSubmitBtn st' = phoneSubmitBtn st
      /\ Form.value (f_phone st') = Form.value (f_phone st)
      /\ TicketManager.marked (f_phone st')
      /\ error_text <$> errorElements st' !! errorId phoneInput
         = (fun _ =>
              if is_empty (digitsOnly typed)
              then str "Phone number is required"
              else str "Please enter a valid phone number")
             <$> errorElements st !! errorId phoneInput).
Proof.
  intros Hv. cbv zeta. split.
  - intros Hl.
    assert (Hok : FormValidator.isValid
                    (FormValidator.validatePhone (Form.value (f_phone st)))
                  = true).
    { rewrite Hv. by apply PhoneInputFacts.input_formatting. }
    rewrite (AuthFacts.phone_valid st Hok), Hv. repeat split.
  - intros Hl.
    pose proof (PhoneInputFacts.input_invalid_message typed Hl) as Hm.
    rewrite <- Hv in Hm.
    rewrite (AuthFacts.phone_invalid sendVerificationCode st)
      by (by rewrite Hm).
    rewrite Hm. cbn [FormValidator.message].
    set (message := if is_empty (digitsOnly typed)
                    then str "Phone number is required"
                    else FormValidator.rules.phone_message).
    destruct (AuthFacts.auth_showError_frame phoneInput message st)
      as (_ & _ & Hb & Ht & _ & Hc & _ & Hq).
    destruct (AuthFacts.auth_showError_shake phoneInput message st)
      as (Hi & Hs).
    unfold run_callback. cbn [shaking set_shaking].
    rewrite Hb, Ht, Hc, Hq, Hi, Hs.
    change (f_phone ?x) with (get_field phoneInput x).
    rewrite AuthFacts.auth_showError_self,
      AuthFacts.auth_showError_errors_self.
    repeat split; [|by destruct (errorElements st !! _)].
    apply leibniz_equiv. intros p.
    rewrite !elem_of_difference, elem_of_union, elem_of_singleton. tauto.
Qed.

(** Ten digits typed on the example page. *)
Lemma X6_phone_submit_witness :
  codes_sent (handlePhoneSubmit sendVerificationCode example_page)
  = [str "+1(555) 123-4567"].
Proof.
  apply (proj1 (X6_phone_submit (str "5551234567") example_page eq_refl)).
  vm_compute. lia.
Defined.

(** X7.  On the sign-in page [clearError] undoes [showError]: the input
    loses the class [error] and [aria-invalid], its error element, when the
    page has it, is emptied, the value typed stays, and no other input or
    error element changes. *)
Theorem X7_signin_clearError (i : input) (message : list N) (st : state) :
  let st' := clearError i (showError i message st) in
  Form.has_error (get_field i st') = false
  /\ Form.aria_invalid (get_field i st') = None
  /\ Form.value (get_field i st') = Form.value (get_field i st)
  /\ error_text <$> errorElements st' !! errorId i
     = (fun _ => []) <$> errorElements st !! errorId i
  /\ (forall j, j <> i -> get_field j st' = get_field j st)
  /\ (forall k, k <> errorId i ->
      errorElements st' !! k = errorElements st !! k).
Proof.
  cbv zeta. unfold clearError. cbv zeta. cbn [errorElements set_field].
  rewrite AuthFacts.auth_showError_errors_self.
  pose proof (AuthFacts.auth_showError_self i message st) as Hs.
  destruct (errorElements st !! errorId i) as [el|] eqn:He;
    cbn [fmap option_fmap option_map].
  - cbn [set_errors errorElements get_field set_field f_email f_password f_phone].
    rewrite lookup_insert_eq.
    split; [by destruct i|]. split; [by destruct i|].
    split; [destruct i; cbn [Form.value]; by rewrite Hs|].
    split; [done|].
    split.
    + intros j Hj.
      rewrite <- (AuthFacts.auth_showError_other i j message st Hj).
      destruct i, j; done.
    + intros k Hk. rewrite lookup_insert_ne by done.
      by apply AuthFacts.auth_showError_errors_other.
  - cbn [get_field set_field f_email f_password f_phone errorElements].
    split; [by destruct i|]. split; [by destruct i|].
    split; [destruct i; cbn [Form.value]; by rewrite Hs|].
    rewrite AuthFacts.auth_showError_errors_self, He.
    split; [done|].
    split.
    + intros j Hj.
      rewrite <- (AuthFacts.auth_showError_other i j message st Hj).
      destruct i, j; done.
    + intros k Hk. by apply AuthFacts.auth_showError_errors_other.
Qed.

End SignIn.

(** ** Shades of a colour *)

Module ShadeFacts.
Import Color ColorFacts JsonFacts.

Lemma nibbles x :
  (0 <= x <= 255)%Z ->
  (0 <= x / 16 < 16)%Z /\ (0 <= x mod 16 < 16)%Z
  /\ (16 * (x / 16) + x mod 16 = x)%Z.
Proof. intros H. Z.to_euclidean_division_equations. lia. Qed.

(** A colour with channels from 0 to 255 is printed by [rgbToHex] as a
    string that [hexToRgb] reads back. *)
Lemma rgb_round_trip x y z :
  (0 <= x <= 255)%Z -> (0 <= y <= 255)%Z -> (0 <= z <= 255)%Z ->
  hexToRgb (rgbToHex {| r := Some x; g := Some y; b := Some z |})
  = Some {| r := Some x; g := Some y; b := Some z |}.
Proof.
  intros Hx Hy Hz.
  rewrite ThemeFacts.rgbToHex_bytes by done.
  destruct (nibbles x Hx) as (? & ? & Ex).
  destruct (nibbles y Hy) as (? & ? & Ey).
  destruct (nibbles z Hz) as (? & ? & Ez).
  rewrite (hexToRgb_six (hex_digit (x / 16)) (hex_digit (x mod 16))
             (hex_digit (y / 16)) (hex_digit (y mod 16))
             (hex_digit (z / 16)) (hex_digit (z mod 16)));
    try (by apply hex_digit_is_hex); [|by right].
  rewrite !hex_val_digit by done. by rewrite Ex, Ey, Ez.
Qed.

Lemma adjust_range x percent :
  exists x', adjust (Some x) percent = Some x' /\ (0 <= x' <= 255)%Z.
Proof. eexists. split; [reflexivity|]. lia. Qed.

Lemma adjust_order x percent x' :
  (0 <= x <= 255)%Z ->
  adjust (Some x) percent = Some x' ->
  ((percent <= 0)%Z -> (x' <= x)%Z)
  /\ ((0 <= percent)%Z -> (x <= x')%Z)
  /\ (percent = 0%Z -> x' = x)
  /\ ((percent <= -100)%Z -> x' = 0%Z).
Proof.
  intros Hx [= <-].
  repeat split; intros Hp.
  - assert ((100 * x + x * percent) / 100 <= x)%Z; [|lia].
    apply Z.div_le_upper_bound; nia.
  - assert (x <= (100 * x + x * percent) / 100)%Z; [|lia].
    apply Z.div_le_lower_bound; nia.
  - subst. replace (100 * x + x * 0)%Z with (x * 100)%Z by lia.
    rewrite Z.div_mul by lia. lia.
  - assert ((100 * x + x * percent) / 100 <= 0)%Z; [|lia].
    apply Z.div_le_upper_bound; nia.
Qed.


Import Gamut.

Lemma adjust_channel x percent :
  channel x ->
  channel (adjust x percent)
  /\ ((percent <= 0)%Z -> le_channel (adjust x percent) x)
  /\ ((0 <= percent)%Z -> le_channel x (adjust x percent))
  /\ (percent = 0%Z -> adjust x percent = x).
Proof.
  intros (z & -> & Hz).
  destruct (adjust_order z percent _ Hz eq_refl) as (H1 & H2 & H3 & _).
  split; [eexists; split; [reflexivity|lia]|].
  split; [exact H1|]. split; [exact H2|].
  intros Hp. cbn [adjust]. f_equal. by apply H3.
Qed.

Lemma darken_channel x percent :
  channel x -> (0 <= percent <= 100)%Z ->
  channel (ThemeCustomizer.darken x percent)
  /\ le_channel (ThemeCustomizer.darken x percent) x
  /\ ThemeCustomizer.darken x percent = adjust x (- percent).
Proof.
  intros (z & -> & Hz) Hp. cbn [ThemeCustomizer.darken adjust le_channel].
  assert (E : (z * (100 - percent) = 100 * z + z * - percent)%Z) by lia.
  assert (0 <= z * (100 - percent) / 100 <= z)%Z.
  { split; [apply Z.div_pos; nia|apply Z.div_le_upper_bound; nia]. }
  split; [eexists; split; [reflexivity|lia]|].
  split; [lia|]. rewrite <- E. f_equal. lia.
Qed.

Lemma lighten_channel x percent :
  channel x -> (0 <= percent <= 100)%Z ->
  channel (ThemeCustomizer.lighten x percent)
  /\ le_channel x (ThemeCustomizer.lighten x percent).
Proof.
  intros (z & -> & Hz) Hp. cbn [ThemeCustomizer.lighten le_channel].
  assert (z <= (100 * z + (255 - z) * percent) / 100)%Z
    by (apply Z.div_le_lower_bound; nia).
  split; [eexists; split; [reflexivity|lia]|]. lia.
Qed.

Lemma gamut_round_trip c :
  in_gamut c -> hexToRgb (rgbToHex c) = Some c.
Proof.
  destruct c as [x y z]. intros H.
  unfold in_gamut, channel in H. cbn [r g b] in H.
  destruct H as ((x' & -> & Hx) & (y' & -> & Hy) & (z' & -> & Hz)).
  by apply rgb_round_trip.
Qed.

End ShadeFacts.

Section Shades.
Import Color Gamut.

(** X8.  [adjustBrightness] on a colour whose channels are integers from 0
    to 255, for a percentage in the documented range from -100 to 100:
    every channel of the result is again an integer from 0 to 255; a
    percentage of at most 0 raises no channel, one of at least 0 lowers
    none, and 0 changes nothing; and [rgbToHex] prints the result as a
    string that [hexToRgb] reads back to it. *)
Theorem X8_adjustBrightness_in_gamut (c : rgb) (percent : Z) :
  in_gamut c -> (-100 <= percent <= 100)%Z ->
  exists c',
    adjustBrightness (Some c) percent = Some c'
    /\ in_gamut c'
    /\ ((percent <= 0)%Z -> le_rgb c' c)
    /\ ((0 <= percent)%Z -> le_rgb c c')
    /\ (percent = 0%Z -> c' = c)
    /\ hexToRgb (rgbToHex c') = Some c'.
Proof.
  intros (Hr & Hg & Hb) _. eexists. split; [reflexivity|].
  destruct (ShadeFacts.adjust_channel _ percent Hr) as (R1 & R2 & R3 & R4).
  destruct (ShadeFacts.adjust_channel _ percent Hg) as (G1 & G2 & G3 & G4).
  destruct (ShadeFacts.adjust_channel _ percent Hb) as (B1 & B2 & B3 & B4).
  assert (Hin : in_gamut {| r := adjust (r c) percent;
                            g := adjust (g c) percent;
                            b := adjust (b c) percent |}) by done.
  split; [exact Hin|].
  split; [intros Hp; repeat split; cbn [r g b]; auto|].
  split; [intros Hp; repeat split; cbn [r g b]; auto|].
  split; [intros Hp; destruct c; cbn [r g b] in *; by rewrite R4, G4, B4|].
  by apply ShadeFacts.gamut_round_trip.
Qed.

(** The darker shade of the default colour. *)
Lemma X8_adjustBrightness_in_gamut_witness :
  exists c',
    adjustBrightness (Some default_rgb) (-20) = Some c'
    /\ in_gamut c'
    /\ ((-20 <= 0)%Z -> le_rgb c' default_rgb)
    /\ ((0 <= -20)%Z -> le_rgb default_rgb c')
    /\ ((-20)%Z = 0%Z -> c' = default_rgb)
    /\ hexToRgb (rgbToHex c') = Some c'.
Proof.
  apply (X8_adjustBrightness_in_gamut default_rgb (-20)).
  - repeat split; eexists; (split; [reflexivity|]); cbn; lia.
  - lia.
Defined.

(** X9.  For a colour whose channels are integers from 0 to 255,
    [rgbToHex] gives [#] and six hexadecimal digits, and [hexToRgb] reads
    that string back to the same colour. *)
Theorem X9_rgb_hex_round_trip (c : rgb) :
  in_gamut c ->
  hexToRgb (rgbToHex c) = Some c
  /\ exists ds, hex_shape (rgbToHex c) ds.
Proof.
  intros H. split; [by apply ShadeFacts.gamut_round_trip|].
  destruct c as [x y z].
  unfold in_gamut, channel in H. cbn [r g b] in H.
  destruct H as ((x' & -> & Hx) & (y' & -> & Hy) & (z' & -> & Hz)).
  rewrite ThemeFacts.rgbToHex_bytes by done.
  destruct (ShadeFacts.nibbles x' Hx) as (? & ? & _).
  destruct (ShadeFacts.nibbles y' Hy) as (? & ? & _).
  destruct (ShadeFacts.nibbles z' Hz) as (? & ? & _).
  eexists. split; [|split; [|right; reflexivity]]; [reflexivity|].
  cbn [forallb]. rewrite !JsonFacts.hex_digit_is_hex by done. reflexivity.
Qed.

(** The default colour is printed and read back. *)
Lemma X9_rgb_hex_round_trip_witness :
  hexToRgb (rgbToHex default_rgb) = Some default_rgb.
Proof.
  apply (X9_rgb_hex_round_trip default_rgb).
  repeat split; eexists; (split; [reflexivity|]); cbn; lia.
Defined.

(** X10.  ThemeCustomizer's [darkenColor] and [lightenColor] on a colour
    whose channels are integers from 0 to 255, for a percentage from 0 to
    100: the results have channels from 0 to 255 again, [darkenColor]
    raises no channel and [lightenColor] lowers none, and [darkenColor] by
    a percentage is ThemeManager's [adjustBrightness] by its opposite. *)
Theorem X10_darken_lighten (c : rgb) (percent : Z) :
  in_gamut c -> (0 <= percent <= 100)%Z ->
  exists d l,
    ThemeCustomizer.darkenColor (Some c) percent = Some d
    /\ ThemeCustomizer.lightenColor (Some c) percent = Some l
    /\ in_gamut d /\ in_gamut l
    /\ le_rgb d c /\ le_rgb c l
    /\ adjustBrightness (Some c) (- percent) = Some d.
Proof.
  intros (Hr & Hg & Hb) Hp. eexists _, _.
  split; [reflexivity|]. split; [reflexivity|].
  destruct (ShadeFacts.darken_channel _ percent Hr Hp) as (R1 & R2 & R3).
  destruct (ShadeFacts.darken_channel _ percent Hg Hp) as (G1 & G2 & G3).
  destruct (ShadeFacts.darken_channel _ percent Hb Hp) as (B1 & B2 & B3).
  destruct (ShadeFacts.lighten_channel _ percent Hr Hp) as (R4 & R5).
  destruct (ShadeFacts.lighten_channel _ percent Hg Hp) as (G4 & G5).
  destruct (ShadeFacts.lighten_channel _ percent Hb Hp) as (B4 & B5).
  split; [done|]. split; [done|]. split; [done|]. split; [done|].
  cbn [adjustBrightness]. by rewrite R3, G3, B3.
Qed.

(** The shades that [updatePrimaryColor] derives from the default colour. *)
Lemma X10_darken_lighten_witness :
  exists d l,
    ThemeCustomizer.darkenColor (Some default_rgb) 20 = Some d
    /\ ThemeCustomizer.lightenColor (Some default_rgb) 20 = Some l
    /\ in_gamut d /\ in_gamut l
    /\ le_rgb d default_rgb /\ le_rgb default_rgb l
    /\ adjustBrightness (Some default_rgb) (- 20) = Some d.
Proof.
  apply (X10_darken_lighten default_rgb 20).
  - repeat split; eexists; (split; [reflexivity|]); cbn; lia.
  - lia.
Defined.

End Shades.

(** ** What [applyColor] and [loadSavedTheme] leave behind *)

Module ApplyColorFacts.
Import JSFacts Json JsonFacts Color ColorFacts ThemeManager ThemeFacts Gamut.

Lemma hexToRgb_gamut s ds :
  hex_shape s ds -> exists c, hexToRgb s = Some c /\ in_gamut c.
Proof.
  intros (Hlen & Hhex & Hs).
  destruct (six_hex _ Hlen Hhex)
    as (a & b' & c' & d & e & f & -> & Ha & Hb & Hc & Hd & He & Hf).
  eexists. split; [by apply (hexToRgb_six a b' c' d e f)|].
  pose proof (hex_val_range _ Ha). pose proof (hex_val_range _ Hb).
  pose proof (hex_val_range _ Hc). pose proof (hex_val_range _ Hd).
  pose proof (hex_val_range _ He). pose proof (hex_val_range _ Hf).
  repeat split; eexists; (split; [reflexivity|]); cbn [r g b]; lia.
Qed.

(** The state that [applyColor] leaves on a hex colour. *)
Lemma applyColor_state color ds st :
  hex_shape color ds ->
  exists c darker lighter hover,
    hexToRgb color = Some c /\ in_gamut c
    /\ adjustBrightness (Some c) (-20) = Some darker
    /\ adjustBrightness (Some c) 20 = Some lighter
    /\ adjustBrightness (Some c) (-10) = Some hover
    /\ applyColor (Some (JStr color)) st
       = Returned
           (saveTheme
              (set_inline
                 (<[str "--primary-hover" := rgbToHex hover]>
                    (<[str "--primary-light" := rgbToHex lighter]>
                       (<[str "--primary-dark" := rgbToHex darker]>
                          (<[primary_color := color]> (inline_vars st)))))
                 st)).
Proof.
  intros Hshape.
  destruct (hexToRgb_gamut _ _ Hshape) as (c & Hc & Hin).
  exists c. do 3 eexists.
  split; [exact Hc|]. split; [exact Hin|].
  split; [reflexivity|]. split; [reflexivity|]. split; [reflexivity|].
  unfold applyColor. cbn [to_String to_DOMString].
  pose proof (hex_shape_plain _ _ Hshape) as Hplain.
  assert (Hne : is_empty color = false).
  { destruct Hshape as (Hlen & _ & [-> | ->]); [|done]. by destruct ds. }
  unfold setProperty at 1. rewrite Hne, Hplain. rewrite Hc.
  assert (Hv : exists x y z, c = {| r := Some x; g := Some y; b := Some z |}).
  { destruct c as [x y z]. destruct Hin as ((? & E1 & _) & (? & E2 & _) & (? & E3 & _)).
    cbn [r g b] in *. subst. eauto. }
  destruct (rgbToHex_plain c (-20) Hv) as (darker & Ed & Hde & Hdp).
  destruct (rgbToHex_plain c 20 Hv) as (lighter & El & Hle & Hlp).
  destruct (rgbToHex_plain c (-10) Hv) as (hover & Eh & Hhe & Hhp).
  rewrite Ed, El, Eh.
  cbn [adjustBrightness] in Ed, El, Eh.
  injection Ed as <-. injection El as <-. injection Eh as <-.
  unfold setProperty. rewrite Hde, Hdp, Hle, Hlp, Hhe, Hhp.
  reflexivity.
Qed.


Lemma saveTheme_stored st :
  localStorage (saveTheme st) !! storage_key
  = Some (stored (shown_color st) (shown_mode st)).
Proof. unfold saveTheme. cbn [localStorage]. by rewrite lookup_insert_eq. Qed.

Lemma shown_color_applied color ds a b c m st :
  hex_shape color ds ->
  shown_color
    (set_inline
       (<[str "--primary-hover" := a]>
          (<[str "--primary-light" := b]>
             (<[str "--primary-dark" := c]> (<[primary_color := color]> m))))
       st) = color.
Proof.
  intros Hshape. unfold shown_color, getPropertyValue, set_inline.
  cbn [inline_vars].
  rewrite lookup_insert_ne by apply key_hover.
  rewrite lookup_insert_ne by apply key_light.
  rewrite lookup_insert_ne by apply key_dark.
  rewrite lookup_insert_eq. by apply (hex_shape_trim _ ds).
Qed.

Lemma stored_truthy color mode : truthy (stored color mode) = true.
Proof. reflexivity. Qed.

(** [loadSavedTheme] on a store that holds a hex colour and a mode. *)
Lemma load_theme color ds mode pg :
  hex_shape color ds ->
  localStorage pg !! storage_key = Some (stored color mode) ->
  exists st',
    loadSavedTheme pg = Returned st'
    /\ shown_color st' = color
    /\ data_theme st'
       = (if str_eqb mode (str "dark") then Some (str "dark")
          else data_theme pg)
    /\ localStorage st'
       = <[storage_key := stored color (shown_mode pg)]> (localStorage pg).
Proof.
  intros Hshape Hls.
  destruct (applyColor_state color ds pg Hshape)
    as (c & darker & lighter & hover & _ & _ & _ & _ & _ & Happly).
  unfold loadSavedTheme. rewrite Hls, stored_truthy.
  unfold stored at 1. rewrite parse_theme.
  change (get _ (str "color")) with (Some (JStr color)).
  change (get _ (str "mode")) with (Some (JStr mode)).
  rewrite Happly. eexists. split; [reflexivity|].
  assert (Hcol : getPropertyValue primary_color
                   (set_inline
                      (<[str "--primary-hover" := rgbToHex hover]>
                         (<[str "--primary-light" := rgbToHex lighter]>
                            (<[str "--primary-dark" := rgbToHex darker]>
                               (<[primary_color := color]> (inline_vars pg)))))
                      pg) = color).
  { unfold getPropertyValue, set_inline. cbn [inline_vars].
    rewrite lookup_insert_ne by apply key_hover.
    rewrite lookup_insert_ne by apply key_light.
    rewrite lookup_insert_ne by apply key_dark.
    by rewrite lookup_insert_eq. }
  split.
  { unfold shown_color, getPropertyValue.
    cbn [inline_vars sheet_vars saveTheme set_inline].
    rewrite lookup_insert_ne by apply key_hover.
    rewrite lookup_insert_ne by apply key_light.
    rewrite lookup_insert_ne by apply key_dark.
    rewrite lookup_insert_eq. by apply (hex_shape_trim _ ds). }
  split; [reflexivity|].
  cbn [localStorage saveTheme]. rewrite Hcol.
  rewrite (hex_shape_trim _ ds Hshape). reflexivity.
Qed.

Lemma shown_mode_dark st :
  data_theme st = Some (str "dark") -> shown_mode st = str "dark".
Proof. unfold shown_mode. by intros ->. Qed.

Lemma shown_mode_none st : data_theme st = None -> shown_mode st = str "light".
Proof. unfold shown_mode. by intros ->. Qed.

End ApplyColorFacts.

Section AppliedColor.
Import Color Gamut.

(** X11.  [applyColor] on a colour made of an optional [#] and six
    hexadecimal digits returns; the primary colour is then the one given,
    and the three derived properties hold colours that [hexToRgb] reads
    back as [adjustBrightness] of the given colour by -20, 20 and -10; the
    store then holds the given colour with the mode the page shows. *)
Theorem X11_applyColor_shades (color ds : list N) (st : ThemeManager.state) :
  hex_shape color ds ->
  exists st' c,
    ThemeManager.applyColor (Some (Json.JStr color)) st = Returned st'
    /\ hexToRgb color = Some c /\ in_gamut c
    /\ ThemeManager.getPropertyValue ThemeManager.primary_color st' = color
    /\ hexToRgb (ThemeManager.getPropertyValue (str "--primary-dark") st')
       = adjustBrightness (Some c) (-20)
    /\ hexToRgb (ThemeManager.getPropertyValue (str "--primary-light") st')
       = adjustBrightness (Some c) 20
    /\ hexToRgb (ThemeManager.getPropertyValue (str "--primary-hover") st')
       = adjustBrightness (Some c) (-10)
    /\ ThemeManager.localStorage st' !! ThemeManager.storage_key
       = Some (ThemeManager.stored color (ThemeManager.shown_mode st)).
Proof.
  intros Hshape.
  destruct (ApplyColorFacts.applyColor_state color ds st Hshape)
    as (c & darker & lighter & hover & Hc & Hin & Hd & Hl & Hh & Happly).
  eexists _, c. split; [exact Happly|]. split; [exact Hc|].
  split; [exact Hin|].
  assert (Gd : in_gamut darker /\ in_gamut lighter /\ in_gamut hover).
  { cbn [adjustBrightness] in Hd, Hl, Hh.
    injection Hd as <-. injection Hl as <-. injection Hh as <-.
    destruct Hin as (Hr & Hg & Hb).
    repeat split; cbn [r g b]; by apply ShadeFacts.adjust_channel. }
  destruct Gd as (Gd & Gl & Gh).
  rewrite ApplyColorFacts.saveTheme_stored.
  rewrite (ApplyColorFacts.shown_color_applied color ds) by done.
  rewrite Hd, Hl, Hh.
  unfold ThemeManager.getPropertyValue.
  cbn [ThemeManager.inline_vars ThemeManager.saveTheme ThemeManager.set_inline].
  rewrite !(lookup_insert_ne _ (str "--primary-hover")
              ThemeManager.primary_color) by apply ThemeFacts.key_hover.
  rewrite !(lookup_insert_ne _ (str "--primary-light")
              ThemeManager.primary_color) by apply ThemeFacts.key_light.
  rewrite !(lookup_insert_ne _ (str "--primary-dark")
              ThemeManager.primary_color) by apply ThemeFacts.key_dark.
  rewrite !(lookup_insert_ne _ (str "--primary-hover")
              (str "--primary-dark")) by (by vm_compute).
  rewrite !(lookup_insert_ne _ (str "--primary-light")
              (str "--primary-dark")) by (by vm_compute).
  rewrite !(lookup_insert_ne _ (str "--primary-hover")
              (str "--primary-light")) by (by vm_compute).
  rewrite !lookup_insert_eq.
  rewrite !ShadeFacts.gamut_round_trip by done. done.
Qed.

(** The default colour applied to the example page. *)
Lemma X11_applyColor_shades_witness :
  exists st' c,
    ThemeManager.applyColor (Some (Json.JStr (str "#0066cc")))
      ThemeManager.example_page = Returned st'
    /\ hexToRgb (str "#0066cc") = Some c /\ in_gamut c
    /\ ThemeManager.getPropertyValue ThemeManager.primary_color st'
       = str "#0066cc"
    /\ hexToRgb (ThemeManager.getPropertyValue (str "--primary-dark") st')
       = adjustBrightness (Some c) (-20)
    /\ hexToRgb (ThemeManager.getPropertyValue (str "--primary-light") st')
       = adjustBrightness (Some c) 20
    /\ hexToRgb (ThemeManager.getPropertyValue (str "--primary-hover") st')
       = adjustBrightness (Some c) (-10)
    /\ ThemeManager.localStorage st' !! ThemeManager.storage_key
       = Some (ThemeManager.stored (str "#0066cc")
                 (ThemeManager.shown_mode ThemeManager.example_page)).
Proof.
  apply (X11_applyColor_shades (str "#0066cc") (str "0066cc")
           ThemeManager.example_page).
  split; [reflexivity|]. split; [reflexivity|]. right. reflexivity.
Defined.

End AppliedColor.

Section Modes.
Import Color ThemeManager.

(** X12.  A saved dark theme lasts one page load.  When a theme with a
    six-digit hex colour and the dark mode was saved, [loadSavedTheme] on a
    new page load (no [data-theme] yet) restores the colour and the dark
    mode, but [applyColor] saves the theme before the mode is applied, so
    the store then holds the mode [light]; the page load after that
    restores the colour and shows the light mode. *)
Theorem X12_dark_mode_lasts_one_load (st pg1 : state) (ds : list N) :
  hex_shape (shown_color st) ds ->
  shown_mode st = str "dark" ->
  localStorage pg1 = localStorage (saveTheme st) ->
  data_theme pg1 = None ->
  exists st1,
    loadSavedTheme pg1 = Returned st1
    /\ shown_color st1 = shown_color st
    /\ shown_mode st1 = str "dark"
    /\ localStorage st1 !! storage_key
       = Some (stored (shown_color st) (str "light"))
    /\ forall pg2,
         localStorage pg2 = localStorage st1 -> data_theme pg2 = None ->
         exists st2,
           loadSavedTheme pg2 = Returned st2
           /\ shown_color st2 = shown_color st
           /\ shown_mode st2 = str "light".
Proof.
  intros Hshape Hdark Hls Hfresh.
  assert (H1 : localStorage pg1 !! storage_key
               = Some (stored (shown_color st) (str "dark"))).
  { rewrite Hls, ApplyColorFacts.saveTheme_stored. by rewrite Hdark. }
  destruct (ApplyColorFacts.load_theme _ ds _ pg1 Hshape H1)
    as (st1 & Hl1 & Hc1 & Hd1 & Hs1).
  exists st1. split; [exact Hl1|]. split; [exact Hc1|].
  change (str_eqb (str "dark") (str "dark")) with true in Hd1.
  split; [by apply ApplyColorFacts.shown_mode_dark|].
  rewrite (ApplyColorFacts.shown_mode_none pg1 Hfresh) in Hs1.
  assert (H2 : localStorage st1 !! storage_key
               = Some (stored (shown_color st) (str "light"))).
  { rewrite Hs1. by rewrite lookup_insert_eq. }
  split; [exact H2|].
  intros pg2 Hls2 Hfresh2. rewrite <- Hls2 in H2.
  destruct (ApplyColorFacts.load_theme _ ds _ pg2 Hshape H2)
    as (st2 & Hl2 & Hc2 & Hd2 & _).
  exists st2. split; [exact Hl2|]. split; [exact Hc2|].
  change (str_eqb (str "light") (str "dark")) with false in Hd2.
  apply ApplyColorFacts.shown_mode_none. by rewrite Hd2.
Qed.

(** The dark example page, reloaded twice. *)
Lemma X12_dark_mode_lasts_one_load_witness :
  exists st1,
    loadSavedTheme
      (with_storage (localStorage (saveTheme dark_page)) example_page)
    = Returned st1
    /\ shown_color st1 = shown_color dark_page
    /\ shown_mode st1 = str "dark"
    /\ localStorage st1 !! storage_key
       = Some (stored (shown_color dark_page) (str "light"))
    /\ forall pg2,
         localStorage pg2 = localStorage st1 -> data_theme pg2 = None ->
         exists st2,
           loadSavedTheme pg2 = Returned st2
           /\ shown_color st2 = shown_color dark_page
           /\ shown_mode st2 = str "light".
Proof.
  apply (X12_dark_mode_lasts_one_load dark_page
           (with_storage (localStorage (saveTheme dark_page)) example_page)
           (str "0066cc")).
  - split; [reflexivity|]. split; [reflexivity|]. right.
    vm_compute. reflexivity.
  - vm_compute. reflexivity.
  - reflexivity.
  - reflexivity.
Defined.

(** X13.  [toggleMode] on one of the mode buttons: the page shows the
    dark mode exactly when the button's [data-mode] is [dark], the colour
    is untouched, the clicked button is the only active one, and the store
    holds the colour and the new mode; when the colour is a six-digit hex
    colour, [loadSavedTheme] on a new page load restores both. *)
Theorem X13_toggleMode (i : nat) (button : mode_btn) (st : state)
    (ds : list N) :
  modeButtons st !! i = Some button ->
  hex_shape (shown_color st) ds ->
  let st' := toggleMode i st in
  let mode :=
    match btn_mode button with
    | Some m => if str_eqb m (str "dark") then str "dark" else str "light"
    | None => str "light"
    end in
  shown_mode st' = mode
  /\ shown_color st' = shown_color st
  /\ (forall j b, modeButtons st' !! j = Some b ->
      (btn_active b = true <-> j = i))
  /\ localStorage st' !! storage_key = Some (stored (shown_color st) mode)
  /\ forall pg,
       localStorage pg = localStorage st' -> data_theme pg = None ->
       exists st'',
         loadSavedTheme pg = Returned st''
         /\ shown_color st'' = shown_color st
         /\ shown_mode st'' = mode.
Proof.
  intros Hb Hshape. cbv zeta. unfold toggleMode. rewrite Hb. cbv zeta.
  set (dark := match btn_mode button with
               | Some m => str_eqb m (str "dark")
               | None => false
               end).
  assert (Hmode : match btn_mode button with
                  | Some m => if str_eqb m (str "dark") then str "dark"
                              else str "light"
                  | None => str "light"
                  end = if dark then str "dark" else str "light").
  { subst dark. by destruct (btn_mode button). }
  rewrite Hmode. clear Hmode.
  split; [by destruct dark|]. split; [reflexivity|].
  split.
  { intros j b. cbn [modeButtons saveTheme].
    rewrite list_lookup_imap. destruct (modeButtons st !! j); [|done].
    intros [= <-]. cbn [btn_active]. apply Nat.eqb_eq. }
  assert (Hst : forall s, localStorage (saveTheme s) !! storage_key
                = Some (stored (shown_color s) (shown_mode s)))
    by apply ApplyColorFacts.saveTheme_stored.
  match goal with
  | |- localStorage (saveTheme ?s) !! _ = _ /\ _ =>
      assert (Hs : localStorage (saveTheme s) !! storage_key
                   = Some (stored (shown_color st)
                             (if dark then str "dark" else str "light")))
  end.
  { rewrite Hst. f_equal. f_equal. by destruct dark. }
  split; [exact Hs|].
  intros pg Hls Hfresh. rewrite <- Hls in Hs.
  destruct (ApplyColorFacts.load_theme _ ds _ pg Hshape Hs)
    as (st2 & Hl2 & Hc2 & Hd2 & _).
  exists st2. split; [exact Hl2|]. split; [exact Hc2|].
  destruct dark.
  - change (str_eqb (str "dark") (str "dark")) with true in Hd2.
    by apply ApplyColorFacts.shown_mode_dark.
  - change (str_eqb (str "light") (str "dark")) with false in Hd2.
    apply ApplyColorFacts.shown_mode_none. by rewrite Hd2.
Qed.

(** A click on the dark button of the example page. *)
Lemma X13_toggleMode_witness :
  shown_mode (toggleMode 1 example_page) = str "dark".
Proof.
  apply (X13_toggleMode 1 {| btn_mode := Some (str "dark");
                             btn_active := false |}
           example_page (str "0066cc")).
  - reflexivity.
  - split; [reflexivity|]. split; [reflexivity|]. right.
    vm_compute. reflexivity.
Defined.

End Modes.

(** ** The ticket form under its listeners *)

Module TicketEventFacts.
Import ToastManager Form TicketManager TicketFacts.

(** The element that [clearError] empties is not the one that [showError]
    fills, except for the e-mail field. *)
Lemma clear_id_differs i j :
  i <> emailInput -> inputId j ++ str "Error" <> errorId i.
Proof. intros Hi. destruct i, j; (done || by vm_compute). Qed.

Lemma clear_id_email : inputId emailInput ++ str "Error" = errorId emailInput.
Proof. reflexivity. Qed.

Lemma set_field_errors i f st : errorElements (set_field i f st) = errorElements st.
Proof. reflexivity. Qed.

Lemma clearError_errors i st k :
  errorElements (clearError i st) !! k
  = if decide (inputId i ++ str "Error" = k) then
      (fun _ => []) <$> errorElements st !! k
    else errorElements st !! k.
Proof.
  unfold clearError. cbv zeta. rewrite set_field_errors.
  destruct (errorElements st !! (inputId i ++ str "Error")) as [t|] eqn:He.
  - cbn [set_errors errorElements].
    destruct (decide (inputId i ++ str "Error" = k)) as [<-|Hne].
    + by rewrite lookup_insert_eq, He.
    + by rewrite lookup_insert_ne.
  - destruct (decide (inputId i ++ str "Error" = k)) as [<-|Hne]; [|done].
    by rewrite He.
Qed.

Lemma clearError_field_self i st :
  get_field i (clearError i st)
  = {| value := value (get_field i st);
       default_value := default_value (get_field i st);
       has_error := false; aria_invalid := None |}.
Proof.
  unfold clearError. cbv zeta. rewrite set_field_errors.
  destruct (errorElements st !! _); by destruct i.
Qed.

Lemma clearError_field_other i j st :
  j <> i -> get_field j (clearError i st) = get_field j st.
Proof.
  intros Hj. unfold clearError. cbv zeta. rewrite set_field_errors.
  destruct (errorElements st !! _); destruct i, j; done.
Qed.

Lemma showError_shows i j eid message st :
  message <> [] -> shows i st -> shows i (showError j eid message st).
Proof.
  intros Hm (m & He & Hne). unfold shows. rewrite showError_errors.
  destruct (decide (eid = errorId i)) as [->|_]; [|by exists m].
  rewrite He. by exists message.
Qed.

Lemma showError_value i k eid message st :
  value (get_field k (showError i eid message st)) = value (get_field k st).
Proof.
  unfold showError. cbv zeta.
  destruct (errorElements _ !! eid); destruct i, k; reflexivity.
Qed.

Lemma validate_value j k st :
  value (get_field k (fst (validate j st))) = value (get_field k st).
Proof.
  destruct j; unfold validate, validateName, validateEmail, validateCategory,
    validatePriority, validateSubject, validateDescription; cbv zeta;
    repeat match goal with
      | |- context [if ?c then _ else _] => destruct c
      end;
    cbn [fst]; try reflexivity; apply showError_value.
Qed.

Lemma validate_shows i j st : shows i st -> shows i (fst (validate j st)).
Proof.
  intros H.
  destruct j; unfold validate, validateName, validateEmail, validateCategory,
    validatePriority, validateSubject, validateDescription; cbv zeta;
    repeat match goal with
      | |- context [if ?c then _ else _] => destruct c
      end;
    cbn [fst]; try exact H; by apply showError_shows.
Qed.


Lemma clearError_shows i j st :
  i <> emailInput -> shows i st -> shows i (clearError j st).
Proof.
  intros Hi (m & He & Hne). exists m. split; [|done].
  rewrite clearError_errors.
  destruct (decide _) as [E|_]; [|done].
  by destruct (clear_id_differs i j Hi).
Qed.

Lemma edit_shows i j v st :
  i <> emailInput -> shows i st -> shows i (edit j v st).
Proof.
  intros Hi H. unfold edit. cbv zeta.
  assert (H' : shows i (set_value j v st)) by exact H.
  destruct j; apply clearError_shows; try done.
  - by apply (validate_shows i categorySelect).
  - by apply (validate_shows i prioritySelect).
Qed.

Lemma blur_shows i j st : shows i st -> shows i (blur j st).
Proof.
  intros H. destruct j; try exact H; by apply validate_shows.
Qed.

Lemma validateAll_shows i st : shows i st -> shows i (fst (validateAll st)).
Proof.
  intros H. unfold validateAll.
  pose proof (validate_shows i nameInput st H) as H1.
  cbn [validate] in H1. destruct (validateName st) as [s1 r1].
  pose proof (validate_shows i emailInput s1 H1) as H2.
  cbn [validate] in H2. destruct (validateEmail s1) as [s2 r2].
  pose proof (validate_shows i categorySelect s2 H2) as H3.
  cbn [validate] in H3. destruct (validateCategory s2) as [s3 r3].
  pose proof (validate_shows i prioritySelect s3 H3) as H4.
  cbn [validate] in H4. destruct (validatePriority s3) as [s4 r4].
  pose proof (validate_shows i subjectInput s4 H4) as H5.
  cbn [validate] in H5. destruct (validateSubject s4) as [s5 r5].
  pose proof (validate_shows i descriptionTextarea s5 H5) as H6.
  cbn [validate] in H6. by destruct (validateDescription s5) as [s6 r6].
Qed.

Lemma handleSubmit_errors op e st :
  errorElements (handleSubmit op e st) = errorElements (fst (validateAll st)).
Proof.
  unfold handleSubmit, handleSubmit_begin.
  destruct (validateAll st) as [s1 results]. cbn [fst].
  destruct (negb _); [reflexivity|].
  unfold handleSubmit_settle. by destruct (op _).
Qed.

Lemma run_shows i ev st :
  i <> emailInput -> shows i st -> shows i (run ev st).
Proof.
  intros Hi H. destruct ev; cbn [run].
  - by apply edit_shows.
  - by apply blur_shows.
  - exact H.
  - unfold shows. rewrite handleSubmit_errors. by apply validateAll_shows.
  - unfold timeout. destruct (timers st) as [|[? []] ?]; exact H.
  - exact H.
  - exact H.
Qed.

End TicketEventFacts.

Section TicketEvents.
Import TicketManager.

(** X14.  On the ticket form, the message that a validator wrote into
    the error element of the name, category, priority, subject or
    description field is never removed: after any sequence of edits,
    blurs, file choices, submits, timeouts, openings and closings, the
    element still shows a message.  [clearError] looks the element up
    under the id of the input followed by [Error], which is the id that
    [showError] is given only for the e-mail field. *)
Theorem X14_ticket_error_text_stays (i : input) (evs : list event)
    (st : state) :
  i <> emailInput ->
  shows i st ->
  shows i (fold_left (fun s ev => run ev s) evs st).
Proof.
  intros Hi. revert st.
  induction evs as [|ev evs IH]; intros st H; [exact H|].
  cbn [fold_left]. apply IH. by apply TicketEventFacts.run_shows.
Qed.

(** The name field was reported empty; the user then types a name and
    leaves the field, and the message is still there. *)
Lemma X14_ticket_error_text_stays_witness :
  shows nameInput
    (fold_left (fun s ev => run ev s)
       [Edit nameInput (str "Jane Doe"); Blur nameInput] reported_form).
Proof.
  apply (X14_ticket_error_text_stays nameInput
           [Edit nameInput (str "Jane Doe"); Blur nameInput] reported_form).
  - discriminate.
  - exists (str "Please enter your name"). split; [|discriminate].
    vm_compute. reflexivity.
Defined.

(** X15.  An edit of a field of the ticket form leaves the field with the
    new value and without the class [error] and [aria-invalid], whatever
    the value: on the two selects the validator runs first and
    [clearError] then removes the marks it set.  For the e-mail field the
    error element is emptied as well. *)
Theorem X15_ticket_edit_clears_marks (i : input) (v : list N) (st : state) :
  let st' := edit i v st in
  Form.value (get_field i st') = v
  /\ Form.has_error (get_field i st') = false
  /\ Form.aria_invalid (get_field i st') = None
  /\ (i = emailInput ->
      errorElements st' !! errorId i
      = (fun _ => []) <$> errorElements st !! errorId i).
Proof.
  cbv zeta. unfold edit. cbv zeta.
  split; [|split; [|split]].
  1-3: destruct i; rewrite TicketEventFacts.clearError_field_self; try done.
  - cbn [Form.value].
    by rewrite (TicketEventFacts.validate_value categorySelect categorySelect).
  - cbn [Form.value].
    by rewrite (TicketEventFacts.validate_value prioritySelect prioritySelect).
  - intros ->. rewrite TicketEventFacts.clearError_errors.
    rewrite TicketEventFacts.clear_id_email.
    destruct (decide _); done.
Qed.

(** An edit of the e-mail field empties its error element. *)
Lemma X15_ticket_edit_clears_marks_witness :
  errorElements (edit emailInput (str "jane@x.com") scenario_form)
    !! errorId emailInput
  = (fun _ => []) <$> errorElements scenario_form !! errorId emailInput.
Proof.
  apply (X15_ticket_edit_clears_marks emailInput (str "jane@x.com")
           scenario_form).
  reflexivity.
Defined.

End TicketEvents.

(** ** Decimal digit strings *)

Module DecimalFacts.
Import JSFacts JsonFacts.

Lemma digits_val_from (ds : list N) : forall acc,
  fold_left (fun acc d => 10 * acc + (d - 48)) ds acc
  = acc * 10 ^ N.of_nat (length ds) + digits_val ds.
Proof.
  unfold digits_val.
  induction ds as [|d ds IH]; intros acc.
  - cbn [fold_left length]. change (10 ^ N.of_nat 0) with 1. lia.
  - cbn [fold_left length]. rewrite IH, (IH (10 * 0 + (d - 48))).
    rewrite Nat2N.inj_succ, N.pow_succ_r'. lia.
Qed.

Lemma digits_val_app a b :
  digits_val (a ++ b) = digits_val a * 10 ^ N.of_nat (length b) + digits_val b.
Proof.
  unfold digits_val at 1. rewrite fold_left_app.
  fold (digits_val a). apply digits_val_from.
Qed.

Lemma digits_val_cons d t :
  digits_val (d :: t) = (d - 48) * 10 ^ N.of_nat (length t) + digits_val t.
Proof.
  change (d :: t) with ([d] ++ t). rewrite digits_val_app.
  unfold digits_val at 1. cbn [fold_left]. lia.
Qed.

Lemma digits_val_bound ds :
  forallb is_digit ds = true -> digits_val ds < 10 ^ N.of_nat (length ds).
Proof.
  induction ds as [|d t IH]; [by intros _; vm_compute|].
  cbn [forallb]. intros [Hd Ht]%andb_true_iff.
  rewrite digits_val_cons. specialize (IH Ht).
  cbn [length]. rewrite Nat2N.inj_succ, N.pow_succ_r'.
  assert (d - 48 <= 9) by (unfold is_digit in Hd; lia).
  revert IH. generalize (10 ^ N.of_nat (length t)) (digits_val t). intros. nia.
Qed.

(** A digit string with no leading zero is at least the power of ten of
    its length. *)
Lemma digits_val_lower d t :
  is_digit d = true -> d <> 48 -> 10 ^ N.of_nat (length t) <= digits_val (d :: t).
Proof.
  intros Hd Hz. rewrite digits_val_cons.
  assert (1 <= d - 48) by (unfold is_digit in Hd; lia).
  generalize (10 ^ N.of_nat (length t)) (digits_val t). intros. nia.
Qed.

(** Digit strings of one length with one value are equal. *)
Lemma digits_val_inj a : forall b,
  length a = length b ->
  forallb is_digit a = true -> forallb is_digit b = true ->
  digits_val a = digits_val b -> a = b.
Proof.
  induction a as [|x a IH]; intros [|y b] Hl Ha Hb Hv; try discriminate;
    [done|].
  cbn [forallb] in Ha, Hb.
  apply andb_true_iff in Ha as [Hx Ha]. apply andb_true_iff in Hb as [Hy Hb].
  injection Hl as Hl.
  rewrite !digits_val_cons, <- Hl in Hv.
  pose proof (digits_val_bound a Ha) as Ba.
  pose proof (digits_val_bound b Hb) as Bb. rewrite <- Hl in Bb.
  assert (x - 48 = y - 48 /\ digits_val a = digits_val b) as [Exy Eab].
  { revert Hv Ba Bb.
    generalize (10 ^ N.of_nat (length a)) (digits_val a) (digits_val b)
      (x - 48) (y - 48).
    intros P va vb p q Hv Ba Bb.
    assert (p = q); [|subst; lia].
    destruct (N.lt_trichotomy p q) as [H|[H|H]]; [|done|].
    - assert (P * (p + 1) <= P * q) by (apply N.mul_le_mono_l; lia). lia.
    - assert (P * (q + 1) <= P * p) by (apply N.mul_le_mono_l; lia). lia. }
  f_equal.
  - unfold is_digit in Hx, Hy. lia.
  - by apply IH.
Qed.

Lemma zeros_val k : digits_val (replicate k 48) = 0.
Proof.
  induction k as [|k IH]; [done|].
  cbn [replicate]. rewrite digits_val_cons, IH. lia.
Qed.

Lemma zeros_digits k : forallb is_digit (replicate k 48) = true.
Proof. induction k as [|k IH]; [done|]. cbn [replicate forallb]. by rewrite IH. Qed.

End DecimalFacts.

(** ** Ticket numbers *)

Module TicketNumberFacts.
Import JSFacts JsonFacts DecimalFacts TicketManager.

Lemma timestamp_part now :
  (100000 <= now)%Z ->
  exists t,
    slice_last 6 (Z_to_string now) = t
    /\ length t = 6%nat /\ forallb is_digit t = true
    /\ digits_val t = Z.to_N (now mod 10 ^ 6).
Proof.
  intros Hn. destruct now as [|p|p]; try lia. cbn [Z_to_string].
  destruct (N_to_string_spec (Npos p)) as (d & t0 & -> & Hdig & Hval & _ & _).
  set (ds := d :: t0) in *.
  pose proof (digits_val_bound ds Hdig) as Hb. rewrite Hval in Hb.
  assert (Hlen : (6 <= length ds)%nat).
  { destruct (Nat.le_gt_cases 6 (length ds)) as [|Hk]; [done|].
    assert (10 ^ N.of_nat (length ds) <= 10 ^ 5)
      by (apply N.pow_le_mono_r; lia).
    change (10 ^ 5) with 100000 in *. lia. }
  unfold slice_last. eexists. split; [reflexivity|].
  assert (Hl6 : length (drop (length ds - 6) ds) = 6%nat)
    by (rewrite length_drop; lia).
  split; [exact Hl6|].
  pose proof (take_drop (length ds - 6) ds) as Hsplit.
  rewrite <- Hsplit in Hdig. rewrite forallb_app in Hdig.
  apply andb_true_iff in Hdig as [_ Hdd]. split; [exact Hdd|].
  rewrite <- Hsplit, digits_val_app, Hl6 in Hval.
  pose proof (digits_val_bound _ Hdd) as Hb6. rewrite Hl6 in Hb6.
  change (10 ^ N.of_nat 6) with 1000000 in *.
  rewrite Z2N.inj_mod by lia.
  change (Z.to_N (10 ^ 6)) with 1000000. change (Z.to_N (Z.pos p)) with (N.pos p).
  rewrite <- Hval.
  rewrite N.add_comm, N.Div0.mod_add. symmetry. by apply N.mod_small.
Qed.

Lemma random_part r :
  (0 <= r < 1000)%Z ->
  exists t,
    padStart0 3 (Z_to_string r) = t
    /\ length t = 3%nat /\ forallb is_digit t = true
    /\ digits_val t = Z.to_N r.
Proof.
  intros Hr. destruct r as [|p|p]; try lia.
  { by exists [48; 48; 48]. }
  cbn [Z_to_string].
  destruct (N_to_string_spec (Npos p)) as (d & t0 & -> & Hdig & Hval & _ & Hd).
  assert (Hd0 : is_digit d = true).
  { cbn [forallb] in Hdig. by apply andb_true_iff in Hdig as [? _]. }
  pose proof (digits_val_lower d t0 Hd0 (Hd ltac:(lia))) as Hlow.
  rewrite Hval in Hlow.
  assert (Hlen : (length t0 <= 2)%nat).
  { destruct (Nat.le_gt_cases (length t0) 2) as [|Hk]; [done|].
    assert (10 ^ 3 <= 10 ^ N.of_nat (length t0))
      by (apply N.pow_le_mono_r; lia).
    change (10 ^ 3) with 1000 in *. lia. }
  unfold padStart0. eexists. split; [reflexivity|].
  split; [rewrite length_app, length_replicate; cbn [length]; lia|].
  split; [by rewrite forallb_app, zeros_digits|].
  rewrite digits_val_app, zeros_val, Hval. lia.
Qed.

(** The parts of a ticket number. *)
Lemma ticket_number_shape e :
  (100000 <= now_ms e)%Z -> (0 <= random_1000 e < 1000)%Z ->
  exists t r,
    generateTicketNumber e = str "SF-" ++ t ++ [45] ++ r
    /\ length t = 6%nat /\ length r = 3%nat
    /\ forallb is_digit t = true /\ forallb is_digit r = true
    /\ digits_val t = Z.to_N (now_ms e mod 10 ^ 6)
    /\ digits_val r = Z.to_N (random_1000 e).
Proof.
  intros Hn Hr.
  destruct (timestamp_part _ Hn) as (t & Et & Ht).
  destruct (random_part _ Hr) as (r & Er & Hr').
  exists t, r. unfold generateTicketNumber. cbv zeta. rewrite Et, Er.
  split; [reflexivity|]. tauto.
Qed.

End TicketNumberFacts.

Section TicketNumbers.
Import TicketManager.

(** X16.  For a clock of at least 100000 ms and a random draw from 0 to
    999, a ticket number is [SF-], six digits, [-] and three digits: the
    six digits are the clock modulo 1000000 and the three digits are the
    draw, both padded with zeros. *)
Theorem X16_ticket_number_shape (e : env) :
  (100000 <= now_ms e)%Z -> (0 <= random_1000 e < 1000)%Z ->
  exists t r,
    generateTicketNumber e = str "SF-" ++ t ++ [45] ++ r
    /\ length t = 6%nat /\ length r = 3%nat
    /\ forallb is_digit t = true /\ forallb is_digit r = true
    /\ digits_val t = Z.to_N (now_ms e mod 10 ^ 6)
    /\ digits_val r = Z.to_N (random_1000 e).
Proof. exact (TicketNumberFacts.ticket_number_shape e). Qed.

(** The number of the example run. *)
Lemma X16_ticket_number_shape_witness :
  exists t r,
    generateTicketNumber example_env = str "SF-" ++ t ++ [45] ++ r
    /\ length t = 6%nat /\ length r = 3%nat
    /\ forallb is_digit t = true /\ forallb is_digit r = true
    /\ digits_val t = Z.to_N (now_ms example_env mod 10 ^ 6)
    /\ digits_val r = Z.to_N (random_1000 example_env).
Proof.
  apply (X16_ticket_number_shape example_env);
    unfold example_env; cbn [now_ms random_1000]; lia.
Defined.

(** X17.  Two runs, each with a clock of at least 100000 ms and a draw
    from 0 to 999, give the same ticket number exactly when their clocks
    agree modulo 1000000 ms and their draws are equal. *)
Theorem X17_ticket_number_collision (e1 e2 : env) :
  (100000 <= now_ms e1)%Z -> (0 <= random_1000 e1 < 1000)%Z ->
  (100000 <= now_ms e2)%Z -> (0 <= random_1000 e2 < 1000)%Z ->
  generateTicketNumber e1 = generateTicketNumber e2
  <-> (now_ms e1 mod 10 ^ 6 = now_ms e2 mod 10 ^ 6
       /\ random_1000 e1 = random_1000 e2)%Z.
Proof.
  intros Hn1 Hr1 Hn2 Hr2.
  destruct (TicketNumberFacts.ticket_number_shape e1 Hn1 Hr1)
    as (t1 & r1 & -> & Lt1 & Lr1 & Dt1 & Dr1 & Vt1 & Vr1).
  destruct (TicketNumberFacts.ticket_number_shape e2 Hn2 Hr2)
    as (t2 & r2 & -> & Lt2 & Lr2 & Dt2 & Dr2 & Vt2 & Vr2).
  assert (M1 : (0 <= now_ms e1 mod 10 ^ 6)%Z) by (apply Z.mod_pos_bound; lia).
  assert (M2 : (0 <= now_ms e2 mod 10 ^ 6)%Z) by (apply Z.mod_pos_bound; lia).
  split.
  - intros H. apply app_inv_head in H.
    apply app_inj_1 in H as [Ht H]; [|congruence].
    apply app_inv_head in H. subst t2 r2.
    rewrite Vt1 in Vt2. rewrite Vr1 in Vr2. split; lia.
  - intros [Hn Hr].
    assert (t1 = t2) as ->.
    { apply DecimalFacts.digits_val_inj; try done; [congruence|].
      rewrite Vt1, Vt2. by rewrite Hn. }
    assert (r1 = r2) as ->; [|done].
    apply DecimalFacts.digits_val_inj; try done; [congruence|].
    rewrite Vr1, Vr2. by rewrite Hr.
Qed.

(** A run 1000000 ms after the example run with the same draw repeats its
    ticket number. *)
Lemma X17_ticket_number_collision_witness :
  generateTicketNumber example_env = generateTicketNumber later_env.
Proof.
  apply (X17_ticket_number_collision example_env later_env);
    unfold example_env, later_env; cbn [now_ms random_1000]; try lia.
  split; reflexivity.
Defined.

End TicketNumbers.

(** ** The counter, the file line and a successful submit *)

Module TicketSuccessFacts.
Import ToastManager Form TicketManager.

Lemma ticket_begin e st :
  (forall i, fails i st = false) ->
  handleSubmit_begin e st
  = (set_button (setLoadingState true) st, Some (ticket_of e st)).
Proof.
  intros Hok.
  destruct (TicketFacts.validateAll_reports st) as (rs & Hall & Hv).
  assert (Hrs : forall i, rs i = None).
  { intros i. specialize (Hok i). unfold fails in Hok.
    rewrite Hv in Hok. cbn [snd] in Hok. apply negb_false_iff in Hok.
    by apply bool_decide_eq_true in Hok. }
  unfold handleSubmit_begin. rewrite Hall.
  unfold reports. rewrite !Hrs. cbn [report].
  cbn [inputs List.map]. rewrite !Hrs. reflexivity.
Qed.

End TicketSuccessFacts.

Section TicketWidgets.
Import ToastManager Form TicketManager TicketSuccessFacts.

(** X18.  [updateCharCount] shows the length of the description in
    decimal (a non-empty run of decimal digits whose value is the length,
    with no leading zero: a single digit below ten), in the warning colour
    exactly when the length exceeds 900 and with no colour otherwise; it
    never sets the error colour, whose test comes after the test for
    900. *)
Theorem X18_updateCharCount (st : state) :
  let count := length (Form.value (f_description st)) in
  let st' := updateCharCount st in
  (exists d t,
     charCount_text st' = d :: t
     /\ forallb is_digit (d :: t) = true
     /\ digits_val (d :: t) = N.of_nat count
     /\ ((count < 10)%nat -> t = [])
     /\ ((0 < count)%nat -> d <> 48))
  /\ (charCount_color st' = str "var(--warning-color)" <-> (900 < count)%nat)
  /\ (charCount_color st' = [] <-> (count <= 900)%nat)
  /\ charCount_color st' <> str "var(--error-color)".
Proof.
  cbv zeta. unfold updateCharCount. cbv zeta.
  cbn [charCount_text charCount_color].
  split.
  { destruct (JsonFacts.N_to_string_spec
                (N.of_nat (length (Form.value (f_description st)))))
      as (d & t & -> & Hd & Hv & Hone & Hz).
    exists d, t. split; [reflexivity|]. split; [exact Hd|].
    split; [exact Hv|]. split; intros H; [apply Hone|apply Hz]; lia. }
  destruct (Nat.ltb_spec 900 (length (Form.value (f_description st))))
    as [Hgt|Hle].
  - split; [split; [done|done]|]. split; [split; [discriminate|lia]|].
    discriminate.
  - destruct (Nat.leb_spec 1000 (length (Form.value (f_description st))));
      [lia|].
    split; [split; [discriminate|lia]|]. split; [done|]. discriminate.
Qed.

(** X19.  [handleFileUpload] with no file chosen empties the file line and
    assigns no colour.  With a file of a non-negative size it shows the
    name and the size in mebibytes with two decimals in the success
    colour; the hundredths shown differ from the exact size by at most half
    a hundredth, and they are zero exactly for sizes below 5243 bytes. *)
Theorem X19_handleFileUpload (st : state) :
  (fileInput st = None ->
   fileInfo_text (fst (handleFileUpload st)) = []
   /\ snd (handleFileUpload st) = None)
  /\ (forall file,
        fileInput st = Some file -> (0 <= file_size file)%Z ->
        let n := hundredths (file_size file) in
        fileInfo_text (fst (handleFileUpload st))
        = str "Selected: " ++ file_name file ++ str " ("
            ++ sizeInMB (file_size file) ++ str " MB)"
        /\ sizeInMB (file_size file)
           = Z_to_string (n / 100) ++ [46] ++ two_digits (n mod 100)
        /\ snd (handleFileUpload st) = Some (str "var(--success-color)")
        /\ (100 * file_size file - 2 ^ 19 < n * 2 ^ 20
            <= 100 * file_size file + 2 ^ 19)%Z
        /\ (n = 0%Z <-> (file_size file < 5243)%Z)
        /\ forallb is_digit (two_digits (n mod 100)) = true).
Proof.
  split.
  - intros H. unfold handleFileUpload. cbn [fst snd fileInfo_text].
    by rewrite H.
  - intros file H Hs. cbv zeta. unfold handleFileUpload.
    cbn [fst snd fileInfo_text]. rewrite H.
    split; [reflexivity|]. split; [reflexivity|]. split; [reflexivity|].
    unfold hundredths.
    change (2 ^ 21)%Z with 2097152%Z. change (2 ^ 20)%Z with 1048576%Z.
    change (2 ^ 19)%Z with 524288%Z.
    split; [Z.to_euclidean_division_equations; lia|].
    split; [Z.to_euclidean_division_equations; lia|].
    unfold two_digits. cbn [forallb]. unfold is_digit.
    generalize ((200 * file_size file + 1048576) / 2097152)%Z. intros n.
    assert (0 <= n mod 100 < 100)%Z by (apply Z.mod_pos_bound; lia).
    revert H0. generalize (n mod 100)%Z. intros m Hm.
    assert (0 <= m / 10 < 10)%Z by (Z.to_euclidean_division_equations; lia).
    assert (0 <= m mod 10 < 10)%Z by (apply Z.mod_pos_bound; lia).
    revert H0 H1. generalize (m / 10)%Z (m mod 10)%Z. intros. lia.
Qed.

(** A file of 1572864 bytes. *)
Lemma X19_handleFileUpload_witness :
  snd (handleFileUpload form_with_file) = Some (str "var(--success-color)").
Proof.
  apply (proj2 (X19_handleFileUpload form_with_file)
           {| file_name := str "log.txt"; file_size := 1572864 |}).
  - reflexivity.
  - cbn [file_size]. lia.
Defined.

(** X20.  A submit of a ticket form on which no validator fails, with the
    script's own [submitTicket]: the ticket is handed over once, with the
    name, e-mail, subject and description trimmed; one success toast is
    made, of 6000 ms, from the message that names the ticket number and
    the trimmed e-mail (the toast takes its message as markup); every
    field is back at its default value, the file is dropped and the file
    line is empty; the error marks and messages are as before; the button
    is busy (disabled, its text hidden, its loader shown) and the modal as
    it was until the callback scheduled after 1500 ms closes the modal and
    puts the button back to idle (enabled, its text shown, its loader
    hidden). *)
Theorem X20_ticket_valid_submit (e : env) (st : state) :
  (forall i, fails i st = false) ->
  let st' := handleSubmit submitTicket e st in
  submitted st' = submitted st ++ [ticket_of e st]
  /\ toastContainer st'
     = toastContainer st
         ++ [{| text := str "Ticket #" ++ generateTicketNumber e
                          ++ str " created! We'll email you soon at "
                          ++ trim (value (f_email st));
                type := success; duration := 6000 |}]
  /\ (forall i, value (get_field i st') = default_value (get_field i st))
  /\ (forall i, has_error (get_field i st') = has_error (get_field i st))
  /\ errorElements st' = errorElements st
  /\ fileInput st' = None /\ fileInfo_text st' = []
  /\ submitBtn st'
     = {| disabled := true; btnText_hidden := true;
          btnLoader_hidden := false |}
  /\ modal_active st' = modal_active st
  /\ timers st' = timers st ++ [(1500%Z, CloseAndRestore)]
  /\ (timers st = [] ->
      modal_active (timeout st') = false
      /\ body_overflow (timeout st') = []
      /\ submitBtn (timeout st')
         = {| disabled := false; btnText_hidden := false;
              btnLoader_hidden := true |}
      /\ timers (timeout st') = []).
Proof.
  intros Hok. cbv zeta. unfold handleSubmit.
  rewrite (ticket_begin e st Hok).
  change (submitTicket (ticket_of e st)) with Resolved.
  cbn [handleSubmit_settle].
  cbn [submitted toastContainer get_field errorElements fileInput
         fileInfo_text submitBtn modal_active timers
         add_timer reset_form updateCharCount toast call_submitTicket
         set_button f_name f_email f_category f_priority f_subject
         f_description].
  split; [reflexivity|]. split; [reflexivity|].
  split; [intros []; reflexivity|]. split; [intros []; reflexivity|].
  split; [reflexivity|]. split; [reflexivity|]. split; [reflexivity|].
  split; [reflexivity|]. split; [reflexivity|]. split; [reflexivity|].
  intros Ht. unfold timeout.
  cbn [timers add_timer reset_form updateCharCount toast call_submitTicket
         set_button].
  rewrite Ht. cbn [app run_callback].
  repeat split.
Qed.

(** The example form. *)
Lemma X20_ticket_valid_submit_witness :
  submitted (handleSubmit submitTicket example_env example_form)
  = submitted example_form ++ [ticket_of example_env example_form].
Proof.
  apply (X20_ticket_valid_submit example_env example_form).
  intros i. destruct i; reflexivity.
Defined.

End TicketWidgets.

(** ** A session of share clicks *)

Module SessionFacts.
Import Json JsonFacts ToastManager SocialSharingManager SharingFacts.

(** The state that [registerShare] saves for a new platform, and what the
    steps after the save keep of it. *)
Lemma registerShare_new p st :
  has p (sharedPlatforms st) = false ->
  exists st3,
    shareCount st3 = incr (shareCount st)
    /\ sharedPlatforms st3 = sharedPlatforms st ++ [p]
    /\ shareCount (registerShare p st) = shareCount st3
    /\ sharedPlatforms (registerShare p st) = sharedPlatforms st3
    /\ localStorage (registerShare p st) = localStorage (saveProgress st3).
Proof.
  intros Hp. unfold registerShare. rewrite Hp. cbv zeta.
  set (st3 := markPlatformShared p
                (updateProgress
                   (set_count (incr (shareCount st))
                      (set_platforms (sharedPlatforms st ++ [p]) st)))).
  exists st3.
  pose proof (markPlatformShared_frame p
                (updateProgress
                   (set_count (incr (shareCount st))
                      (set_platforms (sharedPlatforms st ++ [p]) st))))
    as (Hc & Hs & _).
  fold st3 in Hc, Hs.
  cbn [shareCount sharedPlatforms updateProgress set_count set_platforms]
    in Hc, Hs.
  split; [exact Hc|]. split; [exact Hs|].
  cbn [shareCount sharedPlatforms localStorage toast].
  match goal with
  | |- context [if ?b then unlockChampionStatus ?x else ?x] =>
      assert (shareCount (if b then unlockChampionStatus x else x)
              = shareCount x
              /\ sharedPlatforms (if b then unlockChampionStatus x else x)
                 = sharedPlatforms x
              /\ localStorage (if b then unlockChampionStatus x else x)
                 = localStorage x) as (-> & -> & ->)
  end.
  { match goal with |- context [if ?b then _ else _] => destruct b end;
      [|done].
    match goal with
    | |- context [unlockChampionStatus ?x] =>
        destruct (unlockChampionStatus_frame x) as (-> & -> & _ & -> & _)
    end.
    done. }
  done.
Qed.

Lemma registerShare_old p st :
  has p (sharedPlatforms st) = true ->
  shareCount (registerShare p st) = shareCount st
  /\ sharedPlatforms (registerShare p st) = sharedPlatforms st
  /\ localStorage (registerShare p st) = localStorage st.
Proof. intros Hp. unfold registerShare. by rewrite Hp. Qed.

(** A run of share clicks on a manager whose count is the number of its
    platforms. *)
Lemma shares_counted ps : forall st,
  shareCount st = Z.of_nat (length (sharedPlatforms st)) ->
  (Z.of_nat (length (sharedPlatforms st) + length ps) <= 2 ^ 53)%Z ->
  let st' := fold_left (fun s p => registerShare p s) ps st in
  sharedPlatforms st' = new_Set ps (sharedPlatforms st)
  /\ shareCount st' = Z.of_nat (length (sharedPlatforms st')).
Proof.
  induction ps as [|p ps IH]; intros st Hc Hb; cbv zeta; [done|].
  cbn [fold_left new_Set length] in *.
  destruct (has p (sharedPlatforms st)) eqn:Hp.
  - destruct (registerShare_old p st Hp) as (Hc' & Hs' & _).
    destruct (IH (registerShare p st)) as [H1 H2].
    + by rewrite Hc', Hs'.
    + rewrite Hs'. lia.
    + cbv zeta in H1, H2. rewrite H1, Hs' in *. done.
  - destruct (registerShare_new p st Hp) as (st3 & H3c & H3s & Hc' & Hs' & _).
    destruct (IH (registerShare p st)) as [H1 H2].
    + rewrite Hc', Hs', H3c, H3s, Hc, length_app. cbn [length].
      unfold incr. destruct (Z.ltb_spec (Z.of_nat (length (sharedPlatforms st))) (2 ^ 53)); lia.
    + rewrite Hs', H3s, length_app. cbn [length]. lia.
    + cbv zeta in H1, H2. rewrite H1, Hs', H3s in *. done.
Qed.


(** [loadProgress] on a store whose record loads. *)
Lemma loadProgress_loads pg saved c ps :
  localStorage pg !! storage_key = Some saved ->
  loads saved c ps ->
  exists st,
    loadProgress pg = Returned st
    /\ shareCount st = c /\ sharedPlatforms st = ps
    /\ localStorage st = localStorage pg.
Proof.
  intros Hls (Ht & data & l & Hparse & Hnull & Hc & Hp & Hg).
  unfold loadProgress. rewrite Hls, Ht, Hparse.
  assert (Hframe : forall l0 : list (list N),
    let st3 :=
      fold_left (fun s p => markPlatformShared p s) l0
        (updateProgress (set_platforms ps (set_count c pg))) in
    let st := if (3 <=? shareCount st3)%Z
              then unlockChampionStatus st3 else st3 in
    shareCount st = c /\ sharedPlatforms st = ps
    /\ localStorage st = localStorage pg).
  { intros l0.
    pose proof (markPlatformShared_all_frame l0
                  (updateProgress (set_platforms ps (set_count c pg)))) as Hf.
    cbv zeta in Hf |- *.
    remember (fold_left _ _ _) as st3 eqn:E. clear E.
    destruct Hf as (H1 & H2 & _ & H4 & _).
    cbn [shareCount sharedPlatforms localStorage updateProgress
           set_platforms set_count] in H1, H2, H4.
    destruct (3 <=? shareCount st3)%Z; [|done].
    by destruct (unlockChampionStatus_frame st3) as (-> & -> & _ & -> & _). }
  destruct data; try done; rewrite Hc, Hp, Hg;
    (eexists; split; [reflexivity|apply Hframe]).
Qed.

(** [loadProgress] returns either on a store without a record, with the
    state as it was, or on a record that loads. *)
Lemma loadProgress_returns pg st :
  loadProgress pg = Returned st ->
  (st = pg
   /\ (localStorage pg !! storage_key = None
       \/ exists saved, localStorage pg !! storage_key = Some saved
                        /\ truthy saved = false))
  \/ exists saved,
       localStorage pg !! storage_key = Some saved
       /\ loads saved (shareCount st) (sharedPlatforms st).
Proof.
  unfold loadProgress.
  destruct (localStorage pg !! storage_key) as [saved|] eqn:Hls;
    [|intros [= <-]; left; split; [done|by left]].
  destruct (truthy saved) eqn:Ht;
    [|intros [= <-]; left; split; [done|right; by exists saved]].
  destruct (parse saved) as [data|] eqn:Hparse; [|discriminate].
  intros H. right. exists saved. split; [done|].
  assert (Hnull : data <> JNull) by (intros ->; discriminate).
  assert (Hbody :
    match count_or_zero (get data (str "count")) with
    | Some c =>
        match platform_set (get data (str "platforms")) with
        | SetOf ps =>
            match get data (str "platforms") with
            | Some (JArr l) =>
                Returned
                  (let st3 :=
                     fold_left (fun s p => markPlatformShared p s)
                       (default [] (strings_of l))
                       (updateProgress (set_platforms ps (set_count c pg))) in
                   if (3 <=? shareCount st3)%Z
                   then unlockChampionStatus st3 else st3)
            | _ => Threw TypeError
                     (updateProgress (set_platforms ps (set_count c pg)))
            end
        | SetThrows => Threw TypeError (set_count c pg)
        | SetOutOfModel => OutOfModel
        end
    | None => OutOfModel
    end = Returned st).
  { by destruct data. }
  clear H.
  destruct (count_or_zero _) as [c|] eqn:Hc; [|discriminate].
  destruct (platform_set _) as [ps| |] eqn:Hp; try discriminate.
  destruct (get data (str "platforms")) as [[| | | |l|]|] eqn:Hg;
    try discriminate.
  assert (Hl : loads saved c ps).
  { split; [done|]. exists data, l. repeat split; try done. by rewrite Hg. }
  destruct (loadProgress_loads pg saved c ps Hls Hl)
    as (st' & Hload & <- & <- & _).
  unfold loadProgress in Hload. rewrite Hls, Ht, Hparse in Hload.
  assert (Hbody' :
    match count_or_zero (get data (str "count")) with
    | Some c =>
        match platform_set (get data (str "platforms")) with
        | SetOf ps =>
            match get data (str "platforms") with
            | Some (JArr l) =>
                Returned
                  (let st3 :=
                     fold_left (fun s p => markPlatformShared p s)
                       (default [] (strings_of l))
                       (updateProgress (set_platforms ps (set_count c pg))) in
                   if (3 <=? shareCount st3)%Z
                   then unlockChampionStatus st3 else st3)
            | _ => Threw TypeError
                     (updateProgress (set_platforms ps (set_count c pg)))
            end
        | SetThrows => Threw TypeError (set_count c pg)
        | SetOutOfModel => OutOfModel
        end
    | None => OutOfModel
    end = Returned st').
  { by destruct data. }
  rewrite Hc, Hg, Hp in Hbody'. rewrite Hbody' in Hbody.
  injection Hbody as <-. exact Hl.
Qed.

End SessionFacts.

Module ReloadFacts.
Import Json JsonFacts ToastManager SocialSharingManager SharingFacts SessionFacts.

(** What [saveProgress] writes loads to what was saved. *)
Lemma saved_loads st :
  safe_count (shareCount st) -> NoDup (sharedPlatforms st) ->
  exists saved,
    localStorage (saveProgress st) !! storage_key = Some saved
    /\ loads saved (shareCount st) (sharedPlatforms st).
Proof.
  intros Hsafe Hnd. eexists. split.
  { unfold saveProgress. cbn [localStorage set_storage].
    by rewrite lookup_insert_eq. }
  split; [done|]. eexists _, _. split; [apply parse_progress|].
  split; [done|].
  change (get _ (str "count")) with (Some (JNum (shareCount st) 0)).
  change (get _ (str "platforms"))
    with (Some (JArr (List.map JStr (sharedPlatforms st)))).
  cbn [count_or_zero platform_set].
  rewrite (as_safe_int_exact _ Hsafe), strings_of_strings.
  split; [done|]. split; [|done].
  f_equal. apply (new_Set_NoDup _ []). exact Hnd.
Qed.

(** A manager that exists is in step with its store: the store holds no
    record and the manager none either, or the record loads to the count
    and platforms of the manager. *)
Lemma reachable_in_step st :
  reachable st ->
  (shareCount st = 0%Z /\ sharedPlatforms st = []
   /\ (localStorage st !! storage_key = None
       \/ exists saved, localStorage st !! storage_key = Some saved
                        /\ truthy saved = false))
  \/ exists saved,
       localStorage st !! storage_key = Some saved
       /\ loads saved (shareCount st) (sharedPlatforms st).
Proof.
  intros Hr. pose proof (reachable_invariant st Hr) as Hinv. revert Hinv.
  induction Hr as [page store st Hc|p st Hr IH]; intros [Hsafe Hnd].
  - unfold construct in Hc.
    destruct (loadProgress_returns _ _ Hc) as [[-> H]|(saved & Hls & Hl)].
    + left. split; [done|]. split; [done|exact H].
    + right. exists saved. split; [|done].
      assert (localStorage st = store) as ->; [|exact Hls].
      destruct (loadProgress_loads _ saved _ _ Hls Hl)
        as (st' & Hload & _ & _ & Hst).
      rewrite Hload in Hc. injection Hc as <-. exact Hst.
  - destruct (has p (sharedPlatforms st)) eqn:Hp.
    + destruct (registerShare_old p st Hp) as (-> & -> & ->).
      apply IH. by apply reachable_invariant.
    + right.
      destruct (registerShare_new p st Hp)
        as (st3 & H3c & H3s & -> & -> & ->).
      apply saved_loads.
      * rewrite H3c. apply incr_safe. by apply (reachable_invariant st).
      * rewrite H3s. apply NoDup_app.
        split; [by apply (reachable_invariant st)|]. split.
        -- intros x Hx Hx'. apply list_elem_of_singleton in Hx' as ->.
           apply has_elem in Hx. congruence.
        -- apply NoDup_singleton.
Qed.

End ReloadFacts.

Section Sharing.
Import SocialSharingManager.

(** X21.  On a store without saved progress the constructor returns, and
    after any sequence of share clicks (of at most 2^53 clicks) the
    platforms recorded are those clicked, each once and in the order of
    their first click, and the count is their number. *)
Theorem X21_share_count_counts_platforms (page : state)
    (store : gmap (list N) (list N)) (ps : list (list N)) :
  store !! storage_key = None ->
  (Z.of_nat (length ps) <= 2 ^ 53)%Z ->
  exists st0,
    construct page store = Returned st0
    /\ let st := fold_left (fun s p => registerShare p s) ps st0 in
       sharedPlatforms st = new_Set ps []
       /\ shareCount st = Z.of_nat (length (sharedPlatforms st))
       /\ NoDup (sharedPlatforms st)
       /\ (forall p, p ∈ sharedPlatforms st <-> p ∈ ps).
Proof.
  intros Hls Hlen. eexists. split.
  { unfold construct, loadProgress. cbn [localStorage set_storage].
    by rewrite Hls. }
  cbv zeta.
  destruct (SessionFacts.shares_counted ps
              (set_storage store (set_platforms [] (set_count 0 page))))
    as [H1 H2]; [done|cbn [sharedPlatforms set_storage set_platforms length]; lia|].
  cbv zeta in H1, H2. cbn [sharedPlatforms set_storage set_platforms] in H1.
  split; [exact H1|]. split; [exact H2|].
  rewrite H1. split.
  - apply SharingFacts.new_Set_keeps_NoDup, NoDup_nil_2.
  - intros p. rewrite SharingFacts.new_Set_elem, elem_of_nil. tauto.
Qed.

(** Twitter twice, then Facebook. *)
Lemma X21_share_count_counts_platforms_witness :
  exists st0,
    construct example_page ∅ = Returned st0
    /\ let st :=
         fold_left (fun s p => registerShare p s)
           [str "twitter"; str "twitter"; str "facebook"] st0 in
       sharedPlatforms st
       = new_Set [str "twitter"; str "twitter"; str "facebook"] []
       /\ shareCount st = Z.of_nat (length (sharedPlatforms st))
       /\ NoDup (sharedPlatforms st)
       /\ (forall p,
           p ∈ sharedPlatforms st
           <-> p ∈ [str "twitter"; str "twitter"; str "facebook"]).
Proof.
  apply (X21_share_count_counts_platforms example_page ∅
           [str "twitter"; str "twitter"; str "facebook"]).
  - apply lookup_empty.
  - cbn [length]. lia.
Defined.

(** X22.  A manager that exists is in step with its store: a new manager
    constructed on any page with the store as it is now returns, with the
    same count and the same platforms. *)
Theorem X22_progress_survives_reload (st : state) :
  reachable st ->
  forall page,
  exists st',
    construct page (localStorage st) = Returned st'
    /\ shareCount st' = shareCount st
    /\ sharedPlatforms st' = sharedPlatforms st.
Proof.
  intros Hr page.
  destruct (ReloadFacts.reachable_in_step st Hr)
    as [(Hc & Hp & Hls)|(saved & Hls & Hl)].
  - exists (set_storage (localStorage st)
              (set_platforms [] (set_count 0 page))).
    split; [|by rewrite Hc, Hp].
    unfold construct, loadProgress. cbn [localStorage set_storage].
    destruct Hls as [-> |(saved & -> & ->)]; reflexivity.
  - destruct (SessionFacts.loadProgress_loads
                (set_storage (localStorage st)
                   (set_platforms [] (set_count 0 page)))
                saved _ _ Hls Hl) as (st' & Hload & H1 & H2 & _).
    exists st'. done.
Qed.

(** The manager of the example page after a share on Twitter. *)
Lemma X22_progress_survives_reload_witness :
  exists st',
    construct example_page
      (localStorage (registerShare (str "twitter") example_page))
    = Returned st'
    /\ shareCount st'
       = shareCount (registerShare (str "twitter") example_page)
    /\ sharedPlatforms st'
       = sharedPlatforms (registerShare (str "twitter") example_page).
Proof.
  refine (X22_progress_survives_reload
            (registerShare (str "twitter") example_page) _ example_page).
  apply reach_registerShare, (reach_construct example_page ∅). reflexivity.
Defined.

End Sharing.

(** ** The donation panel *)

Section Donations.
Import ToastManager Form DonationManager.

(** X23.  A custom amount left in its field wins over a preset chosen
    afterwards.  [selectAmount] on a preset button hides the custom amount
    section, marks that button alone active and sets [selectedAmount] to
    the [parseInt] of its amount, but leaves the custom field as it is;
    with a name and an e-mail present and a custom value that is a
    positive number, the submit then passes validation and hands over the
    custom value as the amount, not the preset. *)
Theorem X23_custom_amount_overrides_preset (i : nat) (btn : amount_btn)
    (a : list N) (n : selected) (f : field) (pn : panel) :
  amountBtns pn !! i = Some btn ->
  btn_amount btn = Some a -> a <> str "custom" -> parseInt a = Some n ->
  customAmount (form pn) = Some f ->
  truthy (value f) = true -> string_le_zero (value f) = false ->
  truthy (value (donorName (form pn))) = true ->
  truthy (value (donorEmail (form pn))) = true ->
  exists pn' data,
    selectAmount i pn = Some pn'
    /\ customAmountSection_hidden pn' = true
    /\ selectedAmount (form pn') = n
    /\ (forall j b, amountBtns pn' !! j = Some b ->
        (amount_active b = true <-> j = i))
    /\ snd (handleSubmit_begin (form pn')) = Some data
    /\ d_amount data = AmountStr (value f).
Proof.
  intros Hb Ha Hc Hp Hf Ht Hz Hn He.
  unfold selectAmount. rewrite Hb. cbv zeta. rewrite Ha.
  assert (str_eqb a (str "custom") = false) as ->.
  { destruct (str_eqb a (str "custom")) eqn:E; [|done].
    apply JsonFacts.str_eqb_eq in E. done. }
  change (default (str "undefined") (Some a)) with a. rewrite Hp.
  eexists _, _. split; [reflexivity|].
  cbn [customAmountSection_hidden form amountBtns].
  split; [reflexivity|]. split; [reflexivity|].
  split.
  { intros j b. rewrite list_lookup_imap.
    destruct (amountBtns pn !! j); [|done]. intros [= <-].
    cbn [amount_active]. apply Nat.eqb_eq. }
  unfold handleSubmit_begin, finalAmount.
  cbn [donorName donorEmail customAmount set_selectedAmount].
  rewrite Hn, He, Hf, Ht. cbn [negb orb amount_rejected].
  rewrite Ht, Hz. cbn [negb orb snd d_amount]. split; reflexivity.
Qed.

(** Ten typed as custom amount, then the button for 50 chosen. *)
Lemma X23_custom_amount_overrides_preset_witness :
  exists pn' data,
    selectAmount 1 example_panel = Some pn'
    /\ customAmountSection_hidden pn' = true
    /\ selectedAmount (form pn') = SelNum 50
    /\ (forall j b, amountBtns pn' !! j = Some b ->
        (amount_active b = true <-> j = 1%nat))
    /\ snd (handleSubmit_begin (form pn')) = Some data
    /\ d_amount data = AmountStr (value (blank (str "10"))).
Proof.
  apply (X23_custom_amount_overrides_preset 1
           {| btn_amount := Some (str "50"); amount_active := false |}
           (str "50") (SelNum 50) (blank (str "10")) example_panel);
    try reflexivity.
  discriminate.
Defined.

(** X24.  On a page that has both the anonymous and the featured box, not
    both checked: after any sequence of clicks on the two boxes they are
    still not both checked, so no donation handed over is both anonymous
    and featured; and a further click on a box flips that box. *)
Theorem X24_anonymous_featured_exclusive (clicks : list click) (st : state) :
  is_Some (anonymousCheckbox st) -> is_Some (featuredCheckbox st) ->
  exclusive st ->
  let st' := fold_left (fun s c => click_on c s) clicks st in
  exclusive st'
  /\ is_Some (anonymousCheckbox st') /\ is_Some (featuredCheckbox st')
  /\ (forall data,
        snd (handleSubmit_begin st') = Some data ->
        d_anonymous data && d_featured data = false)
  /\ is_checked (anonymousCheckbox (click_anonymous st'))
     = negb (is_checked (anonymousCheckbox st'))
  /\ is_checked (featuredCheckbox (click_featured st'))
     = negb (is_checked (featuredCheckbox st')).
Proof.
  revert st. induction clicks as [|c clicks IH]; intros st Ha Hf Hx.
  - cbv zeta. cbn [fold_left].
    destruct Ha as [a Ha], Hf as [f Hf].
    split; [exact Hx|]. split; [by rewrite Ha|]. split; [by rewrite Hf|].
    split.
    + intros data. unfold handleSubmit_begin.
      repeat match goal with
        | |- context [if ?b then _ else _] => destruct b
        end; cbn [snd]; try discriminate.
      intros [= <-]. exact Hx.
    + unfold click_anonymous, click_featured. rewrite Ha, Hf.
      split; reflexivity.
  - cbn [fold_left]. apply IH; destruct Ha as [a Ha], Hf as [f Hf];
      unfold exclusive in *; rewrite Ha, Hf in Hx; cbn [is_checked] in Hx;
      destruct c; unfold click_on, click_anonymous, click_featured;
      rewrite Ha, Hf; cbn [anonymousCheckbox featuredCheckbox set_checkboxes
                              set_checked checked is_checked];
      cbv zeta;
      cbn [anonymousCheckbox featuredCheckbox set_checkboxes
             set_checked checked is_checked];
      try (by eexists);
      destruct (checked a) eqn:Ea, (checked f) eqn:Ef;
      cbn [negb andb checked set_checked]; rewrite ?Ea, ?Ef; done.
Qed.

(** The featured box is checked; a click on the anonymous box. *)
Lemma X24_anonymous_featured_exclusive_witness :
  exclusive
    (fold_left (fun s c => click_on c s) [ClickAnonymous]
       (form example_panel)).
Proof.
  apply (X24_anonymous_featured_exclusive [ClickAnonymous]
           (form example_panel)).
  - by eexists.
  - by eexists.
  - reflexivity.
Defined.

End Donations.

(** ** The FAQ accordion *)

Module FAQFacts.
Import FAQManager.

Lemma toggle_length i (faqItems : list bool) :
  length (toggleFAQ i faqItems) = length faqItems.
Proof.
  unfold toggleFAQ. destruct (faqItems !! i); [|done]. by rewrite length_imap.
Qed.

Lemma toggle_lookup i j (faqItems : list bool) isActive :
  faqItems !! i = Some isActive -> (j < length faqItems)%nat ->
  toggleFAQ i faqItems !! j = Some (if Nat.eqb j i then negb isActive else false).
Proof.
  intros Hi Hj. unfold toggleFAQ. rewrite Hi, list_lookup_imap.
  destruct (lookup_lt_is_Some_2 faqItems j Hj) as [x ->]. done.
Qed.

End FAQFacts.

Section FAQ.
Import FAQManager FAQFacts.

(** X25.  The FAQ list is an accordion.  A click on an item of the list
    closes every other item and flips the clicked one, so at most one item
    is open afterwards; a second [toggleFAQ] on the same item (the global
    [toggleFaq] of an [onclick] attribute beside the listener of [init])
    leaves the item as it was before the first and every other item
    closed. *)
Theorem X25_toggleFAQ (i : nat) (faqItems : list bool) (isActive : bool) :
  faqItems !! i = Some isActive ->
  toggleFAQ i faqItems
    = <[i := negb isActive]> (replicate (length faqItems) false)
  /\ toggleFAQ i (toggleFAQ i faqItems)
    = <[i := isActive]> (replicate (length faqItems) false).
Proof.
  intros Hi.
  assert (Hlt : (i < length faqItems)%nat) by (by eapply lookup_lt_Some).
  assert (H1 : toggleFAQ i faqItems
    = <[i := negb isActive]> (replicate (length faqItems) false)).
  { apply list_eq. intros j.
    destruct (decide (j < length faqItems)%nat) as [Hj|Hj].
    - rewrite (toggle_lookup i j faqItems isActive Hi Hj).
      destruct (Nat.eqb_spec j i) as [->|Hne].
      + by rewrite list_lookup_insert_eq by (by rewrite length_replicate).
      + rewrite list_lookup_insert_ne by done.
        symmetry. by apply lookup_replicate_2.
    - rewrite !lookup_ge_None_2; [done| |].
      + rewrite length_insert, length_replicate. lia.
      + rewrite toggle_length. lia. }
  split; [exact H1|].
  assert (Hi' : toggleFAQ i faqItems !! i = Some (negb isActive)).
  { rewrite (toggle_lookup i i faqItems isActive Hi Hlt).
    by rewrite Nat.eqb_refl. }
  apply list_eq. intros j.
  destruct (decide (j < length faqItems)%nat) as [Hj|Hj].
  - rewrite (toggle_lookup i j _ _ Hi') by (by rewrite toggle_length).
    rewrite negb_involutive.
    destruct (Nat.eqb_spec j i) as [->|Hne].
    + by rewrite list_lookup_insert_eq by (by rewrite length_replicate).
    + rewrite list_lookup_insert_ne by done.
      symmetry. by apply lookup_replicate_2.
  - rewrite !lookup_ge_None_2; [done| |].
    + rewrite length_insert, length_replicate. lia.
    + rewrite !toggle_length. lia.
Qed.

Lemma X25_toggleFAQ_witness :
  toggleFAQ 1 [true; false; false]
    = <[1%nat := negb false]> (replicate (length [true; false; false]) false)
  /\ toggleFAQ 1 (toggleFAQ 1 [true; false; false])
    = <[1%nat := false]> (replicate (length [true; false; false]) false).
Proof. apply (X25_toggleFAQ 1 [true; false; false] false). reflexivity. Defined.

End FAQ.

(** ** The typing effect *)

Module TypingFacts.
Import TypingEffect.

Lemma typing_running (e txt : list N) (k : nat) :
  (k < length txt)%nat ->
  Nat.iter k timeout (start (construct e txt))
  = {| textContent := take (S k) txt; text := txt; index := S k;
       waiting := 1 |}.
Proof.
  induction k as [|k IH]; intros Hk.
  - destruct txt as [|c txt]; [cbn in Hk; lia|]. reflexivity.
  - rewrite Nat.iter_succ, IH by lia.
    destruct (lookup_lt_is_Some_2 txt (S k) Hk) as [c Hc].
    unfold timeout, type. cbn [waiting text index textContent].
    rewrite Hc. by rewrite (take_S_r txt (S k) c Hc).
Qed.

Lemma typing_finished (e txt : list N) :
  Nat.iter (length txt) timeout (start (construct e txt))
  = {| textContent := txt; text := txt; index := length txt; waiting := 0 |}.
Proof.
  destruct (length txt) as [|n] eqn:Hn.
  - destruct txt; [reflexivity|done].
  - rewrite Nat.iter_succ, typing_running by lia.
    unfold timeout, type. cbn [waiting text index textContent].
    rewrite lookup_ge_None_2 by lia.
    by rewrite <- Hn, firstn_all.
Qed.

Lemma typing_idle (st : state) (n : nat) :
  waiting st = 0%nat -> Nat.iter n timeout st = st.
Proof.
  intros Hw. induction n as [|n IH]; [done|].
  rewrite Nat.iter_succ, IH. unfold timeout. by rewrite Hw.
Qed.

End TypingFacts.

Section Typing.
Import TypingEffect TypingFacts.

(** X26.  [start] types the text one character per timer: after [k]
    timeouts, for [k] less than the length, the element shows the first
    [k + 1] characters; after as many timeouts as the text is long it shows
    the whole text and no timer waits.  [start] never resets [index], so a
    second [start] after the text is complete empties the element and
    types nothing: the element stays empty. *)
Theorem X26_typing_effect (element_text txt : list N) :
  let finished :=
    Nat.iter (length txt) timeout (start (construct element_text txt)) in
  (forall k, (k < length txt)%nat ->
     textContent (Nat.iter k timeout (start (construct element_text txt)))
     = take (S k) txt)
  /\ textContent finished = txt /\ waiting finished = 0%nat
  /\ (forall n, textContent (Nat.iter n timeout (start finished)) = []).
Proof.
  cbv zeta. rewrite typing_finished. repeat split.
  - intros k Hk. by rewrite typing_running.
  - intros n. rewrite typing_idle.
    + unfold start, type. cbn [text index]. by rewrite lookup_ge_None_2.
    + unfold start, type. cbn [text index]. by rewrite lookup_ge_None_2.
Qed.

End Typing.


(** ** Debounced and throttled calls *)

Module CallFacts.

Lemma debounce_calls {A} (cs : list A) (a : A) (st : Debounce.state A) :
  Debounce.run_all (map Debounce.Call (cs ++ [a])) st
  = {| Debounce.waiting := Some a; Debounce.calls := Debounce.calls st |}.
Proof.
  unfold Debounce.run_all. rewrite map_app, foldl_app.
  cbn [map foldl Debounce.run]. unfold Debounce.executedFunction.
  f_equal. generalize st. clear. induction cs as [|c cs IH]; intros st; [done|].
  cbn [map foldl]. rewrite IH. done.
Qed.

Lemma debounce_sublist {A} (evs : list (Debounce.event A))
    (st : Debounce.state A) :
  Debounce.calls (Debounce.run_all evs st)
    ++ option_list (Debounce.waiting (Debounce.run_all evs st))
  `sublist_of` Debounce.calls st ++ option_list (Debounce.waiting st)
    ++ Debounce.arguments evs.
Proof.
  revert st. induction evs as [|ev evs IH]; intros st.
  - cbn. by rewrite app_nil_r.
  - change (Debounce.run_all (ev :: evs) st)
      with (Debounce.run_all evs (Debounce.run ev st)).
    etrans; [apply IH|]. destruct ev as [a|].
    + cbn. apply sublist_app; [done|].
      change (a :: Debounce.arguments evs)
        with ([a] ++ Debounce.arguments evs).
      apply sublist_inserts_l. done.
    + unfold Debounce.arguments. cbn [omap Debounce.run]. unfold Debounce.later.
      destruct (Debounce.waiting st) as [b|] eqn:Hw; cbn; [|by rewrite Hw].
      by rewrite <- app_assoc.
Qed.

Lemma throttle_blocked {A} (cs : list A) (st : Throttle.state A) :
  Throttle.inThrottle st = true ->
  Throttle.run_all (map Throttle.Call cs) st = st.
Proof.
  intros Hin. unfold Throttle.run_all.
  induction cs as [|c cs IH]; [done|].
  cbn [map foldl Throttle.run]. unfold Throttle.throttled.
  rewrite Hin. exact IH.
Qed.

Lemma throttle_burst {A} (a : A) (cs : list A) (st : Throttle.state A) :
  Throttle.inThrottle st = false ->
  Throttle.run_all (map Throttle.Call (a :: cs)) st
  = {| Throttle.inThrottle := true;
       Throttle.calls := Throttle.calls st ++ [a] |}.
Proof.
  intros Hin.
  change (Throttle.run_all (map Throttle.Call (a :: cs)) st)
    with (Throttle.run_all (map Throttle.Call cs) (Throttle.throttled a st)).
  unfold Throttle.throttled. rewrite Hin. cbn [negb].
  by apply throttle_blocked.
Qed.

Lemma throttle_sublist {A} (evs : list (Throttle.event A))
    (st : Throttle.state A) :
  Throttle.calls (Throttle.run_all evs st)
  `sublist_of` Throttle.calls st ++ Throttle.arguments evs.
Proof.
  revert st. induction evs as [|ev evs IH]; intros st.
  - cbn. by rewrite app_nil_r.
  - change (Throttle.run_all (ev :: evs) st)
      with (Throttle.run_all evs (Throttle.run ev st)).
    etrans; [apply IH|]. destruct ev as [a|].
    + cbn. unfold Throttle.throttled.
      destruct (Throttle.inThrottle st); cbn.
      * apply sublist_app; [done|]. by apply sublist_cons.
      * by rewrite <- app_assoc.
    + unfold Throttle.arguments. cbn [omap Throttle.run]. unfold Throttle.reset.
      by destruct (Throttle.inThrottle st).
Qed.

End CallFacts.

Section Calls.

(** X27.  [debounce]: however the returned function was used before,
    after a run of calls with no wait between them [func] has not been
    called again; when the wait then passes it is called once, with the
    arguments of the last call of the run, and a further wait calls
    nothing.  Over any history the calls of [func] are a subsequence of
    the calls made. *)
Theorem X27_debounce {A : Type} (evs : list (Debounce.event A))
    (cs : list A) (a : A) :
  let st := Debounce.run_all evs Debounce.debounce in
  let burst := Debounce.run_all (map Debounce.Call (cs ++ [a])) st in
  Debounce.calls burst = Debounce.calls st
  /\ Debounce.calls (Debounce.later burst) = Debounce.calls st ++ [a]
  /\ Debounce.later (Debounce.later burst) = Debounce.later burst
  /\ Debounce.calls st `sublist_of` Debounce.arguments evs.
Proof.
  cbv zeta. rewrite CallFacts.debounce_calls. repeat split.
  pose proof (CallFacts.debounce_sublist evs Debounce.debounce) as H.
  cbn [Debounce.debounce Debounce.calls Debounce.waiting option_list app] in H.
  etrans; [|exact H]. by apply sublist_inserts_r.
Qed.

(** X28.  [throttle]: when no limit is running, a run of calls with no
    wait between them lets the first one through and drops the others;
    once the limit has passed the next call goes through again.  Over any
    history the calls of [func] are a subsequence of the calls made. *)
Theorem X28_throttle {A : Type} (evs : list (Throttle.event A)) (cs : list A)
    (a b : A) :
  let st := Throttle.run_all evs Throttle.throttle in
  Throttle.inThrottle st = false ->
  let burst := Throttle.run_all (map Throttle.Call (a :: cs)) st in
  Throttle.calls burst = Throttle.calls st ++ [a]
  /\ Throttle.calls (Throttle.throttled b (Throttle.reset burst))
     = Throttle.calls st ++ [a; b]
  /\ Throttle.calls st `sublist_of` Throttle.arguments evs.
Proof.
  cbv zeta. intros Hin. rewrite (CallFacts.throttle_burst a cs _ Hin).
  repeat split.
  - unfold Throttle.throttled, Throttle.reset. cbn. by rewrite <- app_assoc.
  - exact (CallFacts.throttle_sublist evs Throttle.throttle).
Qed.

Lemma X28_throttle_witness :
  Throttle.inThrottle
    (Throttle.run_all [Throttle.Call 1%nat; Throttle.Call 2%nat; Throttle.Wait]
       Throttle.throttle) = false
  /\ Throttle.calls
       (Throttle.run_all (map Throttle.Call [3; 4; 5]%nat)
          (Throttle.run_all
             [Throttle.Call 1%nat; Throttle.Call 2%nat; Throttle.Wait]
             Throttle.throttle))
     = [1; 3]%nat.
Proof.
  split; [reflexivity|].
  exact (proj1 (X28_throttle
    [Throttle.Call 1%nat; Throttle.Call 2%nat; Throttle.Wait] [4; 5]%nat
    3%nat 6%nat eq_refl)).
Defined.

End Calls.

(** ** The theme customizer of the site script *)

Module CustomizerFacts.
Import JSFacts Json JsonFacts ThemeCustomizer.

Lemma parse_record p s a h m :
  parse (stringify (theme_record p s a h m)) = Some (theme_record p s a h m).
Proof.
  unfold parse, theme_record.
  set (text := stringify _).
  assert (Htext : text =
    123 :: quote (str "primary") ++ 58 :: quote p ++ 44 ::
      (quote (str "secondary") ++ 58 :: quote s ++ 44 ::
        (quote (str "accent") ++ 58 :: quote a ++ 44 ::
          (quote (str "highlight") ++ 58 :: quote h ++ 44 ::
            (quote (str "mode") ++ 58 :: quote m ++ 125 :: []))))).
  { subst text. cbn [stringify List.map join_comma].
    repeat (rewrite <- ?app_assoc; cbn [app]; f_equal). }
  assert (Hlen : (6 <= length text)%nat).
  { rewrite Htext. simpl. lia. }
  destruct (length text) as [|[|[|[|[|[|f]]]]]] eqn:Hl; try lia.
  rewrite Htext.
  rewrite (parse_value_object _ _ _ []
             [(str "primary", JStr p); (str "secondary", JStr s);
              (str "accent", JStr a); (str "highlight", JStr h);
              (str "mode", JStr m)]); [done|].
  rewrite (parse_members_more _ _ _ _ (JStr p) _ (parse_value_string _ _ _)).
  rewrite (parse_members_more _ _ _ _ (JStr s) _ (parse_value_string _ _ _)).
  rewrite (parse_members_more _ _ _ _ (JStr a) _ (parse_value_string _ _ _)).
  rewrite (parse_members_more _ _ _ _ (JStr h) _ (parse_value_string _ _ _)).
  rewrite (parse_members_last _ _ _ _ (JStr m) [] (parse_value_string _ _ _)).
  done.
Qed.

Lemma plain_not_space c :
  ThemeManager.css_plain_char c = true -> is_space c = false.
Proof.
  unfold ThemeManager.css_plain_char, is_space, is_digit. lia.
Qed.

Lemma plain_trim v : ThemeManager.css_plain v = true -> trim v = v.
Proof.
  unfold ThemeManager.css_plain. intros [_ H]%andb_true_iff.
  apply trim_id. rewrite forallb_forall in *. intros c Hc.
  by rewrite (plain_not_space c (H c Hc)).
Qed.

Lemma plain_not_empty v :
  ThemeManager.css_plain v = true -> is_empty v = false.
Proof.
  unfold ThemeManager.css_plain, truthy. intros [H _]%andb_true_iff.
  by apply negb_true_iff.
Qed.

Lemma updateColor_plain var v st :
  ThemeManager.css_plain v = true ->
  updateColor var v st
  = Some (saveTheme (set_inline (<[var := v]> (inline_vars st)) st)).
Proof.
  intros H. unfold updateColor. by rewrite (plain_not_empty v H), H.
Qed.



Lemma painted_primary p s a h m :
  painted p s a h m !! str "--primary-color" = Some p.
Proof.
  unfold painted.
  rewrite !lookup_insert_ne by (by vm_compute). by rewrite lookup_insert_eq.
Qed.

Lemma painted_secondary p s a h m :
  painted p s a h m !! str "--secondary-color" = Some s.
Proof.
  unfold painted.
  rewrite !lookup_insert_ne by (by vm_compute). by rewrite lookup_insert_eq.
Qed.

Lemma painted_accent p s a h m :
  painted p s a h m !! str "--accent-color" = Some a.
Proof.
  unfold painted.
  rewrite !lookup_insert_ne by (by vm_compute). by rewrite lookup_insert_eq.
Qed.

Lemma painted_highlight p s a h m :
  painted p s a h m !! str "--highlight-color" = Some h.
Proof. unfold painted. by rewrite lookup_insert_eq. Qed.

(** The four [updateColor] calls on plain values: the inline
    declarations, and the theme that the last of them saves. *)
Lemma update_colors_plain p s a h st :
  ThemeManager.css_plain p = true -> ThemeManager.css_plain s = true ->
  ThemeManager.css_plain a = true -> ThemeManager.css_plain h = true ->
  update_colors p s a h st
  = Some
      (set_localStorage
         (<[storage_key :=
              stringify (theme_record p s a h (shown_mode st))]>
            (localStorage st))
         (set_inline (painted p s a h (inline_vars st)) st)).
Proof.
  intros Hp Hs Ha Hh. unfold update_colors.
  rewrite (updateColor_plain _ p _ Hp). rewrite (updateColor_plain _ s _ Hs).
  rewrite (updateColor_plain _ a _ Ha). rewrite (updateColor_plain _ h _ Hh).
  f_equal. unfold saveTheme at 1.
  cbn [inline_vars sheet_vars data_theme localStorage set_inline
       set_localStorage saveTheme primaryColorPicker_value paletteColors
       modeButtons themePresets notifications].
  unfold getPropertyValue.
  cbn [inline_vars sheet_vars data_theme localStorage set_inline
       set_localStorage saveTheme primaryColorPicker_value paletteColors
       modeButtons themePresets notifications].
  fold (painted p s a h (inline_vars st)).
  rewrite painted_primary, painted_secondary, painted_accent,
    painted_highlight.
  rewrite (plain_trim p Hp), (plain_trim s Hs), (plain_trim a Ha),
    (plain_trim h Hh).
  rewrite !insert_insert_eq. reflexivity.
Qed.


Lemma record_truthy p s a h m :
  truthy (stringify (theme_record p s a h m)) = true.
Proof. reflexivity. Qed.

(** [loadTheme] on a store that holds a theme record of plain colours. *)
Lemma load_record p s a h m pg :
  ThemeManager.css_plain p = true -> ThemeManager.css_plain s = true ->
  ThemeManager.css_plain a = true -> ThemeManager.css_plain h = true ->
  localStorage pg !! storage_key = Some (stringify (theme_record p s a h m)) ->
  exists st',
    loadTheme pg = Returned st'
    /\ (shown "--primary-color" st' = p /\ shown "--secondary-color" st' = s
        /\ shown "--accent-color" st' = a /\ shown "--highlight-color" st' = h)
    /\ data_theme st'
       = (if str_eqb m (str "dark") then Some (str "dark")
          else data_theme pg)
    /\ localStorage st' !! storage_key
       = Some (stringify (theme_record p s a h (shown_mode pg))).
Proof.
  intros Hp Hs Ha Hh Hls. unfold loadTheme.
  rewrite Hls, record_truthy, parse_record.
  change (get (theme_record p s a h m) (str "primary")) with (Some (JStr p)).
  change (get (theme_record p s a h m) (str "secondary")) with (Some (JStr s)).
  change (get (theme_record p s a h m) (str "accent")) with (Some (JStr a)).
  change (get (theme_record p s a h m) (str "highlight")) with (Some (JStr h)).
  change (get (theme_record p s a h m) (str "mode")) with (Some (JStr m)).
  cbn [ThemeManager.to_DOMString ThemeManager.to_String theme_record].
  rewrite (update_colors_plain p s a h pg Hp Hs Ha Hh).
  eexists. split; [reflexivity|]. split; [|split].
  - unfold shown, getPropertyValue.
    cbn [inline_vars set_localStorage set_inline].
    rewrite painted_primary, painted_secondary, painted_accent,
      painted_highlight.
    by rewrite (plain_trim p Hp), (plain_trim s Hs), (plain_trim a Ha),
      (plain_trim h Hh).
  - reflexivity.
  - cbn [localStorage set_localStorage set_inline].
    by rewrite lookup_insert_eq.
Qed.

Lemma toggle_saved i button st :
  modeButtons st !! i = Some button ->
  localStorage (toggleMode i st) !! storage_key
  = Some (stringify
            (theme_record (shown "--primary-color" st)
               (shown "--secondary-color" st) (shown "--accent-color" st)
               (shown "--highlight-color" st)
               (if mode_is button "dark" then str "dark" else str "light")))
  /\ data_theme (toggleMode i st)
     = (if mode_is button "dark" then Some (str "dark") else None).
Proof.
  intros Hb. unfold toggleMode. rewrite Hb. split; [|reflexivity].
  unfold saveTheme. cbn [localStorage set_localStorage data_theme].
  rewrite lookup_insert_eq. by destruct (mode_is button "dark").
Qed.

Lemma fresh_light ls pg : shown_mode (fresh ls pg) = str "light".
Proof. reflexivity. Qed.

End CustomizerFacts.

Section Customizer.
Import Json ThemeCustomizer CustomizerFacts.

(** X29.  The customizer keeps dark mode for one page load only.  A click
    on the dark mode button sets the attribute and saves the theme with
    mode [dark]; when the colours saved are plain values, the next load
    ([loadTheme] on a page with no inline declaration and no [data-theme])
    shows the same four colours and dark mode, but its [updateColor]
    calls save the theme before the mode is applied, so the store then
    holds mode [light]; the load after that one shows the same colours
    and no dark mode. *)
Theorem X29_customizer_dark_mode_lasts_one_load (i : nat) (button : mode_btn)
    (st pg1 pg2 : state) :
  modeButtons st !! i = Some button ->
  btn_mode button = Some (str "dark") ->
  ThemeManager.css_plain (shown "--primary-color" st) = true ->
  ThemeManager.css_plain (shown "--secondary-color" st) = true ->
  ThemeManager.css_plain (shown "--accent-color" st) = true ->
  ThemeManager.css_plain (shown "--highlight-color" st) = true ->
  exists first second,
    data_theme (toggleMode i st) = Some (str "dark")
    /\ loadTheme (fresh (localStorage (toggleMode i st)) pg1) = Returned first
    /\ data_theme first = Some (str "dark")
    /\ (forall name,
          name ∈ ["--primary-color"; "--secondary-color"; "--accent-color";
                  "--highlight-color"]%string ->
          shown name first = shown name st)
    /\ localStorage first !! storage_key
       = Some (stringify
                 (theme_record (shown "--primary-color" st)
                    (shown "--secondary-color" st)
                    (shown "--accent-color" st)
                    (shown "--highlight-color" st) (str "light")))
    /\ loadTheme (fresh (localStorage first) pg2) = Returned second
    /\ data_theme second = None
    /\ (forall name,
          name ∈ ["--primary-color"; "--secondary-color"; "--accent-color";
                  "--highlight-color"]%string ->
          shown name second = shown name st).
Proof.
  intros Hb Hm Hp Hs Ha Hh.
  destruct (toggle_saved i button st Hb) as [Hsaved Hdark].
  assert (Hd : mode_is button "dark" = true) by (unfold mode_is; by rewrite Hm).
  rewrite Hd in Hsaved, Hdark.
  destruct (load_record _ _ _ _ (str "dark")
              (fresh (localStorage (toggleMode i st)) pg1) Hp Hs Ha Hh Hsaved)
    as (first & Hl1 & (H1p & H1s & H1a & H1h) & Hd1 & Hs1).
  rewrite fresh_light in Hs1.
  destruct (load_record _ _ _ _ (str "light")
              (fresh (localStorage first) pg2) Hp Hs Ha Hh Hs1)
    as (second & Hl2 & (H2p & H2s & H2a & H2h) & Hd2 & _).
  exists first, second.
  split; [exact Hdark|]. split; [exact Hl1|]. split; [exact Hd1|].
  split.
  { intros name Hn. rewrite !elem_of_cons in Hn.
    destruct Hn as [->|[->|[->|[->|Hn]]]]; [done..|].
    by apply elem_of_nil in Hn. }
  split; [exact Hs1|]. split; [exact Hl2|]. split; [exact Hd2|].
  intros name Hn. rewrite !elem_of_cons in Hn.
  destruct Hn as [->|[->|[->|[->|Hn]]]]; [done..|].
  by apply elem_of_nil in Hn.
Qed.

Lemma X29_customizer_dark_mode_lasts_one_load_witness :
  exists first second,
    data_theme (toggleMode 1 example_page) = Some (str "dark")
    /\ loadTheme (fresh (localStorage (toggleMode 1 example_page)) example_page)
       = Returned first
    /\ data_theme first = Some (str "dark")
    /\ (forall name,
          name ∈ ["--primary-color"; "--secondary-color"; "--accent-color";
                  "--highlight-color"]%string ->
          shown name first = shown name example_page)
    /\ localStorage first !! storage_key
       = Some (stringify
                 (theme_record (shown "--primary-color" example_page)
                    (shown "--secondary-color" example_page)
                    (shown "--accent-color" example_page)
                    (shown "--highlight-color" example_page) (str "light")))
    /\ loadTheme (fresh (localStorage first) example_page) = Returned second
    /\ data_theme second = None
    /\ (forall name,
          name ∈ ["--primary-color"; "--secondary-color"; "--accent-color";
                  "--highlight-color"]%string ->
          shown name second = shown name example_page).
Proof.
  apply (X29_customizer_dark_mode_lasts_one_load 1
           {| btn_mode := Some (str "dark"); btn_active := false |}
           example_page example_page example_page);
    vm_compute; reflexivity.
Defined.


(** X30.  [resetTheme] forgets the saved theme.  From any page it
    returns with the four default colours shown, no [data-theme], exactly
    the light mode buttons active and, although each of its four
    [updateColor] calls saves a theme, no theme in the store; the next
    load then changes nothing on the page. *)
Theorem X30_resetTheme_forgets (st pg : state) :
  exists st',
    resetTheme st = Some st'
    /\ localStorage st' !! storage_key = None
    /\ data_theme st' = None
    /\ shown "--primary-color" st' = default_primary
    /\ shown "--secondary-color" st' = default_secondary
    /\ shown "--accent-color" st' = default_accent
    /\ shown "--highlight-color" st' = default_highlight
    /\ (forall b, b ∈ modeButtons st' -> btn_active b = mode_is b "light")
    /\ loadTheme (fresh (localStorage st') pg)
       = Returned (fresh (localStorage st') pg).
Proof.
  unfold resetTheme.
  rewrite (update_colors_plain default_primary default_secondary
             default_accent default_highlight st) by reflexivity.
  eexists. split; [reflexivity|].
  cbn [localStorage data_theme modeButtons set_localStorage set_inline].
  split; [by rewrite lookup_delete_eq|]. split; [reflexivity|].
  unfold shown, getPropertyValue. cbn [inline_vars set_localStorage set_inline].
  rewrite painted_primary, painted_secondary, painted_accent,
    painted_highlight.
  do 4 (split; [reflexivity|]). split.
  - intros b (b0 & -> & _)%list_elem_of_fmap. reflexivity.
  - unfold loadTheme. cbn [localStorage fresh].
    by rewrite lookup_delete_eq.
Qed.

End Customizer.
